(** * Fleet and work-order management: lifecycle and authorization

    A shallow embedding of the parts of the application that carry its
    design content:

    - [AuthStore]   : the client-side authentication store
                      (src/stores/authStore.ts);
    - [Policy]      : the row-level authorization rules and the [is_admin]
                      helper (the SQL migration);
    - [Backend]     : the hosted store as the client sees it: tables, and
                      select / insert / update requests filtered by the
                      rules of [Policy];
    - [VehicleModal], [Settings] : the vehicle forms and their handlers;
    - [WorkOrderModal], [WorkOrders] : work-order creation, status update
                      and completion, and the buttons that lead to them;
    - [Frame], [Sample] : predicates on table contents and a small fleet;
    - [VehicleForm] : the controls of the vehicle form and what they edit;
    - [App]         : the route table, the side bar and the profile fetch;
    - [Dashboard]   : the statistics of the dashboard;
    - [Profiles], [WorkOrderSettings] : the other tabs of the settings page;
    - [Backup]      : the backup script (src/backupAllTables.ts);
    - [OrderFrame]  : what a work-order update leaves alone.

    Handlers are written in a small state-and-error monad over the backend:
    every awaited request threads the store, and a request that answers with
    an error aborts the rest of the [try] block, as the [throw] in the
    source does.  Requests are answered by the store alone: a request that
    gets lost on the network is outside the model.  What a handler needs
    from its environment (the clock, the id the store generates for a new
    row) is an argument.  A column the client types as nullable is an
    option; a number the client computes with is the double nearest to the
    integer. *)

From Stdlib Require Import Ascii String List ZArith Bool Lia Sorted Permutation.
Import ListNotations.
Open Scope string_scope.

Set Implicit Arguments.

(** ** JavaScript values that the handlers branch on *)

(** JavaScript truthiness of a string: only the empty string is falsy. *)
Definition truthy (s : string) : bool :=
  match s with
  | EmptyString => false
  | String _ _ => true
  end.

(** [s || null] on a string. *)
Definition or_null (s : string) : option string :=
  if truthy s then Some s else None.

(** [o || ''] on a nullable string. *)
Definition or_empty (o : option string) : string :=
  match o with
  | Some s => s
  | None => ""
  end.

(** [x?.id || null] where [x?.id] is a string or undefined. *)
Definition opt_or_null (o : option string) : option string :=
  match o with
  | Some s => or_null s
  | None => None
  end.

(** A field of an update payload.  A key whose value is [undefined] is
    dropped when the payload is serialised, so the column keeps its value;
    [null] clears the column. *)
Inductive Field (A : Type) : Type :=
| Undefined : Field A
| Null : Field A
| Value : A -> Field A.

Arguments Undefined {A}.
Arguments Null {A}.
Arguments Value {A} _.

Definition patch_field {A : Type} (old : option A) (f : Field A) : option A :=
  match f with
  | Undefined => old
  | Null => None
  | Value a => Some a
  end.

(** [cond ? x : null] where [x] may be undefined. *)
Definition field_of_optional {A : Type} (o : option A) : Field A :=
  match o with
  | Some a => Value a
  | None => Undefined
  end.

(** ** Enumerations of the data model *)

Inductive Role : Type := admin | user.

Inductive VehicleStatus : Type := available | assigned | out_of_service.

Inductive WorkOrderStatus : Type := pending | in_progress | completed | cancelled.

Definition Role_eqb (a b : Role) : bool :=
  match a, b with
  | admin, admin | user, user => true
  | _, _ => false
  end.

Definition VehicleStatus_eqb (a b : VehicleStatus) : bool :=
  match a, b with
  | available, available | assigned, assigned
  | out_of_service, out_of_service => true
  | _, _ => false
  end.

Definition WorkOrderStatus_eqb (a b : WorkOrderStatus) : bool :=
  match a, b with
  | pending, pending | in_progress, in_progress
  | completed, completed | cancelled, cancelled => true
  | _, _ => false
  end.

(** ** The authentication store (src/stores/authStore.ts) *)

Module AuthStore.

Record Session : Type := { user_id : option string }.

Record Profile : Type := {
  id : string;
  role : Role;
  full_name : string;
  badge_number : option string
}.

Record AuthState : Type := {
  session : option Session;
  profile : option Profile;
  isAdmin : bool
}.

(** The state [create] starts from. *)
Definition initial : AuthState :=
  {| session := None; profile := None; isAdmin := false |}.

(** [setSession: (session) => set({ session })]: a partial update, the
    other keys keep their values. *)
Definition setSession (s : option Session) (st : AuthState) : AuthState :=
  {| session := s; profile := profile st; isAdmin := isAdmin st |}.

(** [profile?.role === 'admin']. *)
Definition role_is_admin (p : option Profile) : bool :=
  match p with
  | Some pr => Role_eqb (role pr) admin
  | None => false
  end.

Definition setProfile (p : option Profile) (st : AuthState) : AuthState :=
  {| session := session st; profile := p; isAdmin := role_is_admin p |}.

(** How the awaited [supabase.auth.signOut()] ends. *)
Inductive Settled : Type := Resolved | Rejected.

(** [signOut]: the [set] runs only after the awaited call resolved. *)
Definition signOut (r : Settled) (st : AuthState) : AuthState :=
  match r with
  | Resolved => {| session := None; profile := None; isAdmin := false |}
  | Rejected => st
  end.

(** The operations of the store. *)
Inductive Op : Type :=
| OpSetSession (s : option Session)
| OpSetProfile (p : option Profile)
| OpSignOut (r : Settled).

Definition run (o : Op) (st : AuthState) : AuthState :=
  match o with
  | OpSetSession s => setSession s st
  | OpSetProfile p => setProfile p st
  | OpSignOut r => signOut r st
  end.

Definition run_all (ops : list Op) (st : AuthState) : AuthState :=
  fold_left (fun acc o => run o acc) ops st.

(** [isAdmin] agrees with the stored profile. *)
Definition admin_consistent (st : AuthState) : Prop :=
  isAdmin st = true <->
  exists p, profile st = Some p /\ role p = admin.

End AuthStore.

(** ** Row-level authorization rules (the SQL migration) *)

Module Policy.

Inductive Table : Type :=
| profiles | vehicles | vehicle_status_history | work_orders.

Inductive Command : Type := SELECT | INSERT | UPDATE | DELETE.

(** [FOR SELECT], [FOR INSERT], ... or [FOR ALL]. *)
Inductive Scope : Type :=
| FOR (c : Command)
| FOR_ALL.

(** The three expressions the rules use. *)
Inductive Expr : Type :=
| TRUE                (* USING (true) / WITH CHECK (true) *)
| IS_ADMIN_AUTH_UID   (* USING (is_admin(auth.uid())) *)
| AUTH_UID_EQ_ID.     (* USING (auth.uid() = id) *)

Record Rule : Type := {
  name : string;
  on : Table;
  scope : Scope;
  expr : Expr
}.

(** The [CREATE POLICY] statements, in the order of the migration.  Every
    one of them is [TO authenticated]. *)
Definition rules : list Rule := [
  {| name := "Users can view their own profile";
     on := profiles; scope := FOR SELECT; expr := AUTH_UID_EQ_ID |};
  {| name := "Admins can view all profiles";
     on := profiles; scope := FOR SELECT; expr := IS_ADMIN_AUTH_UID |};
  {| name := "Admins can update profiles";
     on := profiles; scope := FOR UPDATE; expr := IS_ADMIN_AUTH_UID |};
  {| name := "All authenticated users can view vehicles";
     on := vehicles; scope := FOR SELECT; expr := TRUE |};
  {| name := "Admins can modify vehicles";
     on := vehicles; scope := FOR_ALL; expr := IS_ADMIN_AUTH_UID |};
  {| name := "All authenticated users can view status history";
     on := vehicle_status_history; scope := FOR SELECT; expr := TRUE |};
  {| name := "All users can create status history";
     on := vehicle_status_history; scope := FOR INSERT; expr := TRUE |};
  {| name := "All authenticated users can view work orders";
     on := work_orders; scope := FOR SELECT; expr := TRUE |};
  {| name := "All users can create work orders";
     on := work_orders; scope := FOR INSERT; expr := TRUE |};
  {| name := "Admins can update work orders";
     on := work_orders; scope := FOR UPDATE; expr := IS_ADMIN_AUTH_UID |}
].

Definition Table_eqb (a b : Table) : bool :=
  match a, b with
  | profiles, profiles | vehicles, vehicles
  | vehicle_status_history, vehicle_status_history
  | work_orders, work_orders => true
  | _, _ => false
  end.

Definition Command_eqb (a b : Command) : bool :=
  match a, b with
  | SELECT, SELECT | INSERT, INSERT | UPDATE, UPDATE | DELETE, DELETE => true
  | _, _ => false
  end.

(** A row of the [profiles] table. *)
Record ProfileRow : Type := {
  id : string;
  role : Role;
  full_name : string;
  badge_number : option string;
  email : string
}.

(** [is_admin(user_id)]:
    [EXISTS (SELECT 1 FROM profiles WHERE id = user_id AND role = 'admin')].
    It is SECURITY DEFINER, so it reads the whole table whoever calls it. *)
Definition is_admin (profiles_table : list ProfileRow) (user_id : string) : bool :=
  existsb (fun p => String.eqb (id p) user_id && Role_eqb (role p) admin)
          profiles_table.

Definition eval (profiles_table : list ProfileRow) (auth_uid row_id : string)
  (e : Expr) : bool :=
  match e with
  | TRUE => true
  | IS_ADMIN_AUTH_UID => is_admin profiles_table auth_uid
  | AUTH_UID_EQ_ID => String.eqb auth_uid row_id
  end.

Definition applies (r : Rule) (t : Table) (c : Command) : bool :=
  Table_eqb (on r) t &&
  match scope r with
  | FOR c' => Command_eqb c' c
  | FOR_ALL => true
  end.

(** The policy as a function of (principal, entity, operation); [row_id] is
    the [id] column of the row the operation touches.  Row security being
    enabled on the four tables, an operation passes when one applicable
    rule holds (the rules are permissive) and is refused when none does.  A
    request without an authenticated principal ([None]) matches no rule,
    all of them being [TO authenticated]. *)
Definition permitted (profiles_table : list ProfileRow)
  (principal : option string) (t : Table) (c : Command) (row_id : string) : bool :=
  match principal with
  | None => false
  | Some auth_uid =>
      existsb (fun r => applies r t c && eval profiles_table auth_uid row_id (expr r))
              rules
  end.

End Policy.

(** ** Rows of the tables *)

Module Vehicle.

Record t : Type := {
  id : string;
  unit_number : string;
  make : string;
  model : string;
  year : Z;
  status : VehicleStatus;
  assigned_to : option string;
  current_location : option string;
  notes : option string
}.

End Vehicle.

Module History.

Record t : Type := {
  vehicle_id : string;
  previous_status : option VehicleStatus;
  new_status : VehicleStatus;
  changed_by : string;
  notes : string
}.

End History.

Module WorkOrder.

(** A row of [work_orders].  [work_order_number: number | null]: every row
    this application inserts carries a number, a row written by other means
    may carry none. *)
Record t : Type := {
  id : string;
  vehicle_id : string;
  created_by : string;
  status : WorkOrderStatus;
  description : string;
  priority : string;
  location : string;
  mileage : string;
  resolved_at : option string;
  resolved_by : option string;
  resolution_notes : option string;
  created_at : string;
  updated_at : string;
  work_order_number : option Z
}.

End WorkOrder.

(** ** The hosted store, as the client drives it *)

Module Backend.

Record Db : Type := {
  profiles : list Policy.ProfileRow;
  vehicles : list Vehicle.t;
  vehicle_status_history : list History.t;
  work_orders : list WorkOrder.t
}.

(** The requests the client sends over the network. *)
Inductive Request : Type :=
| ReqSelect (t : Policy.Table)
| ReqInsert (t : Policy.Table)
| ReqUpdate (t : Policy.Table)
| ReqRpc (fn : string)
| ReqGetUser.

(** The store, the identity the client's token carries ([auth.uid()]), and
    the requests received so far (most recent first). *)
Record World : Type := {
  db : Db;
  auth_uid : option string;
  requests : list Request
}.

(** What a request answers: [{ data, error }]. *)
Inductive Response (A : Type) : Type :=
| Data : A -> Response A
| Error : string -> Response A.

Arguments Data {A} _.
Arguments Error {A} _.

(** An awaited call: it threads the store and answers. *)
Definition Call (A : Type) : Type := World -> World * Response A.

Definition ret {A : Type} (a : A) : Call A := fun w => (w, Data a).

(** [if (error) throw error]: an error skips the rest of the block. *)
Definition bind {A B : Type} (c : Call A) (k : A -> Call B) : Call B :=
  fun w =>
    match c w with
    | (w', Data a) => k a w'
    | (w', Error e) => (w', Error e)
    end.

Definition received (r : Request) (w : World) : World :=
  {| db := db w; auth_uid := auth_uid w; requests := r :: requests w |}.

Definition with_db (d : Db) (w : World) : World :=
  {| db := d; auth_uid := auth_uid w; requests := requests w |}.

Definition allowed (w : World) (t : Policy.Table) (c : Policy.Command)
  (row_id : string) : bool :=
  Policy.permitted (profiles (db w)) (auth_uid w) t c row_id.

(** [supabase.auth.getUser()]: [data.user?.id]. *)
Definition getUser : Call (option string) :=
  fun w => (received ReqGetUser w, Data (auth_uid w)).

(** *** work_orders *)

(** The client holds numbers as doubles.  [to_double z] is the double
    nearest to the integer [z] (ties to the even significand): [z] itself
    up to 2^53 in size, a multiple of the spacing of the doubles beyond.
    (The integers of a database column are far below the largest double.) *)
Definition to_double (z : Z) : Z :=
  if (Z.abs z <? 2 ^ 53)%Z then z
  else
    let s := (2 ^ (Z.log2 (Z.abs z) - 52))%Z in
    let q := (Z.abs z / s)%Z in
    let r := (Z.abs z mod s)%Z in
    let q' := if (2 * r <? s)%Z then q
              else if (s <? 2 * r)%Z then (q + 1)%Z
              else if Z.even q then q else (q + 1)%Z in
    (Z.sgn z * (q' * s))%Z.

(** [a] is not after [b] in [.order(..., { ascending: false })]: the store
    puts null before every number when it sorts in descending order (no
    [nullsFirst] option is given), and the larger number before the
    smaller. *)
Definition desc_le (a b : option Z) : bool :=
  match a, b with
  | None, _ => true
  | Some _, None => false
  | Some x, Some y => (y <=? x)%Z
  end.

Fixpoint insert_desc (x : option Z) (l : list (option Z)) : list (option Z) :=
  match l with
  | [] => [x]
  | y :: r => if desc_le x y then x :: l else y :: insert_desc x r
  end.

Fixpoint sort_desc (l : list (option Z)) : list (option Z) :=
  match l with
  | [] => []
  | x :: r => insert_desc x (sort_desc r)
  end.

Definition visible_work_orders (w : World) : list WorkOrder.t :=
  filter (fun o => allowed w Policy.work_orders Policy.SELECT (WorkOrder.id o))
         (work_orders (db w)).

(** [from('work_orders').select('work_order_number')
      .order('work_order_number', { ascending: false }).limit(1)]: the
    first of the readable rows in that order, its number as the client
    reads it. *)
Definition select_last_work_order_number : Call (list (option Z)) :=
  fun w =>
    (received (ReqSelect Policy.work_orders) w,
     Data (map (option_map to_double)
             (firstn 1 (sort_desc
                          (map WorkOrder.work_order_number
                             (visible_work_orders w)))))).

(** The columns an insert into [work_orders] provides. *)
Record WorkOrderInsert : Type := {
  ins_vehicle_id : string;
  ins_description : string;
  ins_priority : string;
  ins_location : string;
  ins_created_by : string;
  ins_mileage : string;
  ins_work_order_number : Z
}.

(** Modelled from the spec: the table definition of [work_orders] is not
    among the sources.  "Create ... sets status = pending": a row inserted
    without a status is pending; its resolution columns are null. *)
Definition default_work_order_status : WorkOrderStatus := pending.

(** The row the store keeps for an insert: the given columns, the generated
    [id], the store's clock for the timestamps, defaults elsewhere. *)
Definition new_work_order_row (new_id clock : string) (p : WorkOrderInsert)
  : WorkOrder.t :=
  {| WorkOrder.id := new_id;
     WorkOrder.vehicle_id := ins_vehicle_id p;
     WorkOrder.created_by := ins_created_by p;
     WorkOrder.status := default_work_order_status;
     WorkOrder.description := ins_description p;
     WorkOrder.priority := ins_priority p;
     WorkOrder.location := ins_location p;
     WorkOrder.mileage := ins_mileage p;
     WorkOrder.resolved_at := None;
     WorkOrder.resolved_by := None;
     WorkOrder.resolution_notes := None;
     WorkOrder.created_at := clock;
     WorkOrder.updated_at := clock;
     WorkOrder.work_order_number := Some (ins_work_order_number p) |}.

Definition set_work_orders (l : list WorkOrder.t) (d : Db) : Db :=
  {| profiles := profiles d; vehicles := vehicles d;
     vehicle_status_history := vehicle_status_history d; work_orders := l |}.

Definition set_vehicles (l : list Vehicle.t) (d : Db) : Db :=
  {| profiles := profiles d; vehicles := l;
     vehicle_status_history := vehicle_status_history d;
     work_orders := work_orders d |}.

Definition set_history (l : list History.t) (d : Db) : Db :=
  {| profiles := profiles d; vehicles := vehicles d;
     vehicle_status_history := l; work_orders := work_orders d |}.

(** [from('work_orders').insert([p])]: refused with an error when no rule
    lets the principal insert; otherwise the row is appended. *)
Definition insert_work_order (new_id clock : string) (p : WorkOrderInsert)
  : Call unit :=
  fun w =>
    let w1 := received (ReqInsert Policy.work_orders) w in
    if allowed w Policy.work_orders Policy.INSERT new_id
    then (with_db (set_work_orders
                     (work_orders (db w) ++ [new_work_order_row new_id clock p])
                     (db w)) w1,
          Data tt)
    else (w1, Error "new row violates row-level security policy").

(** The payload of an update of a work order. *)
Record WorkOrderUpdate : Type := {
  upd_status : WorkOrderStatus;
  upd_resolved_at : Field string;
  upd_resolved_by : Field string;
  upd_resolution_notes : Field string;
  upd_updated_at : string
}.

Definition patch_work_order (p : WorkOrderUpdate) (o : WorkOrder.t) : WorkOrder.t :=
  {| WorkOrder.id := WorkOrder.id o;
     WorkOrder.vehicle_id := WorkOrder.vehicle_id o;
     WorkOrder.created_by := WorkOrder.created_by o;
     WorkOrder.status := upd_status p;
     WorkOrder.description := WorkOrder.description o;
     WorkOrder.priority := WorkOrder.priority o;
     WorkOrder.location := WorkOrder.location o;
     WorkOrder.mileage := WorkOrder.mileage o;
     WorkOrder.resolved_at := patch_field (WorkOrder.resolved_at o) (upd_resolved_at p);
     WorkOrder.resolved_by := patch_field (WorkOrder.resolved_by o) (upd_resolved_by p);
     WorkOrder.resolution_notes :=
       patch_field (WorkOrder.resolution_notes o) (upd_resolution_notes p);
     WorkOrder.created_at := WorkOrder.created_at o;
     WorkOrder.updated_at := upd_updated_at p;
     WorkOrder.work_order_number := WorkOrder.work_order_number o |}.

(** [from('work_orders').update(p).eq('id', target)]: the rows with that id
    that the rules let the principal update are patched.  Rows the rules
    hide are skipped without an error. *)
Definition hit_order (w : World) (target : string) (o : WorkOrder.t) : bool :=
  String.eqb (WorkOrder.id o) target
  && allowed w Policy.work_orders Policy.UPDATE (WorkOrder.id o).

Definition update_order_rows (w : World) (p : WorkOrderUpdate) (target : string)
  : list WorkOrder.t :=
  map (fun o => if hit_order w target o then patch_work_order p o else o)
      (work_orders (db w)).

Definition update_work_order (p : WorkOrderUpdate) (target : string) : Call unit :=
  fun w =>
    (with_db (set_work_orders (update_order_rows w p target) (db w))
             (received (ReqUpdate Policy.work_orders) w),
     Data tt).

(** *** vehicles *)

(** The columns an insert into [vehicles] provides; a side column the
    payload leaves out is stored as null. *)
Record VehicleInsert : Type := {
  ins_unit_number : string;
  ins_make : string;
  ins_model : string;
  ins_year : Z;
  ins_status : VehicleStatus;
  ins_assigned_to : option string;
  ins_current_location : option string;
  ins_notes : option string
}.

Definition new_vehicle_row (new_id : string) (p : VehicleInsert) : Vehicle.t :=
  {| Vehicle.id := new_id;
     Vehicle.unit_number := ins_unit_number p;
     Vehicle.make := ins_make p;
     Vehicle.model := ins_model p;
     Vehicle.year := ins_year p;
     Vehicle.status := ins_status p;
     Vehicle.assigned_to := ins_assigned_to p;
     Vehicle.current_location := ins_current_location p;
     Vehicle.notes := ins_notes p |}.

(** [from('vehicles').insert([p]).select().single()]: answers the stored
    row.  (That the store keeps unit numbers unique is left out: it can
    only refuse an insert.) *)
Definition insert_vehicle (new_id : string) (p : VehicleInsert) : Call Vehicle.t :=
  fun w =>
    let w1 := received (ReqInsert Policy.vehicles) w in
    if allowed w Policy.vehicles Policy.INSERT new_id
    then (with_db (set_vehicles (vehicles (db w) ++ [new_vehicle_row new_id p]) (db w)) w1,
          Data (new_vehicle_row new_id p))
    else (w1, Error "new row violates row-level security policy").

(** The payload of an update of a vehicle: [None] / [Undefined] is a key the
    payload does not have. *)
Record VehicleUpdate : Type := {
  upd_unit_number : option string;
  upd_make : option string;
  upd_model : option string;
  upd_year : option Z;
  upd_vehicle_status : option VehicleStatus;
  upd_assigned_to : Field string;
  upd_current_location : Field string;
  upd_notes : Field string
}.

Definition keep_or {A : Type} (old : A) (new : option A) : A :=
  match new with
  | Some a => a
  | None => old
  end.

Definition patch_vehicle (p : VehicleUpdate) (v : Vehicle.t) : Vehicle.t :=
  {| Vehicle.id := Vehicle.id v;
     Vehicle.unit_number := keep_or (Vehicle.unit_number v) (upd_unit_number p);
     Vehicle.make := keep_or (Vehicle.make v) (upd_make p);
     Vehicle.model := keep_or (Vehicle.model v) (upd_model p);
     Vehicle.year := keep_or (Vehicle.year v) (upd_year p);
     Vehicle.status := keep_or (Vehicle.status v) (upd_vehicle_status p);
     Vehicle.assigned_to := patch_field (Vehicle.assigned_to v) (upd_assigned_to p);
     Vehicle.current_location :=
       patch_field (Vehicle.current_location v) (upd_current_location p);
     Vehicle.notes := patch_field (Vehicle.notes v) (upd_notes p) |}.

(** The rows [.eq('id', target)] selects among those the rules let the
    principal update. *)
Definition hit (w : World) (target : string) (v : Vehicle.t) : bool :=
  String.eqb (Vehicle.id v) target
  && allowed w Policy.vehicles Policy.UPDATE (Vehicle.id v).

Definition update_rows (w : World) (p : VehicleUpdate) (target : string)
  : list Vehicle.t :=
  map (fun v => if hit w target v then patch_vehicle p v else v)
      (vehicles (db w)).

(** [from('vehicles').update(p).eq('id', target)]. *)
Definition update_vehicle (p : VehicleUpdate) (target : string) : Call unit :=
  fun w =>
    (with_db (set_vehicles (update_rows w p target) (db w))
             (received (ReqUpdate Policy.vehicles) w),
     Data tt).

Definition status_only (s : VehicleStatus) : VehicleUpdate :=
  {| upd_unit_number := None; upd_make := None; upd_model := None;
     upd_year := None; upd_vehicle_status := Some s;
     upd_assigned_to := Undefined; upd_current_location := Undefined;
     upd_notes := Undefined |}.

(** Modelled from the spec: the stored function [update_vehicle_status] is
    not among the sources.  It is "a remote-procedure call for atomic status
    updates" that "appends exactly one History Entry capturing (old status,
    new status, actor = current principal, notes)": for an authenticated
    caller it records the status the store holds for the vehicle (none when
    there is no such row), the new status, the caller and the notes, and
    writes the new status to the rows the rules let the caller update. *)
Definition rpc_update_vehicle_status (vehicle_id : string)
  (new_status : VehicleStatus) (notes : string) : Call unit :=
  fun w =>
    let w1 := received (ReqRpc "update_vehicle_status") w in
    match auth_uid w with
    | None => (w1, Error "not authenticated")
    | Some caller =>
        let entry :=
          {| History.vehicle_id := vehicle_id;
             History.previous_status :=
               option_map Vehicle.status
                 (find (fun v => String.eqb (Vehicle.id v) vehicle_id)
                       (vehicles (db w)));
             History.new_status := new_status;
             History.changed_by := caller;
             History.notes := notes |} in
        (with_db (set_history (vehicle_status_history (db w) ++ [entry])
                    (set_vehicles (update_rows w (status_only new_status) vehicle_id)
                                  (db w)))
                 w1,
         Data tt)
    end.

End Backend.

Notation "x <- c ;; k" := (Backend.bind c (fun x => k))
  (at level 61, c at next level, right associativity).
Notation "c ;;; k" := (Backend.bind c (fun _ => k))
  (at level 61, right associativity).

(** ** The vehicle form (src/components/VehicleModal.tsx) *)

Module VehicleModal.

Import Backend.

Record FormData : Type := {
  unit_number : string;
  make : string;
  model : string;
  year : Z;
  status : VehicleStatus;
  assigned_to : string;
  current_location : string;
  notes : string
}.

(** The [useEffect] on the [vehicle] prop: the form of an existing vehicle,
    or the blank form. *)
Definition load (this_year : Z) (vehicle : option Vehicle.t) : FormData :=
  match vehicle with
  | Some v =>
      {| unit_number := Vehicle.unit_number v;
         make := Vehicle.make v;
         model := Vehicle.model v;
         year := Vehicle.year v;
         status := Vehicle.status v;
         assigned_to := or_empty (Vehicle.assigned_to v);
         current_location := or_empty (Vehicle.current_location v);
         notes := or_empty (Vehicle.notes v) |}
  | None =>
      {| unit_number := ""; make := ""; model := ""; year := this_year;
         status := available; assigned_to := ""; current_location := "";
         notes := "" |}
  end.

(** [onChange] of the status select. *)
Definition change_status (value : VehicleStatus) (f : FormData) : FormData :=
  {| unit_number := unit_number f; make := make f; model := model f;
     year := year f;
     status := value;
     assigned_to :=
       if negb (VehicleStatus_eqb value assigned) then "" else assigned_to f;
     current_location :=
       if negb (VehicleStatus_eqb value out_of_service) then ""
       else current_location f;
     notes := if VehicleStatus_eqb value available then "" else notes f |}.

(** [vehicleData]: the form with its side fields normalised to the status. *)
Definition vehicleData (f : FormData) : VehicleInsert :=
  {| ins_unit_number := unit_number f;
     ins_make := make f;
     ins_model := model f;
     ins_year := year f;
     ins_status := status f;
     ins_assigned_to :=
       if VehicleStatus_eqb (status f) assigned then Some (assigned_to f) else None;
     ins_current_location :=
       if VehicleStatus_eqb (status f) out_of_service
       then Some (current_location f) else None;
     ins_notes :=
       if VehicleStatus_eqb (status f) out_of_service
          || VehicleStatus_eqb (status f) assigned
       then Some (notes f) else None |}.

Definition field_of_nullable {A : Type} (o : option A) : Field A :=
  match o with
  | Some a => Value a
  | None => Null
  end.

(** The payload of the update branch: the four status-related keys of
    [vehicleData]. *)
Definition update_payload (d : VehicleInsert) : VehicleUpdate :=
  {| upd_unit_number := None; upd_make := None; upd_model := None;
     upd_year := None;
     upd_vehicle_status := Some (ins_status d);
     upd_assigned_to := field_of_nullable (ins_assigned_to d);
     upd_current_location := field_of_nullable (ins_current_location d);
     upd_notes := field_of_nullable (ins_notes d) |}.

(** The body of the [try] block; it answers whether the work-order dialog
    was asked for. *)
Definition save (new_id : string) (vehicle : option Vehicle.t) (f : FormData)
  : Call bool :=
  let d := vehicleData f in
  match vehicle with
  | Some v =>
      update_vehicle (update_payload d) (Vehicle.id v) ;;;
      if negb (VehicleStatus_eqb (Vehicle.status v) (status f))
      then
        rpc_update_vehicle_status (Vehicle.id v) (status f) (notes f) ;;;
        ret (VehicleStatus_eqb (status f) out_of_service)
      else ret false
  | None =>
      newVehicle <- insert_vehicle new_id d ;;
      rpc_update_vehicle_status (Vehicle.id newVehicle) (status f) (notes f) ;;;
      ret (VehicleStatus_eqb (status f) out_of_service)
  end.

(** What one run of [handleSubmit] does to the component. *)
Record Outcome : Type := {
  error : option string;
  asksForWorkOrder : bool;   (* setShowWorkOrderModal(true) was called *)
  refreshed : bool;          (* onVehicleUpdate() was called *)
  closed : bool              (* onClose() was called *)
}.

Definition handleSubmit (new_id : string) (vehicle : option Vehicle.t)
  (f : FormData) (w : World) : World * Outcome :=
  match save new_id vehicle f w with
  | (w', Data show) =>
      (w', {| error := None; asksForWorkOrder := show; refreshed := true;
              closed := negb (VehicleStatus_eqb (status f) out_of_service) |})
  | (w', Error _) =>
      (w', {| error := Some "Failed to save vehicle. Please try again.";
              asksForWorkOrder := false; refreshed := false; closed := false |})
  end.

(** The state [showWorkOrderModal] after a run that found it at [before]:
    it starts at [useState(false)], [handleSubmit] only ever sets it, and
    the component stays mounted when the form is closed, so that it keeps
    the state from one vehicle to the next. *)
Definition showWorkOrderModal (before : bool) (o : Outcome) : bool :=
  before || asksForWorkOrder o.

(** The [onClose] of the work-order dialog:
    [setShowWorkOrderModal(false); onClose()]. *)
Definition close_work_order_dialog (showWorkOrderModal : bool) : bool := false.

(** The parent's [isModalOpen] after a run of the open form; its [onClose]
    is [() => setIsModalOpen(false)]. *)
Definition isOpen (o : Outcome) : bool := negb (closed o).

(** The form's own constraints: the four identity inputs are [required]
    (the year within [min] and [max]) unless [disabled] by an existing
    vehicle; the assignee select is rendered and [required] when the status
    is assigned, the location input when it is out of service.  A control
    that is required and empty keeps the submit event from firing. *)
Definition can_submit (this_year : Z) (vehicle : option Vehicle.t) (f : FormData)
  : bool :=
  (match vehicle with
   | Some _ => true
   | None =>
       truthy (unit_number f) && truthy (make f) && truthy (model f)
       && (1900 <=? year f)%Z && (year f <=? this_year + 1)%Z
   end)
  && (if VehicleStatus_eqb (status f) assigned then truthy (assigned_to f) else true)
  && (if VehicleStatus_eqb (status f) out_of_service
      then truthy (current_location f) else true).

(** Pressing the submit button of [<form onSubmit={handleSubmit}>]. *)
Definition submit (this_year : Z) (new_id : string) (vehicle : option Vehicle.t)
  (f : FormData) (w : World) : World * option Outcome :=
  if can_submit this_year vehicle f
  then let (w', o) := handleSubmit new_id vehicle f w in (w', Some o)
  else (w, None).

(** The side fields agree with the status. *)
Definition consistent (v : Vehicle.t) : Prop :=
  match Vehicle.status v with
  | available =>
      Vehicle.assigned_to v = None /\ Vehicle.current_location v = None
      /\ Vehicle.notes v = None
  | assigned =>
      Vehicle.assigned_to v <> None /\ Vehicle.current_location v = None
  | out_of_service =>
      Vehicle.current_location v <> None /\ Vehicle.assigned_to v = None
  end.

End VehicleModal.

(** ** Fleet management on the settings page *)

Module Settings.

Import Backend.

Record NewVehicle : Type := {
  unit_number : string;
  make : string;
  model : string;
  model_year : Z
}.

(** [fetchVehicles()] as the two handlers below call it, without waiting
    for it: the store receives
    [from('vehicles').select('*').order('unit_number')]; its answer goes to
    the page's list of vehicles, which no handler reads. *)
Definition fetchVehicles : Call unit :=
  fun w => (received (ReqSelect Policy.vehicles) w, Data tt).

(** [handleCreateVehicle]: the [try] block. *)
Definition handleCreateVehicle (new_id : string) (newVehicle : NewVehicle)
  : Call unit :=
  insert_vehicle new_id
    {| ins_unit_number := unit_number newVehicle;
       ins_make := make newVehicle;
       ins_model := model newVehicle;
       ins_year := model_year newVehicle;
       ins_status := available;
       ins_assigned_to := None;
       ins_current_location := None;
       ins_notes := None |} ;;;
  fetchVehicles.

(** [handleUpdateVehicle(vehicle)]: the [try] block.  [vehicle] is the row
    being edited with the values typed into its inputs. *)
Definition handleUpdateVehicle (vehicle : Vehicle.t) : Call unit :=
  update_vehicle
    {| upd_unit_number := Some (Vehicle.unit_number vehicle);
       upd_make := Some (Vehicle.make vehicle);
       upd_model := Some (Vehicle.model vehicle);
       upd_year := Some (Vehicle.year vehicle);
       upd_vehicle_status := None;
       upd_assigned_to := Undefined;
       upd_current_location := Undefined;
       upd_notes := Undefined |}
    (Vehicle.id vehicle) ;;;
  fetchVehicles.

End Settings.

(** ** Work-order creation (src/components/WorkOrderModal.tsx) *)

Module WorkOrderModal.

Import Backend.

Record FormData : Type := {
  description : string;
  priority : string;
  location : string;
  mileage : string
}.

Definition initial (currentLocation : string) : FormData :=
  {| description := ""; priority := "normal"; location := currentLocation;
     mileage := "" |}.

(** [session?.user?.id] *)
Definition session_user_id (session : option AuthStore.Session) : option string :=
  match session with
  | Some s => AuthStore.user_id s
  | None => None
  end.

(** [lastWorkOrder && lastWorkOrder.length > 0
       ? lastWorkOrder[0].work_order_number : 0]: null when the first row
    carries no number. *)
Definition lastWorkOrderNumber (lastWorkOrder : list (option Z)) : option Z :=
  match lastWorkOrder with
  | n :: _ => n
  | [] => Some 0%Z
  end.

(** [lastWorkOrderNumber + 1]: null counts as 0 in the sum, and the sum is
    the double nearest to it. *)
Definition plus_one (lastWorkOrderNumber : option Z) : Z :=
  match lastWorkOrderNumber with
  | Some n => to_double (n + 1)
  | None => to_double (0 + 1)
  end.

(** The requests of the [try] block once the session check has passed. *)
Definition create (new_id clock creator : string) (vehicleId : string) (f : FormData)
  : Call unit :=
  lastWorkOrder <- select_last_work_order_number ;;
  let newWorkOrderNumber := plus_one (lastWorkOrderNumber lastWorkOrder) in
  insert_work_order new_id clock
    {| ins_vehicle_id := vehicleId;
       ins_description := description f;
       ins_priority := priority f;
       ins_location := location f;
       ins_created_by := creator;
       ins_mileage := mileage f;
       ins_work_order_number := newWorkOrderNumber |}.

Record Outcome : Type := {
  error : option string;
  closed : bool
}.

(** [new_id] and [clock] are what the store generates for the new row. *)
Definition handleSubmit (new_id clock : string)
  (session : option AuthStore.Session) (vehicleId : string) (f : FormData)
  (w : World) : World * Outcome :=
  match opt_or_null (session_user_id session) with
  | None => (w, {| error := Some "User not authenticated."; closed := false |})
  | Some creator =>
      match create new_id clock creator vehicleId f w with
      | (w', Data _) => (w', {| error := None; closed := true |})
      | (w', Error _) =>
          (w', {| error := Some "Failed to create work order. Please try again.";
                  closed := false |})
      end
  end.

(** The priorities the form's select offers. *)
Definition priorities : list string := ["low"; "normal"; "high"; "urgent"].

(** The numbers of the rows, null for a row that carries none. *)
Definition numbers (rows : list WorkOrder.t) : list (option Z) :=
  map WorkOrder.work_order_number rows.

(** [newWorkOrderNumber] when the rows the client may read are [rows]. *)
Definition assigned_number (rows : list WorkOrder.t) : Z :=
  plus_one
    (lastWorkOrderNumber
       (map (option_map to_double) (firstn 1 (sort_desc (numbers rows))))).

(** [m] is the greatest of the numbers [l], none of which is null. *)
Definition is_maximum (m : Z) (l : list (option Z)) : Prop :=
  In (Some m) l /\ Forall (fun x => exists n, x = Some n /\ (n <= m)%Z) l.

(** [n] is the number after the greatest of [l]: 1 when there is none. *)
Definition next_after (l : list (option Z)) (n : Z) : Prop :=
  match l with
  | [] => n = 1%Z
  | _ :: _ => is_maximum (n - 1)%Z l
  end.

(** Every row carries a number, and the numbers lie strictly between -2^53
    and [b]. *)
Definition numbered_below (b : Z) (rows : list WorkOrder.t) : Prop :=
  Forall (fun o => exists n, WorkOrder.work_order_number o = Some n /\
                             (- 2 ^ 53 < n < b)%Z)
         rows.

(** One creation, by one signed-in client. *)
Record Creation : Type := {
  principal : option string;            (* the identity of the client's token *)
  session : option AuthStore.Session;   (* the session in the client's store *)
  new_id : string;
  clock : string;
  vehicleId : string;
  form : FormData
}.

Definition signed_in_as (p : option string) (w : World) : World :=
  {| db := db w; auth_uid := p; requests := requests w |}.

Definition create_one (c : Creation) (w : World) : World :=
  fst (handleSubmit (new_id c) (clock c) (session c) (vehicleId c) (form c)
         (signed_in_as (principal c) w)).

(** Creations one after another, each one finished before the next starts. *)
Definition create_in_sequence (cs : list Creation) (w : World) : World :=
  fold_left (fun acc c => create_one c acc) cs w.

End WorkOrderModal.

(** ** The work-order page (src/pages/WorkOrders.tsx) *)

Module WorkOrders.

Import Backend.

(** The argument type of [handleUpdateStatus]:
    ['in_progress' | 'completed' | 'cancelled']. *)
Inductive NewStatus : Type := to_in_progress | to_completed | to_cancelled.

Definition status_of (n : NewStatus) : WorkOrderStatus :=
  match n with
  | to_in_progress => in_progress
  | to_completed => completed
  | to_cancelled => cancelled
  end.

Definition is_completed (n : NewStatus) : bool :=
  WorkOrderStatus_eqb (status_of n) completed.

(** [.order('created_at', { ascending: false })]: the newest first.  The
    store writes every [created_at] itself, in one format and one time zone,
    so that the later instant is the greater string; rows of one instant are
    left in the order of the table (the store promises none for them). *)
Fixpoint insert_newest (o : WorkOrder.t) (l : list WorkOrder.t) : list WorkOrder.t :=
  match l with
  | [] => [o]
  | p :: r =>
      if String.leb (WorkOrder.created_at p) (WorkOrder.created_at o)
      then o :: l else p :: insert_newest o r
  end.

Definition newest_first (l : list WorkOrder.t) : list WorkOrder.t :=
  fold_right insert_newest [] l.

(** [a] was not created before [b]. *)
Definition not_older (a b : WorkOrder.t) : Prop :=
  String.leb (WorkOrder.created_at b) (WorkOrder.created_at a) = true.

(** [fetchWorkOrders]: the rows the principal may read, the newest first. *)
Definition fetchWorkOrders : Call (list WorkOrder.t) :=
  fun w => (received (ReqSelect Policy.work_orders) w,
            Data (newest_first (visible_work_orders w))).

(** [handleUpdateStatus(newStatus)] for the selected work order and the
    notes typed in the dialog: the [try] block.  [now] is the clock read
    while the payload is built. *)
Definition status_payload (now : string) (newStatus : NewStatus)
  (resolved_by : Field string) (updateNotes : string) : WorkOrderUpdate :=
  {| upd_status := status_of newStatus;
     upd_resolved_at := if is_completed newStatus then Value now else Null;
     upd_resolved_by := resolved_by;
     upd_resolution_notes := VehicleModal.field_of_nullable (or_null updateNotes);
     upd_updated_at := now |}.

Definition handleUpdateStatus (now : string) (newStatus : NewStatus)
  (selectedWorkOrder : WorkOrder.t) (updateNotes : string) : Call (list WorkOrder.t) :=
  resolved_by <-
    (if is_completed newStatus
     then (u <- getUser ;; ret (field_of_optional u))
     else ret Null) ;;
  update_work_order (status_payload now newStatus resolved_by updateNotes)
                    (WorkOrder.id selectedWorkOrder) ;;;
  fetchWorkOrders.

(** [handleCompleteWorkOrder(workOrder)]: the [try] block. *)
Definition complete_payload (now : string) (session : option AuthStore.Session)
  : WorkOrderUpdate :=
  {| upd_status := completed;
     upd_resolved_at := Value now;
     upd_resolved_by :=
       VehicleModal.field_of_nullable
         (opt_or_null (WorkOrderModal.session_user_id session));
     upd_resolution_notes := Undefined;
     upd_updated_at := now |}.

Definition handleCompleteWorkOrder (now : string)
  (session : option AuthStore.Session) (workOrder : WorkOrder.t)
  : Call (list WorkOrder.t) :=
  update_work_order (complete_payload now session) (WorkOrder.id workOrder) ;;;
  update_vehicle (status_only available) (WorkOrder.vehicle_id workOrder) ;;;
  fetchWorkOrders.

(** The two buttons of a row:
    [isAdmin && order.status === 'pending'] and
    [isAdmin && order.status !== 'completed']. *)
Definition showUpdateStatus (isAdmin : bool) (order : WorkOrder.t) : bool :=
  isAdmin && WorkOrderStatus_eqb (WorkOrder.status order) pending.

Definition showCompleteWorkOrder (isAdmin : bool) (order : WorkOrder.t) : bool :=
  isAdmin && negb (WorkOrderStatus_eqb (WorkOrder.status order) completed).

(** What a user of the page can do to the store.  A button belongs to an
    order of the list the page holds, which is what an earlier fetch
    answered: [order] is the order as the page shows it, and the button is
    there when its test passes on that.  The three buttons of the Update
    Status dialog act on the order the dialog was opened for.  The handlers
    find the row by [order.id] and look at nothing else of the stored row.
    ([handleUpdateStatus] returns at once when no order is selected.) *)
Inductive step (isAdmin : bool) : World -> World -> Prop :=
| step_update_status :
    forall w order now newStatus updateNotes,
      showUpdateStatus isAdmin order = true ->
      step isAdmin w (fst (handleUpdateStatus now newStatus order updateNotes w))
| step_complete :
    forall w order now session,
      showCompleteWorkOrder isAdmin order = true ->
      step isAdmin w (fst (handleCompleteWorkOrder now session order w)).

(** The page shows [order] as the store holds it: nothing was written to
    the order since the page, or the open dialog, got it. *)
Definition shown_as_stored (w : World) (order : WorkOrder.t) : Prop :=
  In order (visible_work_orders w).

(** The steps of a page whose order is shown as stored. *)
Inductive fresh_step (isAdmin : bool) : World -> World -> Prop :=
| fresh_update_status :
    forall w order now newStatus updateNotes,
      shown_as_stored w order ->
      showUpdateStatus isAdmin order = true ->
      fresh_step isAdmin w
        (fst (handleUpdateStatus now newStatus order updateNotes w))
| fresh_complete :
    forall w order now session,
      shown_as_stored w order ->
      showCompleteWorkOrder isAdmin order = true ->
      fresh_step isAdmin w (fst (handleCompleteWorkOrder now session order w)).

Inductive fresh_steps (isAdmin : bool) : World -> World -> Prop :=
| fresh_steps_refl : forall w, fresh_steps isAdmin w w
| fresh_steps_next : forall w1 w2 w3,
    fresh_step isAdmin w1 w2 -> fresh_steps isAdmin w2 w3 ->
    fresh_steps isAdmin w1 w3.

(** The life of the work-order table: creations and what the page does. *)
Inductive lifecycle (isAdmin : bool) : World -> World -> Prop :=
| life_create : forall w c, lifecycle isAdmin w (WorkOrderModal.create_one c w)
| life_step : forall w w', step isAdmin w w' -> lifecycle isAdmin w w'.


(** The transitions of the specification:
    pending -> in_progress, completed, cancelled;
    in_progress -> completed, cancelled. *)
Definition spec_transition (a b : WorkOrderStatus) : bool :=
  match a, b with
  | pending, (in_progress | completed | cancelled) => true
  | in_progress, (completed | cancelled) => true
  | _, _ => false
  end.

(** The transitions the page offers:
    pending -> in_progress, completed, cancelled;
    in_progress -> completed;  cancelled -> completed. *)
Definition page_transition (a b : WorkOrderStatus) : bool :=
  match a, b with
  | pending, (in_progress | completed | cancelled) => true
  | (in_progress | cancelled), completed => true
  | _, _ => false
  end.

(** Row-wise comparison of the table before and after: same row identity,
    statuses related by [R] or equal. *)
Definition rows_follow (R : WorkOrderStatus -> WorkOrderStatus -> bool)
  (before after : list WorkOrder.t) : Prop :=
  Forall2 (fun o o' =>
             WorkOrder.id o' = WorkOrder.id o /\
             (WorkOrder.status o' = WorkOrder.status o \/
              R (WorkOrder.status o) (WorkOrder.status o') = true))
          before after.

(** Primary key: no two rows share an id. *)
Definition unique_ids (w : World) : Prop :=
  NoDup (map WorkOrder.id (work_orders (db w))).


End WorkOrders.

(** ** Which columns a vehicle write leaves alone *)

Module Frame.

(** Row by row: the same vehicle, with the unit number, make, model and year
    it had. *)
Definition identity_kept (before after : list Vehicle.t) : Prop :=
  Forall2 (fun v v' =>
             Vehicle.id v' = Vehicle.id v /\
             Vehicle.unit_number v' = Vehicle.unit_number v /\
             Vehicle.make v' = Vehicle.make v /\
             Vehicle.model v' = Vehicle.model v /\
             Vehicle.year v' = Vehicle.year v)
          before after.

(** Row by row: the same vehicle, with the status, assignee, location and
    notes it had. *)
Definition status_fields_kept (before after : list Vehicle.t) : Prop :=
  Forall2 (fun v v' =>
             Vehicle.id v' = Vehicle.id v /\
             Vehicle.status v' = Vehicle.status v /\
             Vehicle.assigned_to v' = Vehicle.assigned_to v /\
             Vehicle.current_location v' = Vehicle.current_location v /\
             Vehicle.notes v' = Vehicle.notes v)
          before after.

(** Row by row: the same vehicle, with every column but the status. *)
Definition only_status_changes (before after : list Vehicle.t) : Prop :=
  Forall2 (fun v v' =>
             Vehicle.id v' = Vehicle.id v /\
             Vehicle.assigned_to v' = Vehicle.assigned_to v /\
             Vehicle.current_location v' = Vehicle.current_location v /\
             Vehicle.notes v' = Vehicle.notes v)
          before after.

End Frame.

(** ** A small fleet, used to exercise the definitions *)

Module Sample.

Definition ada : Policy.ProfileRow :=
  {| Policy.id := "a1"; Policy.role := admin; Policy.full_name := "Ada";
     Policy.badge_number := Some "100"; Policy.email := "ada@pd.example" |}.

Definition bob : Policy.ProfileRow :=
  {| Policy.id := "u2"; Policy.role := user; Policy.full_name := "Bob";
     Policy.badge_number := None; Policy.email := "bob@pd.example" |}.

(** Unit 7, out of service at Shop A. *)
Definition unit7 : Vehicle.t :=
  {| Vehicle.id := "v7"; Vehicle.unit_number := "7"; Vehicle.make := "Ford";
     Vehicle.model := "Explorer"; Vehicle.year := 2020%Z;
     Vehicle.status := out_of_service; Vehicle.assigned_to := None;
     Vehicle.current_location := Some "Shop A";
     Vehicle.notes := Some "Brake issue" |}.

Definition order_with (s : WorkOrderStatus) : WorkOrder.t :=
  {| WorkOrder.id := "w1"; WorkOrder.vehicle_id := "v7";
     WorkOrder.created_by := "u2"; WorkOrder.status := s;
     WorkOrder.description := "Brake issue"; WorkOrder.priority := "high";
     WorkOrder.location := "Shop A"; WorkOrder.mileage := "41000";
     WorkOrder.resolved_at := None; WorkOrder.resolved_by := None;
     WorkOrder.resolution_notes := None;
     WorkOrder.created_at := "2025-01-01T08:00:00.000Z";
     WorkOrder.updated_at := "2025-01-01T08:00:00.000Z";
     WorkOrder.work_order_number := Some 1%Z |}.

(** A work order written before the numbers were introduced: it carries
    none. *)
Definition unnumbered_order : WorkOrder.t :=
  {| WorkOrder.id := "w0"; WorkOrder.vehicle_id := "v7";
     WorkOrder.created_by := "u2"; WorkOrder.status := completed;
     WorkOrder.description := "Oil change"; WorkOrder.priority := "low";
     WorkOrder.location := "Shop A"; WorkOrder.mileage := "39000";
     WorkOrder.resolved_at := Some "2024-12-01T09:00:00.000Z";
     WorkOrder.resolved_by := Some "a1";
     WorkOrder.resolution_notes := None;
     WorkOrder.created_at := "2024-12-01T08:00:00.000Z";
     WorkOrder.updated_at := "2024-12-01T09:00:00.000Z";
     WorkOrder.work_order_number := None |}.

(** The fifth work order of the table. *)
Definition fifth_order : WorkOrder.t :=
  {| WorkOrder.id := "w5"; WorkOrder.vehicle_id := "v7";
     WorkOrder.created_by := "u2"; WorkOrder.status := pending;
     WorkOrder.description := "Flat tyre"; WorkOrder.priority := "normal";
     WorkOrder.location := "Shop A"; WorkOrder.mileage := "40500";
     WorkOrder.resolved_at := None; WorkOrder.resolved_by := None;
     WorkOrder.resolution_notes := None;
     WorkOrder.created_at := "2024-12-20T08:00:00.000Z";
     WorkOrder.updated_at := "2024-12-20T08:00:00.000Z";
     WorkOrder.work_order_number := Some 5%Z |}.

Definition store (orders : list WorkOrder.t) : Backend.Db :=
  {| Backend.profiles := [ada; bob];
     Backend.vehicles := [unit7];
     Backend.vehicle_status_history := [];
     Backend.work_orders := orders |}.

Definition world (who : string) (orders : list WorkOrder.t) : Backend.World :=
  {| Backend.db := store orders; Backend.auth_uid := Some who;
     Backend.requests := [] |}.

Definition session_of (who : string) : option AuthStore.Session :=
  Some {| AuthStore.user_id := Some who |}.

Definition noon : string := "2025-01-02T12:00:00.000Z".

(** The form of unit 7 after the status select was set to assigned and no
    officer chosen. *)
Definition unit7_assigned_to_nobody : VehicleModal.FormData :=
  VehicleModal.change_status assigned (VehicleModal.load 2025 (Some unit7)).

(** The form of unit 7 after it was assigned to Bob. *)
Definition unit7_assigned_to_bob : VehicleModal.FormData :=
  {| VehicleModal.unit_number := "7"; VehicleModal.make := "Ford";
     VehicleModal.model := "Explorer"; VehicleModal.year := 2020%Z;
     VehicleModal.status := assigned; VehicleModal.assigned_to := "u2";
     VehicleModal.current_location := ""; VehicleModal.notes := "Patrol" |}.

(** Unit 7 as edited on the settings page: another make. *)
Definition unit7_edited : Vehicle.t :=
  {| Vehicle.id := "v7"; Vehicle.unit_number := "7"; Vehicle.make := "Chevrolet";
     Vehicle.model := "Explorer"; Vehicle.year := 2020%Z;
     Vehicle.status := out_of_service; Vehicle.assigned_to := None;
     Vehicle.current_location := Some "Shop A";
     Vehicle.notes := Some "Brake issue" |}.

Definition brake_form : WorkOrderModal.FormData :=
  {| WorkOrderModal.description := "Brake issue";
     WorkOrderModal.priority := "high";
     WorkOrderModal.location := "Shop A";
     WorkOrderModal.mileage := "41000" |}.

(** A creation request for unit 7 by the client signed in as [who]. *)
Definition creation (who : option string) (new_id : string)
  : WorkOrderModal.Creation :=
  {| WorkOrderModal.principal := who;
     WorkOrderModal.session :=
       match who with
       | Some u => session_of u
       | None => None
       end;
     WorkOrderModal.new_id := new_id;
     WorkOrderModal.clock := noon;
     WorkOrderModal.vehicleId := "v7";
     WorkOrderModal.form := brake_form |}.

End Sample.

(** ** Editing the vehicle form *)

Module VehicleForm.

Import VehicleModal.

(** The [onChange] handlers of the form's controls. *)
Inductive Edit : Type :=
| TypeUnitNumber (value : string)
| TypeMake (value : string)
| TypeModel (value : string)
| TypeYear (value : Z)            (* the text typed, parsed to an integer *)
| SelectStatus (value : VehicleStatus)
| SelectOfficer (value : string)
| TypeLocation (value : string)
| TypeNotes (value : string).

Definition is_some {A : Type} (o : option A) : bool :=
  match o with
  | Some _ => true
  | None => false
  end.

(** Which controls can be used: the identity inputs are
    [disabled={!!vehicle}]; the officer select, the location input and the
    notes area are rendered for their statuses only. *)
Definition usable (vehicle : option Vehicle.t) (f : FormData) (e : Edit) : bool :=
  match e with
  | TypeUnitNumber _ | TypeMake _ | TypeModel _ | TypeYear _ =>
      negb (is_some vehicle)
  | SelectStatus _ => true
  | SelectOfficer _ => VehicleStatus_eqb (status f) assigned
  | TypeLocation _ => VehicleStatus_eqb (status f) out_of_service
  | TypeNotes _ =>
      VehicleStatus_eqb (status f) assigned
      || VehicleStatus_eqb (status f) out_of_service
  end.

(** [setFormData({ ...formData, key: value })] *)
Definition change (e : Edit) (f : FormData) : FormData :=
  match e with
  | TypeUnitNumber v =>
      {| unit_number := v; make := make f; model := model f; year := year f;
         status := status f; assigned_to := assigned_to f;
         current_location := current_location f; notes := notes f |}
  | TypeMake v =>
      {| unit_number := unit_number f; make := v; model := model f;
         year := year f; status := status f; assigned_to := assigned_to f;
         current_location := current_location f; notes := notes f |}
  | TypeModel v =>
      {| unit_number := unit_number f; make := make f; model := v;
         year := year f; status := status f; assigned_to := assigned_to f;
         current_location := current_location f; notes := notes f |}
  | TypeYear v =>
      {| unit_number := unit_number f; make := make f; model := model f;
         year := v; status := status f; assigned_to := assigned_to f;
         current_location := current_location f; notes := notes f |}
  | SelectStatus v => change_status v f
  | SelectOfficer v =>
      {| unit_number := unit_number f; make := make f; model := model f;
         year := year f; status := status f; assigned_to := v;
         current_location := current_location f; notes := notes f |}
  | TypeLocation v =>
      {| unit_number := unit_number f; make := make f; model := model f;
         year := year f; status := status f; assigned_to := assigned_to f;
         current_location := v; notes := notes f |}
  | TypeNotes v =>
      {| unit_number := unit_number f; make := make f; model := model f;
         year := year f; status := status f; assigned_to := assigned_to f;
         current_location := current_location f; notes := v |}
  end.

Definition edit (vehicle : option Vehicle.t) (e : Edit) (f : FormData) : FormData :=
  if usable vehicle f e then change e f else f.

(** The form after it was opened for [vehicle] and edited. *)
Definition edited (this_year : Z) (vehicle : option Vehicle.t) (es : list Edit)
  : FormData :=
  fold_left (fun f e => edit vehicle e f) es (load this_year vehicle).

(** No text sits in a field the status does not show. *)
Definition tidy (f : FormData) : Prop :=
  (status f <> assigned -> assigned_to f = "") /\
  (status f <> out_of_service -> current_location f = "") /\
  (status f = available -> notes f = "").

(** [if (!isOpen) return null] and then
    [{showWorkOrderModal && vehicle && <WorkOrderModal .../>}] *)
Definition work_order_dialog_rendered (isOpen : bool) (vehicle : option Vehicle.t)
  (showWorkOrderModal : bool) : bool :=
  isOpen && showWorkOrderModal && is_some vehicle.

End VehicleForm.

(** ** Routes and the profile fetch (src/App.tsx, the layout) *)

Module App.

(** What a route renders. *)
Inductive Element : Type :=
| Login | Dashboard | Vehicles | WorkOrders | Settings | NotFound
| Navigate (to : string).

(** A location, as the router matches it against the route table. *)
Inductive Location : Type :=
| AtLogin          (* /login *)
| AtRoot           (* / *)
| AtDashboard      (* /dashboard *)
| AtVehicles       (* /vehicles *)
| AtWorkOrders     (* /work-orders *)
| AtSettings       (* /settings *)
| Elsewhere.       (* * *)

(** Where the literal paths lead that the application itself navigates and
    links to. *)
Definition locate (path : string) : Location :=
  if String.eqb path "/login" then AtLogin
  else if String.eqb path "/" then AtRoot
  else if String.eqb path "/dashboard" then AtDashboard
  else if String.eqb path "/vehicles" then AtVehicles
  else if String.eqb path "/work-orders" then AtWorkOrders
  else if String.eqb path "/settings" then AtSettings
  else Elsewhere.

Definition PrivateRoute (st : AuthStore.AuthState) (children : Element) : Element :=
  match AuthStore.session st with
  | Some _ => children
  | None => Navigate "/login"
  end.

Definition AdminRoute (st : AuthStore.AuthState) (children : Element) : Element :=
  if AuthStore.isAdmin st then children else Navigate "/dashboard".

(** The route table: everything under [/] is inside [PrivateRoute]; the
    settings page is inside [AdminRoute] as well. *)
Definition render (st : AuthStore.AuthState) (l : Location) : Element :=
  match l with
  | AtLogin => Login
  | AtRoot => PrivateRoute st (Navigate "/dashboard")
  | AtDashboard => PrivateRoute st Dashboard
  | AtVehicles => PrivateRoute st Vehicles
  | AtWorkOrders => PrivateRoute st WorkOrders
  | AtSettings => PrivateRoute st (AdminRoute st Settings)
  | Elsewhere => NotFound
  end.

(** Follow [Navigate] elements, at most [fuel] of them. *)
Fixpoint settle (fuel : nat) (st : AuthStore.AuthState) (l : Location) : Element :=
  match render st l with
  | Navigate to =>
      match fuel with
      | O => Navigate to
      | S n => settle n st (locate to)
      end
  | e => e
  end.

(** [navItems] of the layout: the paths of the side bar. *)
Definition navItems (st : AuthStore.AuthState) : list string :=
  ["/dashboard"; "/vehicles"; "/work-orders"]
  ++ (if AuthStore.isAdmin st then ["/settings"] else []).

(** [from('profiles').select(...).eq('id', id).single()]: the one row with
    that id among those the principal may read, an error when there is none
    or more than one. *)
Definition select_profile (id : string) : Backend.Call Policy.ProfileRow :=
  fun w =>
    let w1 := Backend.received (Backend.ReqSelect Policy.profiles) w in
    match filter (fun p =>
                    String.eqb (Policy.id p) id
                    && Backend.allowed w Policy.profiles Policy.SELECT (Policy.id p))
                 (Backend.profiles (Backend.db w)) with
    | [p] => (w1, Backend.Data p)
    | _ => (w1, Backend.Error "JSON object requested, multiple (or no) rows returned")
    end.

Definition profile_of (p : Policy.ProfileRow) : AuthStore.Profile :=
  {| AuthStore.id := Policy.id p; AuthStore.role := Policy.role p;
     AuthStore.full_name := Policy.full_name p;
     AuthStore.badge_number := Policy.badge_number p |}.

(** [fetchProfile], run when the session changes: with a session it reads
    the profile of [session.user.id] and stores it; a failure is logged and
    the store is left as it is. *)
Definition fetchProfile (st : AuthStore.AuthState) (w : Backend.World)
  : Backend.World * AuthStore.AuthState :=
  match AuthStore.session st with
  | None => (w, st)
  | Some s =>
      match AuthStore.user_id s with
      | None => (w, st)        (* reading [.id] of a missing user throws *)
      | Some id =>
          match select_profile id w with
          | (w', Backend.Data p) =>
              (w', AuthStore.setProfile (Some (profile_of p)) st)
          | (w', Backend.Error _) => (w', st)
          end
      end
  end.

End App.

(** ** The dashboard's statistics (src/pages/Dashboard.tsx) *)

Module Dashboard.

Section Breakdown.

Variable K : Type.
Variable K_eqb : K -> K -> bool.

(** [acc[k] = (acc[k] || 0) + 1] on an object, for keys that are ordinary
    property names: the names of the statuses and the priorities the form
    offers are; a name that [Object.prototype] defines, or an array index,
    is not, and the object does not treat it this way.  [Object.entries]
    lists ordinary keys in the order they were first set. *)
Fixpoint bump (k : K) (acc : list (K * nat)) : list (K * nat) :=
  match acc with
  | [] => [(k, 1)]
  | (k', n) :: rest =>
      if K_eqb k' k then (k', S n) :: rest else (k', n) :: bump k rest
  end.

(** [rows.reduce((acc, row) => { acc[key(row)] = ...; return acc }, {})]
    followed by [Object.entries]. *)
Definition breakdown (keys : list K) : list (K * nat) :=
  fold_left (fun acc k => bump k acc) keys [].

(** [acc[k]], 0 when the key is not there. *)
Fixpoint entry (k : K) (acc : list (K * nat)) : nat :=
  match acc with
  | [] => 0
  | (k', n) :: rest => if K_eqb k' k then n else entry k rest
  end.

Definition tally (k : K) (keys : list K) : nat :=
  length (filter (fun k' => K_eqb k' k) keys).

End Breakdown.

Record Stats : Type := {
  totalVehicles : nat;
  availableVehicles : nat;
  outOfServiceVehicles : nat;
  totalWorkOrders : nat;
  pendingWorkOrders : nat;
  completedWorkOrders : nat;
  urgentWorkOrders : nat;
  recentWorkOrders : list WorkOrder.t;
  statusBreakdown : list (WorkOrderStatus * nat);
  priorityBreakdown : list (string * nat)
}.

(** [xs?.filter(p).length || 0] *)
Definition count_or_zero {A : Type} (p : A -> bool) (xs : option (list A)) : nat :=
  match xs with
  | Some l => length (filter p l)
  | None => 0
  end.

(** "Calculate statistics": from the two answers, in the order the store
    gave the rows.  When the work orders are missing, [reduce] is skipped
    and [Object.entries(undefined)] throws: no statistics are set. *)
Definition calculate (vehicleStats : option (list VehicleStatus))
  (workOrders : option (list WorkOrder.t)) : option Stats :=
  match workOrders with
  | None => None
  | Some orders =>
      Some {|
        totalVehicles := count_or_zero (fun _ => true) vehicleStats;
        availableVehicles :=
          count_or_zero (fun v => VehicleStatus_eqb v available) vehicleStats;
        outOfServiceVehicles :=
          count_or_zero (fun v => VehicleStatus_eqb v out_of_service) vehicleStats;
        totalWorkOrders := length orders;
        pendingWorkOrders :=
          length (filter (fun o => WorkOrderStatus_eqb (WorkOrder.status o) pending)
                         orders);
        completedWorkOrders :=
          length (filter (fun o => WorkOrderStatus_eqb (WorkOrder.status o) completed)
                         orders);
        urgentWorkOrders :=
          length (filter (fun o => String.eqb (WorkOrder.priority o) "urgent")
                         orders);
        recentWorkOrders := firstn 5 orders;
        statusBreakdown :=
          breakdown WorkOrderStatus_eqb (map WorkOrder.status orders);
        priorityBreakdown :=
          breakdown String.eqb (map WorkOrder.priority orders)
      |}
  end.

End Dashboard.

(** ** Profile edits on the settings page *)

Module Profiles.

Import Backend.

(** The payload of [handleUpdateProfile]:
    [{ role, full_name, badge_number: profile.badge_number || null }]. *)
Definition patch_profile (edited : Policy.ProfileRow) (p : Policy.ProfileRow)
  : Policy.ProfileRow :=
  {| Policy.id := Policy.id p;
     Policy.role := Policy.role edited;
     Policy.full_name := Policy.full_name edited;
     Policy.badge_number :=
       match Policy.badge_number edited with
       | Some b => or_null b
       | None => None
       end;
     Policy.email := Policy.email p |}.

Definition set_profiles (l : list Policy.ProfileRow) (d : Db) : Db :=
  {| profiles := l; vehicles := vehicles d;
     vehicle_status_history := vehicle_status_history d;
     work_orders := work_orders d |}.

Definition hit_profile (w : World) (target : string) (p : Policy.ProfileRow) : bool :=
  String.eqb (Policy.id p) target
  && allowed w Policy.profiles Policy.UPDATE (Policy.id p).

(** [handleUpdateProfile(profile)]: the [try] block,
    [from('profiles').update({...}).eq('id', profile.id)]. *)
Definition handleUpdateProfile (profile : Policy.ProfileRow) : Call unit :=
  fun w =>
    (with_db (set_profiles
                (map (fun p => if hit_profile w (Policy.id profile) p
                               then patch_profile profile p else p)
                     (profiles (db w)))
                (db w))
             (received (ReqUpdate Policy.profiles) w),
     Data tt).

(** No stored profile has role admin. *)
Definition no_admin (d : Db) : Prop :=
  forall p, In p (profiles d) -> Policy.role p <> admin.

End Profiles.

(** ** Work-order settings on the settings page *)

Module WorkOrderSettings.

Record Settings : Type := {
  id : option string;
  default_priority : string;
  require_mileage : bool;
  require_location : bool;
  auto_assign_numbers : bool;
  notification_enabled : bool
}.

(** The state the page starts with. *)
Definition defaults : Settings :=
  {| id := None; default_priority := "normal"; require_mileage := true;
     require_location := true; auto_assign_numbers := true;
     notification_enabled := true |}.

(** The table [work_order_settings]: every stored row has an id.  No rule
    for this table is in the migration; requests are modelled as the store
    answers a caller it lets through. *)
Definition Table : Type := list Settings.

Inductive Answer (A : Type) : Type :=
| Data : A -> Answer A
| Error : string -> Answer A.   (* the error's [code] *)

Arguments Data {A} _.
Arguments Error {A} _.

(** [select('*').limit(1).single()]: the first row, or the error PGRST116
    when there is none. *)
Definition select_single (t : Table) : Answer Settings :=
  match t with
  | row :: _ => Data row
  | [] => Error "PGRST116"
  end.

Definition with_id (i : string) (s : Settings) : Settings :=
  {| id := Some i; default_priority := default_priority s;
     require_mileage := require_mileage s;
     require_location := require_location s;
     auto_assign_numbers := auto_assign_numbers s;
     notification_enabled := notification_enabled s |}.

(** [insert([s]).select().single()] of a payload without an id: the store
    generates [new_id] and answers the stored row. *)
Definition insert (new_id : string) (s : Settings) (t : Table)
  : Table * Answer Settings :=
  ((t ++ [with_id new_id s])%list, Data (with_id new_id s)).

Definition has_id (i : string) (row : Settings) : bool :=
  match id row with
  | Some j => String.eqb j i
  | None => false
  end.

(** [update(s).eq('id', i)]: the payload carries every column. *)
Definition update (s : Settings) (i : string) (t : Table) : Table * Answer unit :=
  (map (fun row => if has_id i row then s else row) t, Data tt).

(** The part of the page's state these handlers touch. *)
Record Page : Type := {
  workOrderSettings : Settings;
  error : option string
}.

Definition initial : Page := {| workOrderSettings := defaults; error := None |}.

(** [fetchWorkOrderSettings] *)
Definition fetchWorkOrderSettings (t : Table) (p : Page) : Page :=
  match select_single t with
  | Data row => {| workOrderSettings := row; error := error p |}
  | Error code =>
      if String.eqb code "PGRST116" then p
      else {| workOrderSettings := workOrderSettings p;
              error := Some "Failed to fetch work order settings" |}
  end.

(** [handleSaveWorkOrderSettings]; [new_id] is the id the store generates
    if a row is inserted. *)
Definition handleSaveWorkOrderSettings (new_id : string) (t : Table) (p : Page)
  : Table * Page :=
  let s := workOrderSettings p in
  match id s with
  | Some i =>
      match update s i t with
      | (t', Data _) => (t', {| workOrderSettings := s; error := None |})
      | (t', Error _) =>
          (t', {| workOrderSettings := s;
                  error := Some "Failed to save work order settings" |})
      end
  | None =>
      match insert new_id s t with
      | (t', Data row) => (t', {| workOrderSettings := row; error := None |})
      | (t', Error _) =>
          (t', {| workOrderSettings := s;
                  error := Some "Failed to save work order settings" |})
      end
  end.

(** The toggles and the select of the tab: they replace the values and keep
    the id. *)
Definition set_values (v : Settings) (p : Page) : Page :=
  {| workOrderSettings :=
       {| id := id (workOrderSettings p);
          default_priority := default_priority v;
          require_mileage := require_mileage v;
          require_location := require_location v;
          auto_assign_numbers := auto_assign_numbers v;
          notification_enabled := notification_enabled v |};
     error := error p |}.

Definition same_values (a b : Settings) : Prop :=
  default_priority a = default_priority b /\
  require_mileage a = require_mileage b /\
  require_location a = require_location b /\
  auto_assign_numbers a = auto_assign_numbers b /\
  notification_enabled a = notification_enabled b.

End WorkOrderSettings.

(** ** The backup script (src/backupAllTables.ts) *)

Module Backup.

(** [replace(/[:.]/g, "-")] *)
Fixpoint dashes (s : string) : string :=
  match s with
  | EmptyString => EmptyString
  | String c rest =>
      String (if Ascii.eqb c ":"%char || Ascii.eqb c "."%char
              then "-"%char else c)
             (dashes rest)
  end.

Fixpoint has_char (c : Ascii.ascii) (s : string) : bool :=
  match s with
  | EmptyString => false
  | String c' rest => Ascii.eqb c' c || has_char c rest
  end.

(** [filePath.split("/").pop()] *)
Fixpoint last_segment (s : string) : string :=
  match s with
  | EmptyString => EmptyString
  | String c rest =>
      if Ascii.eqb c "/"%char || has_char "/"%char rest then last_segment rest
      else s
  end.

(** What a request of the script answers. *)
Inductive Reply (A : Type) : Type :=
| Rows : A -> Reply A
| Failed : string -> Reply A.

Arguments Rows {A} _.
Arguments Failed {A} _.

Section Workflow.

(** A row of any table, and [parse] of json2csv. *)
Variable Row : Type.
Variable parse : list Row -> string.

(** The SharePoint settings read from the environment. *)
Variable SHAREPOINT_SITE_ID SHAREPOINT_DOC_LIB SHAREPOINT_FOLDER : string.

(** What the script does to the file system and to the network. *)
Inductive Action : Type :=
| Mkdir (dir : string)
| WriteFile (path : string) (content : string)
| Zip (dir : string) (zipFile : string)
| GetAccessToken
| Upload (uploadPath : string) (fromFile : string) (accessToken : string).

(** [getAllTables]: an error is logged and gives no tables. *)
Definition getAllTables (answer : Reply (list string)) : list string :=
  match answer with
  | Rows tables => tables
  | Failed _ => []
  end.

(** The body of the [for] loop, for one table. *)
Definition backup_table (dir : string)
  (fetch : string -> Reply (list Row)) (table : string) : list Action :=
  match fetch table with
  | Failed _ => []
  | Rows [] => []
  | Rows data => [WriteFile (dir ++ "/" ++ table ++ ".csv") (parse data)]
  end.

Definition uploadToSharePoint (filePath accessToken : string) : list Action :=
  let fileName := last_segment filePath in
  [Upload ("/sites/" ++ SHAREPOINT_SITE_ID ++ "/drives/" ++ SHAREPOINT_DOC_LIB
           ++ "/root:/" ++ SHAREPOINT_FOLDER ++ "/" ++ fileName ++ ":/content")
          filePath accessToken].

(** [`db_backup_${timestamp}`] with the timestamp's colons and dots turned
    into dashes, and [`${backupDir}.zip`]. *)
Definition backupDir (now : string) : string := "db_backup_" ++ dashes now.

Definition zipFile (now : string) : string := backupDir now ++ ".zip".

(** [backupAllTables]: [now] is [new Date().toISOString()], [token] what
    the token endpoint answers. *)
Definition backupAllTables
  (tables_answer : Reply (list string))
  (fetch : string -> Reply (list Row))
  (now token : string) : list Action :=
  match getAllTables tables_answer with
  | [] => []
  | tables =>
      ([Mkdir (backupDir now)]
       ++ flat_map (backup_table (backupDir now) fetch) tables
       ++ [Zip (backupDir now) (zipFile now); GetAccessToken]
       ++ uploadToSharePoint (zipFile now) token)%list
  end.

Definition is_write (a : Action) : bool :=
  match a with
  | WriteFile _ _ => true
  | _ => false
  end.

Definition is_upload (a : Action) : bool :=
  match a with
  | Upload _ _ _ => true
  | _ => false
  end.

End Workflow.

End Backup.

(** ** What a work-order update leaves alone *)

Module OrderFrame.

(** Row by row: the same order, with the number, vehicle, creator,
    description, priority, location, mileage and creation time it had. *)
Definition identity_kept (before after : list WorkOrder.t) : Prop :=
  Forall2 (fun o o' =>
             WorkOrder.id o' = WorkOrder.id o /\
             WorkOrder.work_order_number o' = WorkOrder.work_order_number o /\
             WorkOrder.vehicle_id o' = WorkOrder.vehicle_id o /\
             WorkOrder.created_by o' = WorkOrder.created_by o /\
             WorkOrder.description o' = WorkOrder.description o /\
             WorkOrder.priority o' = WorkOrder.priority o /\
             WorkOrder.location o' = WorkOrder.location o /\
             WorkOrder.mileage o' = WorkOrder.mileage o /\
             WorkOrder.created_at o' = WorkOrder.created_at o)
          before after.

Inductive lives (isAdmin : bool) : Backend.World -> Backend.World -> Prop :=
| lives_refl : forall w, lives isAdmin w w
| lives_next : forall w1 w2 w3,
    WorkOrders.lifecycle isAdmin w1 w2 -> lives isAdmin w2 w3 ->
    lives isAdmin w1 w3.

End OrderFrame.

(** * Properties *)

Unset Implicit Arguments.

(** ** Basic facts *)

Lemma Role_eqb_eq a b : Role_eqb a b = true <-> a = b.
Proof. destruct a, b; simpl; split; congruence. Qed.

Lemma VehicleStatus_eqb_eq a b : VehicleStatus_eqb a b = true <-> a = b.
Proof. destruct a, b; simpl; split; congruence. Qed.

Lemma WorkOrderStatus_eqb_eq a b : WorkOrderStatus_eqb a b = true <-> a = b.
Proof. destruct a, b; simpl; split; congruence. Qed.

Lemma or_null_truthy s : truthy s = true -> or_null s = Some s.
Proof. unfold or_null; now intros ->. Qed.

(** ** The authentication store *)

Section AuthStoreFacts.

Import AuthStore.

Lemma role_is_admin_spec p :
  role_is_admin p = true <-> exists pr, p = Some pr /\ role pr = admin.
Proof.
  destruct p as [pr|]; simpl.
  - rewrite Role_eqb_eq. split.
    + intros H; exists pr; auto.
    + intros (pr' & [= <-] & H); exact H.
  - split; [discriminate | intros (pr & H & _); discriminate].
Qed.

Lemma setProfile_consistent p st : admin_consistent (setProfile p st).
Proof. unfold admin_consistent; simpl. apply role_is_admin_spec. Qed.

Lemma signOut_consistent r st :
  admin_consistent st -> admin_consistent (signOut r st).
Proof.
  destruct r; simpl; auto.
  intros _. unfold admin_consistent; simpl.
  split; [discriminate | intros (p & H & _); discriminate].
Qed.

Lemma run_consistent o st : admin_consistent st -> admin_consistent (run o st).
Proof.
  destruct o as [s|p|r]; simpl; intros H.
  - exact H.
  - apply setProfile_consistent.
  - now apply signOut_consistent.
Qed.

(** Every state the store can reach agrees with its profile. *)
Lemma run_all_consistent ops : admin_consistent (run_all ops initial).
Proof.
  unfold run_all.
  assert (H0 : admin_consistent initial).
  { unfold admin_consistent; simpl.
    split; [discriminate | intros (p & H & _); discriminate]. }
  revert H0. generalize initial as st.
  induction ops as [|o ops IH]; simpl; intros st H; [exact H|].
  apply IH. now apply run_consistent.
Qed.

(** C10.  [isAdmin] holds exactly when the stored profile is present with
    role admin: [setProfile p] establishes it for every [p], null included;
    a completed [signOut] clears session, profile and [isAdmin] together;
    [setSession] leaves profile and [isAdmin] as they were; hence every
    operation of the store preserves the invariant, which also holds of the
    initial state. *)
Theorem auth_store_isAdmin_invariant :
  admin_consistent initial /\
  (forall p st, admin_consistent (setProfile p st)) /\
  (forall st,
      session (signOut Resolved st) = None /\
      profile (signOut Resolved st) = None /\
      isAdmin (signOut Resolved st) = false) /\
  (forall s st,
      profile (setSession s st) = profile st /\
      isAdmin (setSession s st) = isAdmin st) /\
  (forall o st, admin_consistent st -> admin_consistent (run o st)).
Proof.
  split; [|split; [|split; [|split]]].
  - unfold admin_consistent; simpl.
    split; [discriminate | intros (p & H & _); discriminate].
  - apply setProfile_consistent.
  - intros st; simpl; auto.
  - intros s st; simpl; auto.
  - intros o st. apply run_consistent.
Qed.

End AuthStoreFacts.

(** An officer signs in, the profile arrives, the session is refreshed. *)
Lemma auth_store_isAdmin_invariant_witness :
  AuthStore.admin_consistent
    (AuthStore.run
       (AuthStore.OpSetSession (Some {| AuthStore.user_id := Some "u1" |}))
       (AuthStore.setProfile
          (Some {| AuthStore.id := "u1"; AuthStore.role := admin;
                   AuthStore.full_name := "Ada"; AuthStore.badge_number := None |})
          AuthStore.initial)).
Proof.
  apply (proj2 (proj2 (proj2 (proj2 auth_store_isAdmin_invariant)))).
  apply (proj1 (proj2 auth_store_isAdmin_invariant)).
Defined.

(** ** The authorization rules *)

Section PolicyFacts.

Import Policy.

Lemma is_admin_spec ps uid :
  is_admin ps uid = true <->
  exists p, In p ps /\ id p = uid /\ role p = admin.
Proof.
  unfold is_admin. rewrite existsb_exists. split.
  - intros (p & Hin & H). apply andb_true_iff in H as [H1 H2].
    exists p. repeat split; auto.
    + now apply String.eqb_eq.
    + now apply Role_eqb_eq.
  - intros (p & Hin & H1 & H2). exists p. split; auto.
    apply andb_true_iff. split.
    + now apply String.eqb_eq.
    + now apply Role_eqb_eq.
Qed.

Lemma permitted_vehicles_write ps uid row c :
  c <> SELECT -> permitted ps (Some uid) vehicles c row = is_admin ps uid.
Proof.
  intros Hc. destruct c; try congruence; cbn;
    destruct (is_admin ps uid); reflexivity.
Qed.

Lemma permitted_work_orders_update ps uid row :
  permitted ps (Some uid) work_orders UPDATE row = is_admin ps uid.
Proof. cbn. destruct (is_admin ps uid); reflexivity. Qed.

End PolicyFacts.

Section BackendFacts.

Import Backend.

Lemma map_unchanged {A : Type} (f : A -> A) (l : list A) :
  (forall a, In a l -> f a = a) -> map f l = l.
Proof.
  induction l as [|a l IH]; simpl; intros H; [reflexivity|].
  rewrite H by auto. f_equal. apply IH. auto.
Qed.

Lemma set_vehicles_same d : set_vehicles (vehicles d) d = d.
Proof. now destruct d. Qed.

Lemma set_work_orders_same d : set_work_orders (work_orders d) d = d.
Proof. now destruct d. Qed.

Lemma update_rows_denied w p target :
  (forall row, allowed w Policy.vehicles Policy.UPDATE row = false) ->
  update_rows w p target = vehicles (db w).
Proof.
  intros H. unfold update_rows, hit. apply map_unchanged.
  intros v _. now rewrite H, andb_false_r.
Qed.

Lemma update_vehicle_denied w p target :
  (forall row, allowed w Policy.vehicles Policy.UPDATE row = false) ->
  db (fst (update_vehicle p target w)) = db w.
Proof.
  intros H. unfold update_vehicle; simpl.
  rewrite update_rows_denied by assumption. apply set_vehicles_same.
Qed.

Lemma update_work_order_denied w p target :
  (forall row, allowed w Policy.work_orders Policy.UPDATE row = false) ->
  db (fst (update_work_order p target w)) = db w.
Proof.
  intros H. unfold update_work_order, update_order_rows, hit_order; simpl.
  rewrite map_unchanged; [apply set_work_orders_same|].
  intros o _. now rewrite H, andb_false_r.
Qed.

End BackendFacts.

(** C7.  The policy, as a function of (principal, entity, operation): an
    authenticated principal may insert, update or delete a vehicle, or
    update a work order, exactly when [is_admin] holds of it, that is when a
    stored profile with its id has role admin; every authenticated principal
    may read vehicles and insert status-history and work-order rows; and for
    a principal that is not an admin a vehicle insert is refused and vehicle
    and work-order updates change no row: the store is left as it was. *)
Theorem policy_admin_gate :
  forall (ps : list Policy.ProfileRow) (uid row : string),
    Policy.permitted ps (Some uid) Policy.vehicles Policy.INSERT row
      = Policy.is_admin ps uid /\
    Policy.permitted ps (Some uid) Policy.vehicles Policy.UPDATE row
      = Policy.is_admin ps uid /\
    Policy.permitted ps (Some uid) Policy.vehicles Policy.DELETE row
      = Policy.is_admin ps uid /\
    Policy.permitted ps (Some uid) Policy.work_orders Policy.UPDATE row
      = Policy.is_admin ps uid /\
    (Policy.is_admin ps uid = true <->
       exists p, In p ps /\ Policy.id p = uid /\ Policy.role p = admin) /\
    Policy.permitted ps (Some uid) Policy.vehicles Policy.SELECT row = true /\
    Policy.permitted ps (Some uid) Policy.vehicle_status_history Policy.INSERT row
      = true /\
    Policy.permitted ps (Some uid) Policy.work_orders Policy.INSERT row = true /\
    (forall w : Backend.World,
        Backend.profiles (Backend.db w) = ps ->
        Backend.auth_uid w = Some uid ->
        Policy.is_admin ps uid = false ->
        (forall new_id p,
            Backend.db (fst (Backend.insert_vehicle new_id p w)) = Backend.db w /\
            exists e, snd (Backend.insert_vehicle new_id p w) = Backend.Error e) /\
        (forall p target,
            Backend.db (fst (Backend.update_vehicle p target w)) = Backend.db w) /\
        (forall p target,
            Backend.db (fst (Backend.update_work_order p target w)) = Backend.db w)).
Proof.
  intros ps uid row.
  split; [apply permitted_vehicles_write; discriminate|].
  split; [apply permitted_vehicles_write; discriminate|].
  split; [apply permitted_vehicles_write; discriminate|].
  split; [apply permitted_work_orders_update|].
  split; [apply is_admin_spec|].
  split; [reflexivity|].
  split; [reflexivity|].
  split; [reflexivity|].
  intros w Hps Huid Hadm.
  assert (Hv : forall c r, c <> Policy.SELECT ->
             Backend.allowed w Policy.vehicles c r = false).
  { intros c r Hc. unfold Backend.allowed. rewrite Hps, Huid, <- Hadm.
    now apply permitted_vehicles_write. }
  assert (Hw : forall r, Backend.allowed w Policy.work_orders Policy.UPDATE r = false).
  { intros r. unfold Backend.allowed. rewrite Hps, Huid, <- Hadm.
    apply permitted_work_orders_update. }
  split; [|split].
  - intros new_id p. unfold Backend.insert_vehicle.
    rewrite Hv by discriminate. simpl. split; [reflexivity | eauto].
  - intros p target. apply update_vehicle_denied.
    intros r. apply Hv. discriminate.
  - intros p target. now apply update_work_order_denied.
Qed.

(** A signed-in officer who is not an admin cannot edit unit 7. *)
Lemma policy_admin_gate_witness :
  Backend.db (fst (Backend.update_vehicle
                     (Backend.status_only available) "v7"
                     (Sample.world "u2" [])))
  = Backend.db (Sample.world "u2" []).
Proof.
  destruct (policy_admin_gate [Sample.ada; Sample.bob] "u2" "v7")
    as (_ & _ & _ & _ & _ & _ & _ & _ & H).
  destruct (H (Sample.world "u2" []) eq_refl eq_refl eq_refl) as (_ & Hu & _).
  apply Hu.
Defined.

(** ** Vehicle writes *)

Section VehicleFacts.

Import Backend.

Lemma Forall2_map_same {A : Type} (R : A -> A -> Prop) (f : A -> A) (l : list A) :
  (forall a, In a l -> R a (f a)) -> Forall2 R l (map f l).
Proof.
  induction l as [|a l IH]; simpl; intros H; constructor; auto.
Qed.

Lemma patch_status_again p s v :
  upd_vehicle_status p = Some s ->
  patch_vehicle (status_only s) (patch_vehicle p v) = patch_vehicle p v.
Proof.
  intros H. unfold patch_vehicle; simpl. now rewrite H.
Qed.

(** The store's function after the client's own update rewrites nothing
    further: it reaches the same rows and they already carry the status. *)
Lemma update_then_status w w1 p s target :
  profiles (db w1) = profiles (db w) ->
  auth_uid w1 = auth_uid w ->
  vehicles (db w1) = update_rows w p target ->
  upd_vehicle_status p = Some s ->
  update_rows w1 (status_only s) target = update_rows w p target.
Proof.
  intros Hp Ha Hv Hs.
  unfold update_rows at 1. rewrite Hv. unfold update_rows. rewrite map_map.
  apply map_ext. intros v.
  assert (Hh : forall x, Vehicle.id x = Vehicle.id v ->
                         hit w1 target x = hit w target v).
  { intros x Hx. unfold hit, allowed. now rewrite Hp, Ha, Hx. }
  destruct (hit w target v) eqn:E.
  - rewrite (Hh (patch_vehicle p v) eq_refl). now apply patch_status_again.
  - now rewrite (Hh v eq_refl).
Qed.

(** The vehicles table after the update branch of the form. *)
Lemma save_existing_rows new_id v f w :
  vehicles (db (fst (VehicleModal.save new_id (Some v) f w))) =
  update_rows w (VehicleModal.update_payload (VehicleModal.vehicleData f))
              (Vehicle.id v).
Proof.
  unfold VehicleModal.save, bind. cbn [update_vehicle fst snd].
  destruct (negb _); [|reflexivity].
  unfold rpc_update_vehicle_status.
  cbn [received auth_uid with_db db].
  destruct (auth_uid w) as [caller|] eqn:Ha; [|reflexivity].
  cbn [ret fst with_db db set_history set_vehicles vehicles].
  apply update_then_status; try reflexivity.
Qed.

Lemma handleSubmit_world new_id vehicle f w :
  fst (VehicleModal.handleSubmit new_id vehicle f w)
  = fst (VehicleModal.save new_id vehicle f w).
Proof.
  unfold VehicleModal.handleSubmit.
  destruct (VehicleModal.save new_id vehicle f w) as [w' [show|e]]; reflexivity.
Qed.

(** The vehicles table after the create branch of the form: the new row is
    appended, or the insert was refused. *)
Lemma save_new_rows new_id f w :
  ~ In new_id (map Vehicle.id (vehicles (db w))) ->
  vehicles (db (fst (VehicleModal.save new_id None f w))) = vehicles (db w) \/
  vehicles (db (fst (VehicleModal.save new_id None f w)))
  = (vehicles (db w) ++ [new_vehicle_row new_id (VehicleModal.vehicleData f)])%list.
Proof.
  intros Hfresh.
  unfold VehicleModal.save, bind, insert_vehicle.
  destruct (allowed w Policy.vehicles Policy.INSERT new_id); [|left; reflexivity].
  right. unfold rpc_update_vehicle_status.
  cbn [received auth_uid with_db db].
  destruct (auth_uid w) as [caller|]; [|reflexivity].
  cbn [ret fst with_db db set_history set_vehicles vehicles].
  unfold update_rows.
  cbn [ret fst with_db db set_history set_vehicles vehicles received].
  apply map_unchanged. intros v Hv.
  apply in_app_iff in Hv as [Hv|[<-|[]]].
  - unfold hit. cbn [Vehicle.id new_vehicle_row].
    replace (String.eqb (Vehicle.id v) new_id) with false; [reflexivity|].
    symmetry. apply String.eqb_neq. intros E. apply Hfresh.
    rewrite <- E. now apply in_map.
  - now destruct (hit _ _ _).
Qed.

Lemma vehicleData_row_consistent new_id f :
  VehicleModal.consistent (new_vehicle_row new_id (VehicleModal.vehicleData f)).
Proof.
  unfold VehicleModal.consistent; simpl.
  destruct (VehicleModal.status f); simpl; repeat split; discriminate.
Qed.

Lemma vehicleData_patch_consistent f v :
  VehicleModal.consistent
    (patch_vehicle (VehicleModal.update_payload (VehicleModal.vehicleData f)) v).
Proof.
  unfold VehicleModal.consistent; simpl.
  destruct (VehicleModal.status f); simpl; repeat split; discriminate.
Qed.

End VehicleFacts.

Section FrameFacts.

Import Backend.

Lemma update_rows_identity_kept w p target :
  upd_unit_number p = None -> upd_make p = None ->
  upd_model p = None -> upd_year p = None ->
  Frame.identity_kept (vehicles (db w)) (update_rows w p target).
Proof.
  intros H1 H2 H3 H4. apply Forall2_map_same. intros v _.
  destruct (hit w target v); [|now auto].
  unfold patch_vehicle; simpl. rewrite H1, H2, H3, H4. simpl. now auto.
Qed.

Lemma update_rows_status_fields_kept w p target :
  upd_vehicle_status p = None -> upd_assigned_to p = Undefined ->
  upd_current_location p = Undefined -> upd_notes p = Undefined ->
  Frame.status_fields_kept (vehicles (db w)) (update_rows w p target).
Proof.
  intros H1 H2 H3 H4. apply Forall2_map_same. intros v _.
  destruct (hit w target v); [|now auto].
  unfold patch_vehicle; simpl. rewrite H1, H2, H3, H4. simpl. now auto.
Qed.

Lemma update_rows_only_status w s target :
  Frame.only_status_changes (vehicles (db w)) (update_rows w (status_only s) target).
Proof.
  apply Forall2_map_same. intros v _.
  destruct (hit w target v); simpl; now auto.
Qed.

(** The vehicles table after work-order completion. *)
Lemma complete_vehicle_rows now session o w :
  vehicles (db (fst (WorkOrders.handleCompleteWorkOrder now session o w)))
  = update_rows w (status_only available) (WorkOrder.vehicle_id o).
Proof. reflexivity. Qed.

(** The vehicles table after the settings page's edit. *)
Lemma settings_update_rows edited w :
  exists p,
    vehicles (db (fst (Settings.handleUpdateVehicle edited w)))
    = update_rows w p (Vehicle.id edited) /\
    upd_unit_number p = Some (Vehicle.unit_number edited) /\
    upd_make p = Some (Vehicle.make edited) /\
    upd_model p = Some (Vehicle.model edited) /\
    upd_year p = Some (Vehicle.year edited) /\
    upd_vehicle_status p = None /\ upd_assigned_to p = Undefined /\
    upd_current_location p = Undefined /\ upd_notes p = Undefined.
Proof.
  eexists. split; [reflexivity|]. simpl. repeat split.
Qed.

End FrameFacts.

Section ConsistencyFacts.

Import Backend.

Lemma Forall2_In_r {A : Type} (R : A -> A -> Prop) (l l' : list A) b :
  Forall2 R l l' -> In b l' -> exists a, In a l /\ R a b.
Proof.
  induction 1 as [|x y l l' Hxy _ IH]; simpl; [contradiction|].
  intros [<-|Hb].
  - exists x. auto.
  - destruct (IH Hb) as (a & Ha & Hab). exists a. auto.
Qed.

(** Being consistent depends on the status and the three side fields
    only. *)
Lemma consistent_same_fields v v' :
  Vehicle.status v' = Vehicle.status v ->
  Vehicle.assigned_to v' = Vehicle.assigned_to v ->
  Vehicle.current_location v' = Vehicle.current_location v ->
  Vehicle.notes v' = Vehicle.notes v ->
  VehicleModal.consistent v -> VehicleModal.consistent v'.
Proof.
  unfold VehicleModal.consistent. intros -> -> -> ->. exact (fun H => H).
Qed.

(** The vehicles table after the settings page's create. *)
Lemma settings_create_rows new_id nv w :
  vehicles (db (fst (Settings.handleCreateVehicle new_id nv w))) = vehicles (db w) \/
  exists row,
    vehicles (db (fst (Settings.handleCreateVehicle new_id nv w)))
    = (vehicles (db w) ++ [row])%list /\
    Vehicle.status row = available /\ VehicleModal.consistent row.
Proof.
  unfold Settings.handleCreateVehicle, Settings.fetchVehicles, bind, insert_vehicle.
  destruct (allowed w Policy.vehicles Policy.INSERT new_id); [|left; reflexivity].
  right. eexists. split; [reflexivity|].
  split; [reflexivity|]. unfold VehicleModal.consistent. simpl. auto.
Qed.

End ConsistencyFacts.

(** The create and update handlers of the vehicle forms keep the side fields
    in agreement with the status.  The vehicle form builds the normalised
    [vehicleData] before either of its writes, so after it each row of the
    table is a row that was there before or a normalised row with the
    status of the form (on create the store generates a fresh id); the
    settings page creates available vehicles without side fields, and its
    edit leaves status and side fields as they were. *)
Theorem vehicle_writes_keep_side_fields_consistent :
  (forall (new_id : string) (vehicle : option Vehicle.t)
          (f : VehicleModal.FormData) (w : Backend.World) (v' : Vehicle.t),
      (vehicle = None ->
       ~ In new_id (map Vehicle.id (Backend.vehicles (Backend.db w)))) ->
      In v' (Backend.vehicles
               (Backend.db (fst (VehicleModal.handleSubmit new_id vehicle f w)))) ->
      In v' (Backend.vehicles (Backend.db w)) \/
      (Vehicle.status v' = VehicleModal.status f /\ VehicleModal.consistent v')) /\
  (forall (new_id : string) (nv : Settings.NewVehicle) (w : Backend.World)
          (v' : Vehicle.t),
      In v' (Backend.vehicles
               (Backend.db (fst (Settings.handleCreateVehicle new_id nv w)))) ->
      In v' (Backend.vehicles (Backend.db w)) \/
      (Vehicle.status v' = available /\ VehicleModal.consistent v')) /\
  (forall (edited : Vehicle.t) (w : Backend.World) (v' : Vehicle.t),
      In v' (Backend.vehicles
               (Backend.db (fst (Settings.handleUpdateVehicle edited w)))) ->
      exists v, In v (Backend.vehicles (Backend.db w)) /\
                Vehicle.id v' = Vehicle.id v /\
                (VehicleModal.consistent v -> VehicleModal.consistent v')).
Proof.
  split; [|split].
  - intros new_id vehicle f w v' Hfresh Hin.
    rewrite handleSubmit_world in Hin.
    destruct vehicle as [v|].
    + rewrite save_existing_rows in Hin. unfold Backend.update_rows in Hin.
      apply in_map_iff in Hin as (v0 & Hv0 & Hin0).
      destruct (Backend.hit w (Vehicle.id v) v0).
      * right. subst v'. split; [reflexivity | apply vehicleData_patch_consistent].
      * left. now subst v'.
    + destruct (save_new_rows new_id f w (Hfresh eq_refl)) as [E|E];
        rewrite E in Hin.
      * now left.
      * apply in_app_iff in Hin as [Hin|[<-|[]]].
        -- now left.
        -- right. split; [reflexivity | apply vehicleData_row_consistent].
  - intros new_id nv w v' Hin.
    destruct (settings_create_rows new_id nv w) as [E|(row & E & Hs & Hc)];
      rewrite E in Hin.
    + now left.
    + apply in_app_iff in Hin as [Hin|[<-|[]]]; [now left | now right].
  - intros edited w v' Hin.
    destruct (settings_update_rows edited w)
      as (p & E & _ & _ & _ & _ & H5 & H6 & H7 & H8).
    rewrite E in Hin.
    destruct (Forall2_In_r _ _ _ v'
                (update_rows_status_fields_kept w p (Vehicle.id edited) H5 H6 H7 H8)
                Hin)
      as (v & Hv & Hid & Hs & Ha & Hl & Hn).
    exists v. split; [exact Hv|]. split; [exact Hid|].
    now apply consistent_same_fields.
Qed.

(** Ada assigns unit 7 to Bob: the row keeps no location. *)
Lemma unit7_assigned_to_bob_is_consistent :
  let v' :=
    {| Vehicle.id := "v7"; Vehicle.unit_number := "7"; Vehicle.make := "Ford";
       Vehicle.model := "Explorer"; Vehicle.year := 2020%Z;
       Vehicle.status := assigned; Vehicle.assigned_to := Some "u2";
       Vehicle.current_location := None; Vehicle.notes := Some "Patrol" |} in
  In v' (Backend.vehicles (Backend.db (Sample.world "a1" []))) \/
  (Vehicle.status v' = assigned /\ VehicleModal.consistent v').
Proof.
  intros v'.
  apply (proj1 vehicle_writes_keep_side_fields_consistent
           "unused" (Some Sample.unit7)
           Sample.unit7_assigned_to_bob (Sample.world "a1" []) v').
  - discriminate.
  - vm_compute. left. reflexivity.
Defined.

(** C6.  A submit of the vehicle form whose status is assigned with no
    assignee chosen, or out of service with no location given, is stopped
    by the form before [handleSubmit] runs: the store receives no request,
    so no vehicle row is updated and no history entry appended. *)
Theorem vehicle_form_rejects_missing_side_field :
  forall (this_year : Z) (new_id : string) (vehicle : option Vehicle.t)
         (f : VehicleModal.FormData) (w : Backend.World),
    (VehicleModal.status f = assigned /\ VehicleModal.assigned_to f = "") \/
    (VehicleModal.status f = out_of_service /\
     VehicleModal.current_location f = "") ->
    VehicleModal.submit this_year new_id vehicle f w = (w, None).
Proof.
  intros this_year new_id vehicle f w H.
  unfold VehicleModal.submit.
  replace (VehicleModal.can_submit this_year vehicle f) with false; [reflexivity|].
  unfold VehicleModal.can_submit.
  destruct H as [[Hs He]|[Hs He]]; rewrite Hs, He; simpl;
    now rewrite ?andb_false_r.
Qed.

(** The check is the form's: [handleSubmit], were it run on the same form,
    would send the update. *)
Remark handleSubmit_sends_without_check :
  Backend.requests
    (fst (VehicleModal.handleSubmit "unused" (Some Sample.unit7)
            Sample.unit7_assigned_to_nobody (Sample.world "a1" [])))
  = [Backend.ReqRpc "update_vehicle_status";
     Backend.ReqUpdate Policy.vehicles].
Proof. reflexivity. Qed.

(** Ada sets unit 7 to assigned and presses Update without an officer. *)
Lemma vehicle_form_rejects_missing_side_field_witness :
  VehicleModal.submit 2025 "unused" (Some Sample.unit7)
    Sample.unit7_assigned_to_nobody (Sample.world "a1" [])
  = (Sample.world "a1" [], None).
Proof.
  apply vehicle_form_rejects_missing_side_field.
  left. split; reflexivity.
Defined.



(** C9, as the code has it.  The vehicle form's update of an existing
    vehicle leaves unit number, make, model and year of every row as they
    were (it writes status, assignee, location and notes only), and so does
    the release of the vehicle on work-order completion (it writes the
    status only).  The settings page's edit is the other way round: it
    leaves status, assignee, location and notes as they were and writes the
    unit number, make, model and year typed into the row. *)
Theorem vehicle_update_frames :
  (forall new_id v f w,
      Frame.identity_kept
        (Backend.vehicles (Backend.db w))
        (Backend.vehicles
           (Backend.db (fst (VehicleModal.handleSubmit new_id (Some v) f w))))) /\
  (forall now session o w,
      Frame.identity_kept
        (Backend.vehicles (Backend.db w))
        (Backend.vehicles
           (Backend.db (fst (WorkOrders.handleCompleteWorkOrder now session o w)))) /\
      Frame.only_status_changes
        (Backend.vehicles (Backend.db w))
        (Backend.vehicles
           (Backend.db (fst (WorkOrders.handleCompleteWorkOrder now session o w))))) /\
  (forall edited w,
      Frame.status_fields_kept
        (Backend.vehicles (Backend.db w))
        (Backend.vehicles
           (Backend.db (fst (Settings.handleUpdateVehicle edited w)))) /\
      Forall2 (fun v v' =>
                 v' = v \/
                 (Vehicle.id v = Vehicle.id edited /\
                  Vehicle.unit_number v' = Vehicle.unit_number edited /\
                  Vehicle.make v' = Vehicle.make edited /\
                  Vehicle.model v' = Vehicle.model edited /\
                  Vehicle.year v' = Vehicle.year edited))
              (Backend.vehicles (Backend.db w))
              (Backend.vehicles
                 (Backend.db (fst (Settings.handleUpdateVehicle edited w))))).
Proof.
  split; [|split].
  - intros new_id v f w.
    rewrite handleSubmit_world, save_existing_rows.
    now apply update_rows_identity_kept.
  - intros now session o w. rewrite complete_vehicle_rows. split.
    + now apply update_rows_identity_kept.
    + apply update_rows_only_status.
  - intros edited w.
    destruct (settings_update_rows edited w)
      as (p & E & H1 & H2 & H3 & H4 & H5 & H6 & H7 & H8).
    rewrite E. split.
    + now apply update_rows_status_fields_kept.
    + apply Forall2_map_same. intros v _. unfold Backend.hit.
      destruct (String.eqb (Vehicle.id v) (Vehicle.id edited)) eqn:Eid;
        [|now left].
      destruct (Backend.allowed w _ _ _); [|now left].
      right. apply String.eqb_eq in Eid.
      unfold Backend.patch_vehicle; simpl. rewrite H1, H2, H3, H4. simpl.
      now auto.
Qed.

(** C9 as stated fails: Ada, an admin, edits the make of unit 7 on the
    settings page, and the stored make changes from Ford to Chevrolet. *)
Lemma settings_edit_rewrites_make :
  ~ Frame.identity_kept
      (Backend.vehicles (Backend.db (Sample.world "a1" [])))
      (Backend.vehicles
         (Backend.db (fst (Settings.handleUpdateVehicle Sample.unit7_edited
                             (Sample.world "a1" []))))).
Proof.
  intros H. vm_compute in H.
  inversion H as [|v v' l l' (_ & _ & Hmake & _) _]; subst.
  discriminate Hmake.
Qed.

(** ** Work-order creation *)

Section CreationFacts.

Import Backend.
Import WorkOrderModal.

Open Scope Z_scope.

Lemma desc_le_refl a : desc_le a a = true.
Proof. destruct a; simpl; [apply Z.leb_refl | reflexivity]. Qed.

Lemma desc_le_trans a b c :
  desc_le a b = true -> desc_le b c = true -> desc_le a c = true.
Proof.
  destruct a, b, c; simpl; try congruence.
  rewrite !Z.leb_le. lia.
Qed.

Lemma desc_le_false a b : desc_le a b = false -> desc_le b a = true.
Proof.
  destruct a, b; simpl; try congruence.
  rewrite Z.leb_gt, Z.leb_le. lia.
Qed.

(** The first row of the descending order is a row of the table that comes
    before every other: a row without a number if there is one, the
    greatest number otherwise. *)
Lemma sort_desc_head l :
  match sort_desc l with
  | [] => l = []
  | h :: _ => In h l /\ Forall (fun x => desc_le h x = true) l
  end.
Proof.
  induction l as [|x r IH]; simpl; [reflexivity|].
  destruct (sort_desc r) as [|y s]; simpl.
  - subst r. split; [now left|].
    constructor; [apply desc_le_refl | constructor].
  - destruct IH as [Hin Hle].
    destruct (desc_le x y) eqn:E.
    + split; [now left|].
      constructor; [apply desc_le_refl|].
      eapply Forall_impl; [|exact Hle]. simpl. intros a Ha.
      now apply desc_le_trans with y.
    + split; [now right|].
      constructor; [now apply desc_le_false | exact Hle].
Qed.

(** Integers of less than 54 bits are doubles. *)
Lemma to_double_exact z : - 2 ^ 53 < z < 2 ^ 53 -> to_double z = z.
Proof.
  intros H. unfold to_double.
  destruct (Z.abs z <? 2 ^ 53) eqn:E; [reflexivity|].
  apply Z.ltb_ge in E. lia.
Qed.

(** Beside a row that carries no number, the number assigned is 1. *)
Lemma assigned_number_unnumbered rows :
  In None (numbers rows) -> assigned_number rows = 1.
Proof.
  intros Hin. unfold assigned_number.
  pose proof (sort_desc_head (numbers rows)) as H.
  destruct (sort_desc (numbers rows)) as [|h s].
  - rewrite H in Hin. contradiction.
  - destruct H as [_ Hall]. rewrite Forall_forall in Hall.
    specialize (Hall None Hin). destruct h; [discriminate|]. reflexivity.
Qed.

Lemma numbered_below_numbers b rows :
  numbered_below b rows ->
  Forall (fun x => exists n, x = Some n /\ - 2 ^ 53 < n < b) (numbers rows).
Proof.
  unfold numbered_below, numbers. intros H. apply Forall_map.
  eapply Forall_impl; [|exact H]. simpl. intros o (n & E & Hn). eauto.
Qed.

(** In a table whose rows all carry numbers of moderate size, the number
    assigned is the one after the greatest. *)
Lemma assigned_number_next b rows :
  numbered_below b rows -> 0 < b <= 2 ^ 53 - 1 ->
  next_after (numbers rows) (assigned_number rows) /\
  - 2 ^ 53 < assigned_number rows < b + 1.
Proof.
  intros Hnum Hb. apply numbered_below_numbers in Hnum.
  unfold assigned_number.
  pose proof (sort_desc_head (numbers rows)) as H.
  destruct (sort_desc (numbers rows)) as [|h s].
  - rewrite H. simpl. unfold plus_one. simpl.
    rewrite to_double_exact by lia. split; [reflexivity | lia].
  - destruct H as [Hin Hall].
    rewrite Forall_forall in Hnum, Hall.
    destruct (Hnum _ Hin) as (m & -> & Hm).
    simpl. rewrite (to_double_exact m) by lia.
    rewrite to_double_exact by lia.
    split; [|lia].
    destruct (numbers rows) as [|x r] eqn:Er; [contradiction|].
    unfold next_after. replace (m + 1 - 1) with m by lia.
    split; [exact Hin|].
    apply Forall_forall. intros y Hy.
    destruct (Hnum _ Hy) as (n & -> & Hn).
    specialize (Hall _ Hy). simpl in Hall. apply Z.leb_le in Hall.
    exists n. split; [reflexivity | exact Hall].
Qed.

Lemma next_after_above l n :
  next_after l n -> Forall (fun x => exists m, x = Some m /\ m < n) l.
Proof.
  destruct l as [|x r]; simpl; [constructor|].
  intros [_ H]. eapply Forall_impl; [|exact H]. simpl.
  intros y (m & -> & Hm). exists m. split; [reflexivity | lia].
Qed.

(** A signed-in principal reads every work order. *)
Lemma visible_work_orders_all w caller :
  auth_uid w = Some caller -> visible_work_orders w = work_orders (db w).
Proof.
  intros Ha. unfold visible_work_orders.
  apply forallb_filter_id. apply forallb_forall. intros o _.
  unfold allowed. rewrite Ha. reflexivity.
Qed.

Lemma insert_allowed w caller new_id :
  auth_uid w = Some caller ->
  allowed w Policy.work_orders Policy.INSERT new_id = true.
Proof. intros Ha. unfold allowed. rewrite Ha. reflexivity. Qed.

(** The creation of a signed-in client appends one row. *)
Lemma create_rows new_id clock creator vehicleId f w caller :
  auth_uid w = Some caller ->
  exists row,
    work_orders (db (fst (create new_id clock creator vehicleId f w)))
    = (work_orders (db w) ++ [row])%list /\
    snd (create new_id clock creator vehicleId f w) = Data tt /\
    WorkOrder.work_order_number row
    = Some (assigned_number (work_orders (db w))) /\
    WorkOrder.status row = pending /\
    WorkOrder.vehicle_id row = vehicleId /\
    WorkOrder.created_by row = creator /\
    WorkOrder.resolved_at row = None /\ WorkOrder.resolved_by row = None.
Proof.
  intros Ha.
  unfold create, bind, select_last_work_order_number, insert_work_order.
  cbn [fst snd].
  rewrite (insert_allowed (received _ w) caller) by exact Ha.
  rewrite (visible_work_orders_all w caller) by exact Ha.
  eexists. split; [reflexivity|]. split; [reflexivity|].
  repeat split.
Qed.

(** One creation either appends one row, numbered as computed from the
    table, or leaves the table as it was. *)
Lemma create_one_rows c w :
  work_orders (db (create_one c w)) = work_orders (db w) \/
  exists row,
    work_orders (db (create_one c w)) = (work_orders (db w) ++ [row])%list /\
    WorkOrder.work_order_number row
    = Some (assigned_number (work_orders (db w))) /\
    WorkOrder.status row = pending /\
    WorkOrder.resolved_at row = None /\ WorkOrder.resolved_by row = None.
Proof.
  unfold create_one, handleSubmit.
  destruct (opt_or_null (session_user_id (session c))) as [creator|];
    [|left; reflexivity].
  destruct (principal c) as [caller|] eqn:Hp.
  - right.
    destruct (create_rows (new_id c) (clock c) creator (vehicleId c) (form c)
                (signed_in_as (Some caller) w) caller eq_refl)
      as (row & E & Hd & Hn & Hs & _ & _ & Hat & Hby).
    destruct (create _ _ _ _ _ _) as [w' [u|e]]; [|discriminate Hd].
    exists row. simpl in *. auto.
  - left. reflexivity.
Qed.

Lemma StronglySorted_lt_NoDup l : StronglySorted Z.lt l -> NoDup l.
Proof.
  induction 1 as [|a l Hs IH Hall]; constructor; auto.
  intros Hin. rewrite Forall_forall in Hall. specialize (Hall _ Hin). lia.
Qed.

Lemma numbered_below_more b b' rows :
  numbered_below b rows -> b <= b' -> numbered_below b' rows.
Proof.
  unfold numbered_below. intros H Hb. eapply Forall_impl; [|exact H].
  simpl. intros o (n & E & Hn). exists n. split; [exact E | lia].
Qed.

(** Creations in a table of numbered rows: the numbers go up. *)
Lemma create_in_sequence_rows cs :
  forall w b,
    numbered_below b (work_orders (db w)) ->
    0 < b -> b + Z.of_nat (length cs) <= 2 ^ 53 ->
    exists created ns,
      work_orders (db (create_in_sequence cs w))
      = (work_orders (db w) ++ created)%list /\
      numbers created = map Some ns /\
      StronglySorted Z.lt ns /\
      Forall (fun n =>
                Forall (fun x => exists m, x = Some m /\ m < n)
                       (numbers (work_orders (db w))))
             ns.
Proof.
  induction cs as [|c cs IH]; intros w b Hnum Hb Hlen.
  - exists [], []. simpl. rewrite app_nil_r. repeat split; constructor.
  - unfold create_in_sequence in *. cbn [fold_left].
    cbn [length] in Hlen. rewrite Nat2Z.inj_succ in Hlen.
    destruct (create_one_rows c w) as [E1|(row & E1 & Hrow & _)].
    + destruct (IH (create_one c w) b) as (created & ns & E & En & Hs & Hall);
        [now rewrite E1 | lia | lia |].
      exists created, ns. rewrite E1 in *. auto.
    + destruct (assigned_number_next b (work_orders (db w)) Hnum) as [Hnext Hrange];
        [lia|].
      set (n := assigned_number (work_orders (db w))) in *.
      destruct (IH (create_one c w) (b + 1)) as (created & ns & E & En & Hs & Hall);
        [|lia|lia|].
      { rewrite E1. unfold numbered_below. apply Forall_app. split.
        - apply numbered_below_more with b; [exact Hnum | lia].
        - constructor; [|constructor]. exists n. split; [exact Hrow | lia]. }
      exists (row :: created), (n :: ns). rewrite E1 in *.
      split; [now rewrite E, <- app_assoc|].
      split; [simpl; now rewrite Hrow, <- En|].
      unfold numbers in Hall. rewrite map_app in Hall. simpl in Hall.
      rewrite Hrow in Hall.
      split.
      * constructor; [exact Hs|].
        eapply Forall_impl; [|exact Hall]. simpl. intros k Hk.
        apply Forall_app in Hk as [_ Hk].
        inversion Hk as [|? ? (m & Em & Hm) _]; subst.
        inversion Em; subst. exact Hm.
      * constructor; [now apply next_after_above|].
        eapply Forall_impl; [|exact Hall]. simpl. intros k Hk.
        now apply Forall_app in Hk as [Hk _].
Qed.

End CreationFacts.

(** In a table whose work orders all carry a number below 2^53 - 1, a
    signed-in user's creation appends one work order whose number is the
    greatest number in the table plus one (1 when the table is empty) and
    whose status is pending. *)
Theorem numbered_table_creation :
  forall (new_id clock : string) (session : option AuthStore.Session)
         (vehicleId : string) (f : WorkOrderModal.FormData)
         (w : Backend.World) (creator caller : string) (b : Z),
    WorkOrderModal.session_user_id session = Some creator ->
    creator <> "" ->
    Backend.auth_uid w = Some caller ->
    WorkOrderModal.numbered_below b (Backend.work_orders (Backend.db w)) ->
    (0 < b <= 2 ^ 53 - 1)%Z ->
    exists row n,
      Backend.work_orders
        (Backend.db (fst (WorkOrderModal.handleSubmit
                            new_id clock session vehicleId f w)))
      = (Backend.work_orders (Backend.db w) ++ [row])%list /\
      WorkOrder.work_order_number row = Some n /\
      WorkOrderModal.next_after
        (WorkOrderModal.numbers (Backend.work_orders (Backend.db w))) n /\
      (Backend.work_orders (Backend.db w) = [] -> n = 1%Z) /\
      WorkOrder.status row = pending /\
      WorkOrder.vehicle_id row = vehicleId /\
      WorkOrder.created_by row = creator.
Proof.
  intros new_id clock session vehicleId f w creator caller b Hs Hne Ha Hnum Hb.
  unfold WorkOrderModal.handleSubmit. rewrite Hs. simpl opt_or_null.
  rewrite or_null_truthy by (destruct creator; [congruence | reflexivity]).
  destruct (create_rows new_id clock creator vehicleId f w caller Ha)
    as (row & E & Hd & Hn & Hst & Hv & Hc & _).
  destruct (WorkOrderModal.create _ _ _ _ _ _) as [w' [u|e]]; [|discriminate Hd].
  destruct (assigned_number_next b _ Hnum Hb) as [Hnext _].
  exists row, (WorkOrderModal.assigned_number (Backend.work_orders (Backend.db w))).
  simpl in E. repeat split; auto.
  intros E0. rewrite E0 in Hnext |- *. exact Hnext.
Qed.

(** Bob reports the brake issue of unit 7; it is the first work order. *)
Lemma numbered_table_creation_witness :
  exists row,
    Backend.work_orders
      (Backend.db (fst (WorkOrderModal.handleSubmit
                          "w1" Sample.noon (Sample.session_of "u2") "v7"
                          Sample.brake_form (Sample.world "u2" []))))
    = [row] /\
    WorkOrder.work_order_number row = Some 1%Z /\
    WorkOrder.status row = pending.
Proof.
  destruct (numbered_table_creation
              "w1" Sample.noon (Sample.session_of "u2") "v7"
              Sample.brake_form (Sample.world "u2" []) "u2" "u2" 1%Z
              eq_refl ltac:(discriminate) eq_refl
              ltac:(constructor) ltac:(lia))
    as (row & n & E & Hn & _ & H1 & Hp & _).
  exists row. split; [exact E|].
  split; [rewrite Hn, (H1 eq_refl); reflexivity | exact Hp].
Defined.

(** C3.  The creation reads the first row of the numbers in descending
    order, where the store puts a row without a number before every
    number: beside such a row a signed-in user's creation appends a pending
    work order numbered 1, whatever the greatest number in the table. *)
Theorem creation_beside_unnumbered_order :
  forall (new_id clock : string) (session : option AuthStore.Session)
         (vehicleId : string) (f : WorkOrderModal.FormData)
         (w : Backend.World) (creator caller : string),
    WorkOrderModal.session_user_id session = Some creator ->
    creator <> "" ->
    Backend.auth_uid w = Some caller ->
    In None (WorkOrderModal.numbers (Backend.work_orders (Backend.db w))) ->
    exists row,
      Backend.work_orders
        (Backend.db (fst (WorkOrderModal.handleSubmit
                            new_id clock session vehicleId f w)))
      = (Backend.work_orders (Backend.db w) ++ [row])%list /\
      WorkOrder.work_order_number row = Some 1%Z /\
      WorkOrder.status row = pending.
Proof.
  intros new_id clock session vehicleId f w creator caller Hs Hne Ha Hnull.
  unfold WorkOrderModal.handleSubmit. rewrite Hs. simpl opt_or_null.
  rewrite or_null_truthy by (destruct creator; [congruence | reflexivity]).
  destruct (create_rows new_id clock creator vehicleId f w caller Ha)
    as (row & E & Hd & Hn & Hst & _).
  destruct (WorkOrderModal.create _ _ _ _ _ _) as [w' [u|e]]; [|discriminate Hd].
  exists row. simpl in E. split; [exact E|]. split; [|exact Hst].
  rewrite Hn. f_equal. now apply assigned_number_unnumbered.
Qed.

(** The table holds an order without a number and the order number 5: Bob's
    report is numbered 1, not 6. *)
Lemma creation_beside_unnumbered_order_witness :
  In (Some 5%Z)
     (WorkOrderModal.numbers [Sample.unnumbered_order; Sample.fifth_order]) /\
  exists row,
    Backend.work_orders
      (Backend.db (fst (WorkOrderModal.handleSubmit
                          "w6" Sample.noon (Sample.session_of "u2") "v7"
                          Sample.brake_form
                          (Sample.world "u2" [Sample.unnumbered_order;
                                              Sample.fifth_order]))))
    = [Sample.unnumbered_order; Sample.fifth_order; row] /\
    WorkOrder.work_order_number row = Some 1%Z /\
    WorkOrder.status row = pending.
Proof.
  split; [right; left; reflexivity|].
  exact (creation_beside_unnumbered_order
           "w6" Sample.noon (Sample.session_of "u2") "v7" Sample.brake_form
           (Sample.world "u2" [Sample.unnumbered_order; Sample.fifth_order])
           "u2" "u2" eq_refl ltac:(discriminate) eq_refl
           ltac:(left; reflexivity)).
Defined.

(** In a table whose work orders all carry numbers, with room below 2^53
    for as many more, work orders created one after another are appended
    with strictly increasing numbers, each greater than every number that
    was in the table before; the numbers assigned are pairwise distinct. *)
Theorem numbered_table_sequence :
  forall (cs : list WorkOrderModal.Creation) (w : Backend.World) (b : Z),
    WorkOrderModal.numbered_below b (Backend.work_orders (Backend.db w)) ->
    (0 < b)%Z -> (b + Z.of_nat (length cs) <= 2 ^ 53)%Z ->
    exists created ns,
      Backend.work_orders (Backend.db (WorkOrderModal.create_in_sequence cs w))
      = (Backend.work_orders (Backend.db w) ++ created)%list /\
      WorkOrderModal.numbers created = map Some ns /\
      StronglySorted Z.lt ns /\
      NoDup ns /\
      Forall (fun n =>
                Forall (fun x => exists m, x = Some m /\ (m < n)%Z)
                       (WorkOrderModal.numbers
                          (Backend.work_orders (Backend.db w))))
             ns.
Proof.
  intros cs w b Hnum Hb Hlen.
  destruct (create_in_sequence_rows cs w b Hnum Hb Hlen)
    as (created & ns & E & En & Hs & Hall).
  exists created, ns. repeat split; auto.
  now apply StronglySorted_lt_NoDup.
Qed.

(** C8.  Beside a work order without a number, every work order created,
    one after another, is numbered 1: the numbers assigned repeat. *)
Theorem sequence_beside_unnumbered_order :
  forall (cs : list WorkOrderModal.Creation) (w : Backend.World),
    In None (WorkOrderModal.numbers (Backend.work_orders (Backend.db w))) ->
    exists created,
      Backend.work_orders (Backend.db (WorkOrderModal.create_in_sequence cs w))
      = (Backend.work_orders (Backend.db w) ++ created)%list /\
      Forall (fun row => WorkOrder.work_order_number row = Some 1%Z) created.
Proof.
  induction cs as [|c cs IH]; intros w Hnull.
  - exists []. simpl. rewrite app_nil_r. split; [reflexivity | constructor].
  - unfold WorkOrderModal.create_in_sequence in *. cbn [fold_left].
    destruct (create_one_rows c w) as [E1|(row & E1 & Hrow & _)].
    + destruct (IH (WorkOrderModal.create_one c w)) as (created & E & Hall);
        [now rewrite E1|].
      exists created. rewrite E1 in E. auto.
    + rewrite (assigned_number_unnumbered _ Hnull) in Hrow.
      destruct (IH (WorkOrderModal.create_one c w)) as (created & E & Hall).
      { rewrite E1. unfold WorkOrderModal.numbers in *. rewrite map_app.
        apply in_or_app. now left. }
      exists (row :: created). rewrite E1 in E.
      split; [now rewrite E, <- app_assoc | now constructor].
Qed.

(** Bob reports two issues, one after the other, in a table that holds an
    order without a number: both reports are numbered 1. *)
Lemma sequence_beside_unnumbered_order_witness :
  exists r1 r2,
    Backend.work_orders
      (Backend.db (WorkOrderModal.create_in_sequence
                     [Sample.creation (Some "u2") "w6";
                      Sample.creation (Some "u2") "w7"]
                     (Sample.world "u2" [Sample.unnumbered_order])))
    = [Sample.unnumbered_order; r1; r2] /\
    WorkOrder.work_order_number r1 = Some 1%Z /\
    WorkOrder.work_order_number r2 = Some 1%Z.
Proof.
  destruct (sequence_beside_unnumbered_order
              [Sample.creation (Some "u2") "w6"; Sample.creation (Some "u2") "w7"]
              (Sample.world "u2" [Sample.unnumbered_order])
              ltac:(left; reflexivity))
    as (created & E & Hall).
  assert (L : length created = 2%nat).
  { apply (f_equal (@length _)) in E. rewrite length_app in E.
    vm_compute in E. now inversion E. }
  destruct created as [|r1 [|r2 [|r3 rest]]]; try discriminate L.
  exists r1, r2. split; [exact E|].
  inversion Hall as [|? ? H1 Hall']; subst.
  inversion Hall' as [|? ? H2 _]; subst. auto.
Defined.

(** ** Work-order status updates *)

Section StatusFacts.

Import Backend.
Import WorkOrders.

(** The work-order table after [handleUpdateStatus]. *)
Lemma update_status_rows now n o notes w :
  work_orders (db (fst (handleUpdateStatus now n o notes w))) =
  update_order_rows w
    (status_payload now n
       (if is_completed n then field_of_optional (auth_uid w) else Null) notes)
    (WorkOrder.id o).
Proof.
  unfold handleUpdateStatus, bind. destruct (is_completed n); reflexivity.
Qed.

(** The work-order table after [handleCompleteWorkOrder]. *)
Lemma complete_order_rows now session o w :
  work_orders (db (fst (handleCompleteWorkOrder now session o w))) =
  update_order_rows w (complete_payload now session) (WorkOrder.id o).
Proof. reflexivity. Qed.

(** An admin at work: the principal of [w] is [caller], whose stored role is
    admin. *)
Section AsAdmin.

Variable w : World.
Variable caller : string.
Hypothesis signed_in : auth_uid w = Some caller.
Hypothesis admin_role : Policy.is_admin (profiles (db w)) caller = true.

Lemma admin_hits_order target o :
  hit_order w target o = String.eqb (WorkOrder.id o) target.
Proof.
  unfold hit_order, allowed.
  rewrite signed_in, permitted_work_orders_update, admin_role.
  apply andb_true_r.
Qed.

Lemma admin_hits_vehicle target v :
  hit w target v = String.eqb (Vehicle.id v) target.
Proof.
  unfold hit, allowed.
  rewrite signed_in, permitted_vehicles_write, admin_role by discriminate.
  apply andb_true_r.
Qed.

(** What the admin's update leaves in the rows with the target id. *)
Lemma admin_update_order_rows p target r' :
  In r' (update_order_rows w p target) ->
  WorkOrder.id r' = target ->
  exists r, In r (work_orders (db w)) /\ r' = patch_work_order p r.
Proof.
  intros Hin Hid. unfold update_order_rows in Hin.
  apply in_map_iff in Hin as (r & Hr & Hin).
  rewrite admin_hits_order in Hr.
  exists r. split; [exact Hin|].
  destruct (String.eqb (WorkOrder.id r) target) eqn:E; [congruence|].
  subst r'. apply String.eqb_neq in E. contradiction.
Qed.

(** The target of the admin's update, when it is in the table, is
    rewritten. *)
Lemma admin_update_reaches p o :
  In o (work_orders (db w)) ->
  In (patch_work_order p o) (update_order_rows w p (WorkOrder.id o)).
Proof.
  intros Hin. unfold update_order_rows. apply in_map_iff. exists o.
  split; [|exact Hin].
  now rewrite admin_hits_order, String.eqb_refl.
Qed.

End AsAdmin.

End StatusFacts.

Section ResolutionFacts.

Import Backend.
Import WorkOrders.





End ResolutionFacts.




(** C5.  When an admin, signed in with that identity, completes a work order
    of the table, the work order is still there, every row with its id is
    completed with [resolved_at] the time of the call and [resolved_by] the
    admin, and every vehicle row with the linked vehicle's id is still there
    with status available. *)
Theorem complete_work_order_frees_vehicle :
  forall (now : string) (session : option AuthStore.Session) (o : WorkOrder.t)
         (w : Backend.World) (caller : string),
    Backend.auth_uid w = Some caller ->
    Policy.is_admin (Backend.profiles (Backend.db w)) caller = true ->
    WorkOrderModal.session_user_id session = Some caller ->
    caller <> "" ->
    In o (Backend.work_orders (Backend.db w)) ->
    let w' := fst (WorkOrders.handleCompleteWorkOrder now session o w) in
    (exists o', In o' (Backend.work_orders (Backend.db w')) /\
                WorkOrder.id o' = WorkOrder.id o) /\
    (forall o', In o' (Backend.work_orders (Backend.db w')) ->
                WorkOrder.id o' = WorkOrder.id o ->
                WorkOrder.status o' = completed /\
                WorkOrder.resolved_at o' = Some now /\
                WorkOrder.resolved_by o' = Some caller) /\
    map Vehicle.id (Backend.vehicles (Backend.db w'))
      = map Vehicle.id (Backend.vehicles (Backend.db w)) /\
    (forall v', In v' (Backend.vehicles (Backend.db w')) ->
                Vehicle.id v' = WorkOrder.vehicle_id o ->
                Vehicle.status v' = available).
Proof.
  intros now session o w caller Ha Hadm Hs Hne Hin w'.
  subst w'. rewrite complete_order_rows, complete_vehicle_rows.
  split; [|split; [|split]].
  - exists (Backend.patch_work_order (WorkOrders.complete_payload now session) o).
    split; [|reflexivity].
    now apply (admin_update_reaches w caller Ha Hadm).
  - intros o' Hin' Hid.
    destruct (admin_update_order_rows w caller Ha Hadm _ _ o' Hin' Hid)
      as (r & _ & ->).
    simpl. rewrite Hs. simpl.
    rewrite or_null_truthy by (destruct caller; [congruence | reflexivity]).
    auto.
  - unfold Backend.update_rows. rewrite map_map. apply map_ext.
    intros v. now destruct (Backend.hit w _ v).
  - intros v' Hin' Hid. unfold Backend.update_rows in Hin'.
    apply in_map_iff in Hin' as (v & Hv & _).
    rewrite (admin_hits_vehicle w caller Ha Hadm) in Hv.
    destruct (String.eqb (Vehicle.id v) (WorkOrder.vehicle_id o)) eqn:E.
    + now subst v'.
    + subst v'. apply String.eqb_neq in E. contradiction.
Qed.

(** Ada completes the brake work order: unit 7 is available again. *)
Lemma complete_work_order_frees_vehicle_witness :
  let w' := fst (WorkOrders.handleCompleteWorkOrder
                   Sample.noon (Sample.session_of "a1")
                   (Sample.order_with pending)
                   (Sample.world "a1" [Sample.order_with pending])) in
  (forall o', In o' (Backend.work_orders (Backend.db w')) ->
              WorkOrder.id o' = "w1" ->
              WorkOrder.status o' = completed /\
              WorkOrder.resolved_at o' = Some Sample.noon /\
              WorkOrder.resolved_by o' = Some "a1") /\
  (forall v', In v' (Backend.vehicles (Backend.db w')) ->
              Vehicle.id v' = "v7" -> Vehicle.status v' = available).
Proof.
  intros w'.
  destruct (complete_work_order_frees_vehicle
              Sample.noon (Sample.session_of "a1") (Sample.order_with pending)
              (Sample.world "a1" [Sample.order_with pending]) "a1"
              eq_refl eq_refl eq_refl ltac:(discriminate)
              (or_introl eq_refl))
    as (_ & Ho & _ & Hv).
  split; [exact Ho | exact Hv].
Defined.

(** ** The work-order state machine *)

Section MachineFacts.

Import Backend.
Import WorkOrders.

Lemma NoDup_map_inj {A B : Type} (f : A -> B) (l : list A) a b :
  NoDup (map f l) -> In a l -> In b l -> f a = f b -> a = b.
Proof.
  induction l as [|x l IH]; simpl; intros Hnd Ha Hb E; [contradiction|].
  apply NoDup_cons_iff in Hnd as [Hx Hnd].
  destruct Ha as [->|Ha], Hb as [->|Hb]; auto.
  - exfalso. apply Hx. rewrite E. now apply in_map.
  - exfalso. apply Hx. rewrite <- E. now apply in_map.
Qed.

Lemma visible_is_stored w o :
  In o (visible_work_orders w) -> In o (work_orders (db w)).
Proof. unfold visible_work_orders. intros H. now apply filter_In in H. Qed.

(** An update aimed at a row of the table rewrites that row only. *)
Lemma hit_order_is_target w order r :
  unique_ids w -> In order (work_orders (db w)) -> In r (work_orders (db w)) ->
  hit_order w (WorkOrder.id order) r = true -> r = order.
Proof.
  intros Hu Ho Hr Hh. unfold hit_order in Hh.
  apply andb_true_iff in Hh as [Hh _]. apply String.eqb_eq in Hh.
  exact (NoDup_map_inj WorkOrder.id _ r order Hu Hr Ho Hh).
Qed.

(** A page that shows its order as stored is a page. *)
Lemma fresh_step_step isAdmin w w' : fresh_step isAdmin w w' -> step isAdmin w w'.
Proof. intros [? ? ? ? ? _ H | ? ? ? ? _ H]; now constructor. Qed.

Lemma step_follows isAdmin w w' :
  unique_ids w -> fresh_step isAdmin w w' ->
  rows_follow page_transition (work_orders (db w)) (work_orders (db w')).
Proof.
  intros Hu Hstep.
  destruct Hstep as [w order now n notes Hin Hshow | w order now session Hin Hshow];
    apply visible_is_stored in Hin.
  - rewrite update_status_rows. apply Forall2_map_same. intros r Hr.
    destruct (hit_order w (WorkOrder.id order) r) eqn:Hh; [|now auto].
    apply (hit_order_is_target w order r Hu Hin Hr) in Hh. subst r.
    split; [reflexivity|]. right.
    unfold showUpdateStatus in Hshow. apply andb_true_iff in Hshow as [_ Hp].
    apply WorkOrderStatus_eqb_eq in Hp. simpl. rewrite Hp. now destruct n.
  - rewrite complete_order_rows. apply Forall2_map_same. intros r Hr.
    destruct (hit_order w (WorkOrder.id order) r) eqn:Hh; [|now auto].
    apply (hit_order_is_target w order r Hu Hin Hr) in Hh. subst r.
    split; [reflexivity|]. right.
    unfold showCompleteWorkOrder in Hshow.
    apply andb_true_iff in Hshow as [_ Hp]. simpl.
    now destruct (WorkOrder.status order).
Qed.

Lemma rows_follow_ids R l l' :
  rows_follow R l l' -> map WorkOrder.id l' = map WorkOrder.id l.
Proof.
  induction 1 as [|o o' l l' [E _] _ IH]; simpl; [reflexivity|].
  now rewrite E, IH.
Qed.

Lemma rows_follow_refl R l : rows_follow R l l.
Proof. induction l; constructor; auto. Qed.

Lemma page_transition_trans a b c :
  page_transition a b = true -> page_transition b c = true ->
  page_transition a c = true.
Proof. destruct a, b, c; simpl; congruence. Qed.

Lemma rows_follow_trans l1 l2 l3 :
  rows_follow page_transition l1 l2 -> rows_follow page_transition l2 l3 ->
  rows_follow page_transition l1 l3.
Proof.
  intros H12. revert l3.
  induction H12 as [|a b l1 l2 [E1 H1] _ IH]; intros l3 H23;
    inversion H23 as [|b' c l2' l3' [E2 H2] Hrest]; subst; constructor.
  - split; [congruence|].
    destruct H1 as [H1|H1], H2 as [H2|H2].
    + left; congruence.
    + right. now rewrite <- H1.
    + right. now rewrite H2.
    + right. eapply page_transition_trans; eauto.
  - now apply IH.
Qed.

Lemma steps_follow isAdmin w w' :
  unique_ids w -> fresh_steps isAdmin w w' ->
  rows_follow page_transition (work_orders (db w)) (work_orders (db w')).
Proof.
  intros Hu Hs. induction Hs as [w|w1 w2 w3 H12 _ IH].
  - apply rows_follow_refl.
  - pose proof (step_follows isAdmin w1 w2 Hu H12) as F12.
    eapply rows_follow_trans; [exact F12|]. apply IH.
    unfold unique_ids in *. now rewrite (rows_follow_ids _ _ _ F12).
Qed.

End MachineFacts.

(** A table of one row has unique ids. *)
Ltac one_row_table :=
  unfold WorkOrders.unique_ids; simpl;
  constructor; [intros [] | constructor].

(** C4, as the code has it.  Whatever a user does on a work-order page that
    shows the order acted on as it is stored, a stored work order changes
    status only along the transitions the page offers: pending to
    in_progress, completed or cancelled (the Update Status dialog, offered
    for orders shown as pending), and in_progress or cancelled to completed
    (the Complete button, offered for every order not shown as completed).
    Under such operations completed is the only terminal status. *)
Theorem work_order_page_transitions :
  forall (isAdmin : bool) (w w' : Backend.World),
    WorkOrders.unique_ids w ->
    WorkOrders.fresh_steps isAdmin w w' ->
    WorkOrders.rows_follow WorkOrders.page_transition
      (Backend.work_orders (Backend.db w))
      (Backend.work_orders (Backend.db w')) /\
    Forall2 (fun o o' =>
               WorkOrder.status o = completed -> WorkOrder.status o' = completed)
            (Backend.work_orders (Backend.db w))
            (Backend.work_orders (Backend.db w')).
Proof.
  intros isAdmin w w' Hu Hs.
  pose proof (steps_follow isAdmin w w' Hu Hs) as F.
  split; [exact F|].
  eapply Forall2_impl; [|exact F].
  intros o o' [_ [E|T]] Hc.
  - congruence.
  - rewrite Hc in T. discriminate T.
Qed.

(** Ada marks the pending brake work order in progress, then completes
    it. *)
Lemma work_order_page_transitions_witness :
  let w0 := Sample.world "a1" [Sample.order_with pending] in
  let w1 := fst (WorkOrders.handleUpdateStatus
                   Sample.noon WorkOrders.to_in_progress
                   (Sample.order_with pending) "" w0) in
  let started :=
    {| WorkOrder.id := "w1"; WorkOrder.vehicle_id := "v7";
       WorkOrder.created_by := "u2"; WorkOrder.status := in_progress;
       WorkOrder.description := "Brake issue"; WorkOrder.priority := "high";
       WorkOrder.location := "Shop A"; WorkOrder.mileage := "41000";
       WorkOrder.resolved_at := None; WorkOrder.resolved_by := None;
       WorkOrder.resolution_notes := None;
       WorkOrder.created_at := "2025-01-01T08:00:00.000Z";
       WorkOrder.updated_at := Sample.noon;
       WorkOrder.work_order_number := Some 1%Z |} in
  let w2 := fst (WorkOrders.handleCompleteWorkOrder
                   Sample.noon (Sample.session_of "a1") started w1) in
  map WorkOrder.status (Backend.work_orders (Backend.db w2)) = [completed] /\
  WorkOrders.rows_follow WorkOrders.page_transition
    (Backend.work_orders (Backend.db w0))
    (Backend.work_orders (Backend.db w2)).
Proof.
  intros w0 w1 started w2.
  split; [reflexivity|].
  apply (work_order_page_transitions true w0 w2).
  - one_row_table.
  - apply WorkOrders.fresh_steps_next with (w2 := w1).
    + apply WorkOrders.fresh_update_status; [left; reflexivity | reflexivity].
    + apply WorkOrders.fresh_steps_next with (w2 := w2);
        [|apply WorkOrders.fresh_steps_refl].
      apply WorkOrders.fresh_complete; [left; reflexivity | reflexivity].
Defined.

(** C4 as stated fails: the Complete button is shown for a cancelled order,
    and Ada pressing it, on a page that shows the order as it is stored,
    turns the cancelled brake work order into a completed one, a transition
    the specified machine does not have. *)
Lemma cancelled_order_can_be_completed :
  let w := Sample.world "a1" [Sample.order_with cancelled] in
  let w' := fst (WorkOrders.handleCompleteWorkOrder
                   Sample.noon (Sample.session_of "a1")
                   (Sample.order_with cancelled) w) in
  WorkOrders.unique_ids w /\
  WorkOrders.fresh_step true w w' /\
  map WorkOrder.status (Backend.work_orders (Backend.db w)) = [cancelled] /\
  map WorkOrder.status (Backend.work_orders (Backend.db w')) = [completed] /\
  ~ WorkOrders.rows_follow WorkOrders.spec_transition
      (Backend.work_orders (Backend.db w))
      (Backend.work_orders (Backend.db w')).
Proof.
  intros w w'.
  split; [|split; [|split; [|split]]].
  - one_row_table.
  - apply WorkOrders.fresh_complete; [left; reflexivity | reflexivity].
  - reflexivity.
  - reflexivity.
  - intros H. vm_compute in H.
    inversion H as [|o o' l l' (_ & [E|T]) _]; subst; discriminate.
Qed.

(** The handlers find the row by its id and test no status.  A page whose
    list still shows the brake work order as pending, while the store holds
    it completed, offers the Update Status dialog, and its Cancel button
    turns the completed order into a cancelled one. *)
Remark stale_page_cancels_completed_order :
  let w := Sample.world "a1" [Sample.order_with completed] in
  let w' := fst (WorkOrders.handleUpdateStatus
                   Sample.noon WorkOrders.to_cancelled
                   (Sample.order_with pending) "" w) in
  WorkOrders.step true w w' /\
  ~ WorkOrders.shown_as_stored w (Sample.order_with pending) /\
  map WorkOrder.status (Backend.work_orders (Backend.db w)) = [completed] /\
  map WorkOrder.status (Backend.work_orders (Backend.db w')) = [cancelled].
Proof.
  intros w w'.
  split; [|split; [|split]].
  - apply WorkOrders.step_update_status. reflexivity.
  - intros [H|[]]. discriminate H.
  - reflexivity.
  - reflexivity.
Qed.

(** C2.  The scenario of the specification: unit 7 is out of service at
    Shop A, and Ada completes its brake work order.  The release writes the
    status only, so the stored vehicle is available and still carries the
    location and the notes: the side fields no longer agree with the
    status, which the vehicle form would have normalised. *)
Theorem release_leaves_location_on_available_vehicle :
  let w := Sample.world "a1" [Sample.order_with pending] in
  let w' := fst (WorkOrders.handleCompleteWorkOrder
                   Sample.noon (Sample.session_of "a1")
                   (Sample.order_with pending) w) in
  Forall VehicleModal.consistent (Backend.vehicles (Backend.db w)) /\
  exists v',
    Backend.vehicles (Backend.db w') = [v'] /\
    Vehicle.status v' = available /\
    Vehicle.current_location v' = Some "Shop A" /\
    Vehicle.notes v' = Some "Brake issue" /\
    ~ VehicleModal.consistent v'.
Proof.
  intros w w'. split.
  - repeat constructor; discriminate.
  - eexists. split; [reflexivity|]. repeat split.
    unfold VehicleModal.consistent. simpl. intros (_ & H & _). discriminate H.
Qed.

(** Three creations in a row on an empty table get the numbers 1, 2, 3; the
    one by a client that is not signed in creates nothing. *)
Example three_creations_are_numbered :
  WorkOrderModal.numbers
    (Backend.work_orders
       (Backend.db
          (WorkOrderModal.create_in_sequence
             [Sample.creation (Some "u2") "w1";
              Sample.creation None "w0";
              Sample.creation (Some "a1") "w2";
              Sample.creation (Some "u2") "w3"]
             (Sample.world "u2" []))))
  = [Some 1; Some 2; Some 3]%Z.
Proof. reflexivity. Qed.

(** The descending order puts the rows without a number first, then the
    greatest number. *)
Example sort_desc_sample :
  Backend.sort_desc [Some 3; Some 7; None; Some 1; Some 7; None; Some 4]%Z
  = [None; None; Some 7; Some 7; Some 4; Some 3; Some 1]%Z.
Proof. reflexivity. Qed.

(** The sum is a double: after 2^53 comes 2^53 again, and a creation beside
    the order number 2^53 repeats that number. *)
Example to_double_sample :
  Backend.to_double (2 ^ 53 + 1) = (2 ^ 53)%Z /\
  Backend.to_double (2 ^ 53 + 3) = (2 ^ 53 + 4)%Z /\
  Backend.to_double (- (2 ^ 54) - 2) = (- (2 ^ 54))%Z /\
  WorkOrderModal.assigned_number
    [{| WorkOrder.id := "w9"; WorkOrder.vehicle_id := "v7";
        WorkOrder.created_by := "u2"; WorkOrder.status := pending;
        WorkOrder.description := ""; WorkOrder.priority := "low";
        WorkOrder.location := ""; WorkOrder.mileage := "";
        WorkOrder.resolved_at := None; WorkOrder.resolved_by := None;
        WorkOrder.resolution_notes := None;
        WorkOrder.created_at := Sample.noon; WorkOrder.updated_at := Sample.noon;
        WorkOrder.work_order_number := Some (2 ^ 53)%Z |}]
  = (2 ^ 53)%Z.
Proof. repeat split; vm_compute; reflexivity. Qed.

(** * Further properties *)

(** ** The vehicle form while it is edited *)

Section FormFacts.

Import VehicleModal.
Import VehicleForm.

Lemma load_tidy this_year vehicle :
  match vehicle with
  | Some v => consistent v
  | None => True
  end ->
  tidy (load this_year vehicle).
Proof.
  destruct vehicle as [v|]; simpl.
  - unfold consistent, tidy; simpl.
    destruct (Vehicle.status v); intros H; repeat split; intros E;
      try congruence;
      destruct H as (H1 & H2 & H3) || destruct H as (H1 & H2);
      try (rewrite H1); try (rewrite H2); try (rewrite H3); reflexivity.
  - intros _. unfold tidy; simpl. auto.
Qed.

Lemma edit_tidy vehicle e f : tidy f -> tidy (edit vehicle e f).
Proof.
  unfold edit. destruct (usable vehicle f e) eqn:U; [|auto].
  unfold tidy. intros (H1 & H2 & H3).
  destruct e; simpl in *; try (repeat split; assumption).
  - destruct value; simpl; repeat split; intros E; congruence || auto.
  - apply VehicleStatus_eqb_eq in U.
    repeat split; auto. congruence.
  - apply VehicleStatus_eqb_eq in U.
    repeat split; auto. congruence.
  - repeat split; auto. intros E. rewrite E in U. discriminate U.
Qed.

Lemma edited_tidy this_year vehicle es :
  tidy (load this_year vehicle) -> tidy (edited this_year vehicle es).
Proof.
  unfold edited. generalize (load this_year vehicle) as f.
  induction es as [|e es IH]; simpl; intros f H; [exact H|].
  apply IH. now apply edit_tidy.
Qed.

End FormFacts.

(** X1.  However the vehicle form is edited after it was opened (blank, or
    for a vehicle whose side fields agree with its status), text sits only
    in the fields the current status shows; so the normalisation done at
    submit discards nothing the user typed: each side field of
    [vehicleData] is the form's text, or null where the form's text is
    empty. *)
Theorem form_edits_keep_fields_tidy :
  forall (this_year : Z) (vehicle : option Vehicle.t)
         (es : list VehicleForm.Edit),
    match vehicle with
    | Some v => VehicleModal.consistent v
    | None => True
    end ->
    let f := VehicleForm.edited this_year vehicle es in
    VehicleForm.tidy f /\
    or_empty (Backend.ins_assigned_to (VehicleModal.vehicleData f))
      = VehicleModal.assigned_to f /\
    or_empty (Backend.ins_current_location (VehicleModal.vehicleData f))
      = VehicleModal.current_location f /\
    or_empty (Backend.ins_notes (VehicleModal.vehicleData f))
      = VehicleModal.notes f.
Proof.
  intros this_year vehicle es Hv f.
  assert (T : VehicleForm.tidy f).
  { apply edited_tidy. now apply load_tidy. }
  split; [exact T|].
  destruct T as (H1 & H2 & H3). simpl.
  destruct (VehicleModal.status f); simpl; repeat split;
    symmetry; (apply H1 || apply H2 || apply H3); congruence.
Qed.

(** Unit 7 is switched to assigned, Bob is picked, then it is switched to
    available: the officer is gone from the form. *)
Lemma form_edits_keep_fields_tidy_witness :
  let f := VehicleForm.edited 2025 (Some Sample.unit7)
             [VehicleForm.SelectStatus assigned; VehicleForm.SelectOfficer "u2";
              VehicleForm.SelectStatus available] in
  VehicleForm.tidy f /\ VehicleModal.assigned_to f = "".
Proof.
  intros f.
  destruct (form_edits_keep_fields_tidy 2025 (Some Sample.unit7)
              [VehicleForm.SelectStatus assigned; VehicleForm.SelectOfficer "u2";
               VehicleForm.SelectStatus available])
    as (T & _).
  - unfold VehicleModal.consistent. simpl. split; [discriminate | reflexivity].
  - split; [exact T | reflexivity].
Defined.

Section ResaveFacts.

Import Backend.
Import VehicleModal.

Lemma VehicleStatus_eqb_refl s : VehicleStatus_eqb s s = true.
Proof. now destruct s. Qed.


(** What the [try] block answers when it succeeds: whether the work-order
    dialog was asked for. *)
Lemma save_answer new_id vehicle f w w' show :
  save new_id vehicle f w = (w', Data show) ->
  show =
  match vehicle with
  | Some v =>
      negb (VehicleStatus_eqb (Vehicle.status v) (status f))
      && VehicleStatus_eqb (status f) out_of_service
  | None => VehicleStatus_eqb (status f) out_of_service
  end.
Proof.
  unfold save, bind. destruct vehicle as [v|].
  - cbn [update_vehicle].
    destruct (negb (VehicleStatus_eqb (Vehicle.status v) (status f))); simpl.
    + destruct (rpc_update_vehicle_status _ _ _ _) as [w1 [[]|e]];
        unfold ret; intros [= _ <-]; reflexivity.
    + unfold ret. now intros [= _ <-].
  - destruct (insert_vehicle new_id (vehicleData f) w) as [w1 [nv|e]];
      [|discriminate].
    destruct (rpc_update_vehicle_status _ _ _ _) as [w2 [[]|e]];
      unfold ret; intros [= _ <-]; reflexivity.
Qed.

End ResaveFacts.



(** X3.  After a save that succeeded, the form is closed exactly when the
    status saved is not out of service, and the save asks for the
    work-order dialog exactly when the status saved is out of service and
    the vehicle is new or its status changed.  The dialog is then on screen
    exactly when the form was opened for an existing vehicle, the status
    saved is out of service, and the component's state was already set or
    the status changed.  So a vehicle created as out of service leaves the
    form open with no dialog and the state set; from a state that is not
    set, the dialog comes up exactly when an existing vehicle's status was
    changed to out of service. *)
Theorem save_outcome :
  forall (new_id : string) (vehicle : option Vehicle.t)
         (f : VehicleModal.FormData) (w : Backend.World) (before : bool),
    let r := snd (VehicleModal.handleSubmit new_id vehicle f w) in
    VehicleModal.error r = None ->
    VehicleModal.closed r
      = negb (VehicleStatus_eqb (VehicleModal.status f) out_of_service) /\
    VehicleModal.asksForWorkOrder r
      = match vehicle with
        | Some v =>
            negb (VehicleStatus_eqb (Vehicle.status v) (VehicleModal.status f))
            && VehicleStatus_eqb (VehicleModal.status f) out_of_service
        | None => VehicleStatus_eqb (VehicleModal.status f) out_of_service
        end /\
    VehicleForm.work_order_dialog_rendered
      (VehicleModal.isOpen r) vehicle (VehicleModal.showWorkOrderModal before r)
      = match vehicle with
        | Some v =>
            VehicleStatus_eqb (VehicleModal.status f) out_of_service
            && (before
                || negb (VehicleStatus_eqb (Vehicle.status v)
                           (VehicleModal.status f)))
        | None => false
        end.
Proof.
  intros new_id vehicle f w before r. subst r.
  unfold VehicleModal.handleSubmit.
  destruct (VehicleModal.save new_id vehicle f w) as [w' [show|e]] eqn:E;
    simpl; [|discriminate].
  intros _. split; [reflexivity|].
  apply save_answer in E. split; [exact E|].
  subst show.
  unfold VehicleForm.work_order_dialog_rendered, VehicleModal.isOpen,
    VehicleModal.showWorkOrderModal. simpl.
  destruct vehicle as [v|]; simpl.
  - destruct (VehicleStatus_eqb (VehicleModal.status f) out_of_service),
      (VehicleStatus_eqb (Vehicle.status v) (VehicleModal.status f)), before;
      reflexivity.
  - apply andb_false_r.
Qed.

(** Ada creates unit 9 as out of service: the form stays open, no
    work-order dialog comes up, and the state is set. *)
Lemma save_outcome_witness :
  let f := {| VehicleModal.unit_number := "9"; VehicleModal.make := "Dodge";
              VehicleModal.model := "Charger"; VehicleModal.year := 2022%Z;
              VehicleModal.status := out_of_service;
              VehicleModal.assigned_to := "";
              VehicleModal.current_location := "Body Shop";
              VehicleModal.notes := "Dent" |} in
  let r := snd (VehicleModal.handleSubmit "v9" None f (Sample.world "a1" [])) in
  VehicleModal.closed r = false /\
  VehicleModal.asksForWorkOrder r = true /\
  VehicleForm.work_order_dialog_rendered
    (VehicleModal.isOpen r) None (VehicleModal.showWorkOrderModal false r)
  = false.
Proof.
  intros f r.
  exact (save_outcome "v9" None f (Sample.world "a1" []) false eq_refl).
Defined.

(** With the state left set by that creation, Ada opens unit 7, which is
    out of service, and saves it as it is: the work-order dialog comes up,
    though nothing changed. *)
Example state_set_earlier_brings_dialog_up :
  let r := snd (VehicleModal.handleSubmit "unused" (Some Sample.unit7)
                  (VehicleModal.load 2025 (Some Sample.unit7))
                  (Sample.world "a1" [])) in
  VehicleModal.asksForWorkOrder r = false /\
  VehicleForm.work_order_dialog_rendered
    (VehicleModal.isOpen r) (Some Sample.unit7)
    (VehicleModal.showWorkOrderModal true r) = true /\
  VehicleForm.work_order_dialog_rendered
    (VehicleModal.isOpen r) (Some Sample.unit7)
    (VehicleModal.showWorkOrderModal
       (VehicleModal.close_work_order_dialog true) r) = false.
Proof. repeat split. Qed.

(** ** Work orders: outcomes, frames and the audit trail *)

(** X4.  What the creation dialog reports agrees with what the store did:
    either it closes without an error and exactly one row was appended to
    the table, or it stays open with an error and the tables are what they
    were.  Without a user in the session nothing is sent at all. *)
Theorem creation_outcome_matches_store :
  forall (new_id clock : string) (session : option AuthStore.Session)
         (vehicleId : string) (f : WorkOrderModal.FormData) (w : Backend.World),
    let r := WorkOrderModal.handleSubmit new_id clock session vehicleId f w in
    ((WorkOrderModal.error (snd r) = None /\
      WorkOrderModal.closed (snd r) = true /\
      exists row,
        Backend.work_orders (Backend.db (fst r))
        = (Backend.work_orders (Backend.db w) ++ [row])%list)
     \/
     (WorkOrderModal.error (snd r) <> None /\
      WorkOrderModal.closed (snd r) = false /\
      Backend.db (fst r) = Backend.db w)) /\
    (opt_or_null (WorkOrderModal.session_user_id session) = None -> fst r = w).
Proof.
  intros new_id clock session vehicleId f w r. subst r.
  unfold WorkOrderModal.handleSubmit.
  destruct (opt_or_null (WorkOrderModal.session_user_id session)) as [creator|].
  - split; [|discriminate].
    unfold WorkOrderModal.create, Backend.bind,
      Backend.select_last_work_order_number, Backend.insert_work_order.
    cbn [fst snd].
    destruct (Backend.allowed _ Policy.work_orders Policy.INSERT new_id); cbn.
    + left. split; [reflexivity|]. split; [reflexivity|]. eauto.
    + right. split; [discriminate|]. split; reflexivity.
  - split; [|reflexivity].
    right. simpl. split; [discriminate|]. split; reflexivity.
Qed.

Section NonAdminFacts.

Import Backend.

Variable w : World.
Hypothesis not_admin :
  forall u, auth_uid w = Some u -> Policy.is_admin (profiles (db w)) u = false.

Lemma non_admin_orders_denied row :
  allowed w Policy.work_orders Policy.UPDATE row = false.
Proof.
  unfold allowed. destruct (auth_uid w) as [u|] eqn:E; [|reflexivity].
  rewrite permitted_work_orders_update. now apply not_admin.
Qed.

Lemma non_admin_vehicles_denied row :
  allowed w Policy.vehicles Policy.UPDATE row = false.
Proof.
  unfold allowed. destruct (auth_uid w) as [u|] eqn:E; [|reflexivity].
  rewrite permitted_vehicles_write by discriminate. now apply not_admin.
Qed.

Lemma non_admin_update_order_rows p target :
  update_order_rows w p target = work_orders (db w).
Proof.
  unfold update_order_rows, hit_order. apply map_unchanged. intros o _.
  now rewrite non_admin_orders_denied, andb_false_r.
Qed.

Lemma non_admin_update_rows p target :
  update_rows w p target = vehicles (db w).
Proof.
  apply update_rows_denied. apply non_admin_vehicles_denied.
Qed.

Lemma db_ext d1 d2 :
  profiles d1 = profiles d2 -> vehicles d1 = vehicles d2 ->
  vehicle_status_history d1 = vehicle_status_history d2 ->
  work_orders d1 = work_orders d2 -> d1 = d2.
Proof. destruct d1, d2; simpl; intros; subst; reflexivity. Qed.

Lemma update_status_other_tables now n o notes w0 :
  let d := db (fst (WorkOrders.handleUpdateStatus now n o notes w0)) in
  profiles d = profiles (db w0) /\ vehicles d = vehicles (db w0) /\
  vehicle_status_history d = vehicle_status_history (db w0).
Proof.
  unfold WorkOrders.handleUpdateStatus, bind.
  destruct (WorkOrders.is_completed n); repeat split; reflexivity.
Qed.

Lemma non_admin_step isAdmin w' :
  WorkOrders.step isAdmin w w' -> db w' = db w.
Proof.
  intros Hstep.
  inversion Hstep as [w0 order now n notes _ Hw|w0 order now session _ Hw];
    subst w0.
  - destruct (update_status_other_tables now n order notes w) as (H1 & H2 & H3).
    apply db_ext; auto.
    rewrite update_status_rows. apply non_admin_update_order_rows.
  - apply db_ext; try reflexivity.
    + rewrite complete_vehicle_rows. apply non_admin_update_rows.
    + rewrite complete_order_rows. apply non_admin_update_order_rows.
Qed.

End NonAdminFacts.

(** X5.  The buttons of the work-order page are shown on the client's
    [isAdmin] flag, but the store decides by the stored role: when the
    signed-in principal is not an admin (or nobody is signed in), nothing a
    user does on the page changes any table, even if the client's flag says
    admin. *)
Theorem non_admin_page_changes_nothing :
  forall (isAdmin : bool) (w w' : Backend.World),
    (forall u, Backend.auth_uid w = Some u ->
               Policy.is_admin (Backend.profiles (Backend.db w)) u = false) ->
    WorkOrders.step isAdmin w w' ->
    Backend.db w' = Backend.db w.
Proof.
  intros isAdmin w w' Hna Hstep. exact (non_admin_step w Hna isAdmin w' Hstep).
Qed.

(** Bob's client wrongly shows the admin buttons; he presses Complete. *)
Lemma non_admin_page_changes_nothing_witness :
  Backend.db (fst (WorkOrders.handleCompleteWorkOrder
                     Sample.noon (Sample.session_of "u2")
                     (Sample.order_with pending)
                     (Sample.world "u2" [Sample.order_with pending])))
  = Backend.db (Sample.world "u2" [Sample.order_with pending]).
Proof.
  apply (non_admin_page_changes_nothing true).
  - intros u [= <-]. reflexivity.
  - apply WorkOrders.step_complete. reflexivity.
Defined.

(** A client without a session presses Create: the store sees nothing. *)
Lemma creation_outcome_matches_store_witness :
  fst (WorkOrderModal.handleSubmit "w1" Sample.noon None "v7"
         Sample.brake_form (Sample.world "u2" []))
  = Sample.world "u2" [].
Proof.
  apply (proj2 (creation_outcome_matches_store "w1" Sample.noon None "v7"
                  Sample.brake_form (Sample.world "u2" []))).
  reflexivity.
Defined.

(** X6.  Only the vehicle form calls the store's status-update function.
    The settings page sends its insert or update and, when that did not
    fail, the select that reloads its list; work-order completion sends its
    two updates and the select of the work orders.  None of them calls the
    function, and the status history is left as it was: a vehicle created
    on the settings page, and a release to available, are not in the audit
    trail. *)
Theorem only_the_form_records_history :
  (forall new_id nv w,
      let w' := fst (Settings.handleCreateVehicle new_id nv w) in
      Backend.vehicle_status_history (Backend.db w')
        = Backend.vehicle_status_history (Backend.db w) /\
      Backend.requests w'
        = if Backend.allowed w Policy.vehicles Policy.INSERT new_id
          then Backend.ReqSelect Policy.vehicles
               :: Backend.ReqInsert Policy.vehicles :: Backend.requests w
          else Backend.ReqInsert Policy.vehicles :: Backend.requests w) /\
  (forall edited w,
      let w' := fst (Settings.handleUpdateVehicle edited w) in
      Backend.vehicle_status_history (Backend.db w')
        = Backend.vehicle_status_history (Backend.db w) /\
      Backend.requests w'
        = Backend.ReqSelect Policy.vehicles
          :: Backend.ReqUpdate Policy.vehicles :: Backend.requests w) /\
  (forall now session o w,
      let w' := fst (WorkOrders.handleCompleteWorkOrder now session o w) in
      Backend.vehicle_status_history (Backend.db w')
        = Backend.vehicle_status_history (Backend.db w) /\
      Backend.requests w'
        = Backend.ReqSelect Policy.work_orders
          :: Backend.ReqUpdate Policy.vehicles
          :: Backend.ReqUpdate Policy.work_orders :: Backend.requests w).
Proof.
  split; [|split].
  - intros new_id nv w w'. subst w'.
    unfold Settings.handleCreateVehicle, Settings.fetchVehicles, Backend.bind,
      Backend.insert_vehicle.
    destruct (Backend.allowed w Policy.vehicles Policy.INSERT new_id);
      split; reflexivity.
  - intros edited w w'. split; reflexivity.
  - intros now session o w w'. split; reflexivity.
Qed.

Section OrderFrameFacts.

Import Backend.

Lemma update_order_rows_identity_kept w p target :
  OrderFrame.identity_kept (work_orders (db w)) (update_order_rows w p target).
Proof.
  apply Forall2_map_same. intros o _.
  destruct (hit_order w target o); simpl; repeat split; reflexivity.
Qed.

Lemma step_identity_kept isAdmin w w' :
  WorkOrders.step isAdmin w w' ->
  OrderFrame.identity_kept (work_orders (db w)) (work_orders (db w')).
Proof.
  intros [w0 order now n notes _ | w0 order now session _].
  - rewrite update_status_rows. apply update_order_rows_identity_kept.
  - rewrite complete_order_rows. apply update_order_rows_identity_kept.
Qed.

Lemma identity_kept_numbers l l' :
  OrderFrame.identity_kept l l' ->
  WorkOrderModal.numbers l' = WorkOrderModal.numbers l.
Proof.
  induction 1 as [|o o' l l' (_ & E & _) _ IH]; simpl; [reflexivity|].
  now rewrite E, IH.
Qed.

Lemma identity_kept_refl l : OrderFrame.identity_kept l l.
Proof. induction l; constructor; repeat split; auto. Qed.

Lemma identity_kept_trans l1 l2 l3 :
  OrderFrame.identity_kept l1 l2 -> OrderFrame.identity_kept l2 l3 ->
  OrderFrame.identity_kept l1 l3.
Proof.
  intros H12. revert l3.
  induction H12 as [|a b l1 l2 Hab _ IH]; intros l3 H23;
    inversion H23 as [|b' c l2' l3' Hbc Hrest]; subst; constructor.
  - destruct Hab as (A1 & A2 & A3 & A4 & A5 & A6 & A7 & A8 & A9).
    destruct Hbc as (B1 & B2 & B3 & B4 & B5 & B6 & B7 & B8 & B9).
    repeat split; congruence.
  - now apply IH.
Qed.

(** Over the life of the table, the rows that were there stay in front, in
    their order, and keep their identity. *)
Lemma lives_identity_kept isAdmin w w' :
  OrderFrame.lives isAdmin w w' ->
  exists kept created,
    work_orders (db w') = (kept ++ created)%list /\
    OrderFrame.identity_kept (work_orders (db w)) kept.
Proof.
  induction 1 as [w|w1 w2 w3 H12 _ IH].
  - exists (work_orders (db w)), []. rewrite app_nil_r.
    split; [reflexivity | apply identity_kept_refl].
  - destruct IH as (kept & created & E & K).
    destruct H12 as [w0 c | w0 w1 Hstep].
    + destruct (create_one_rows c w0) as [E1|(row & E1 & _)]; rewrite E1 in K.
      * exists kept, created. auto.
      * apply Forall2_app_inv_l in K as (k1 & k2 & K1 & _ & ->).
        exists k1, (k2 ++ created)%list.
        split; [now rewrite E, <- app_assoc | exact K1].
    + exists kept, created. split; [exact E|].
      eapply identity_kept_trans; [|exact K].
      now apply step_identity_kept with isAdmin.
Qed.

End OrderFrameFacts.

(** X7.  A status update or a completion rewrites the status, the
    resolution fields and the update time only: every work order keeps its
    id, number, vehicle, creator, description, priority, location, mileage
    and creation time.  Over any sequence of creations, status updates and
    completions, the work orders that were in the table stay in front of
    the ones created since, in their order, with these columns as they
    were. *)
Theorem work_order_identity_kept :
  (forall isAdmin w w',
      WorkOrders.step isAdmin w w' ->
      OrderFrame.identity_kept (Backend.work_orders (Backend.db w))
                               (Backend.work_orders (Backend.db w'))) /\
  (forall isAdmin w w',
      OrderFrame.lives isAdmin w w' ->
      exists kept created,
        Backend.work_orders (Backend.db w') = (kept ++ created)%list /\
        OrderFrame.identity_kept (Backend.work_orders (Backend.db w)) kept).
Proof.
  split.
  - apply step_identity_kept.
  - apply lives_identity_kept.
Qed.

(** Bob reports a second issue on a table that holds WO#1, then Ada
    completes the first: the first order is still in front and still
    WO#1. *)
Lemma work_order_identity_kept_witness :
  let w0 := Sample.world "a1" [Sample.order_with pending] in
  let w1 := WorkOrderModal.create_one (Sample.creation (Some "u2") "w2") w0 in
  let w2 := fst (WorkOrders.handleCompleteWorkOrder
                   Sample.noon (Sample.session_of "a1")
                   (Sample.order_with pending) w1) in
  exists kept created,
    Backend.work_orders (Backend.db w2) = (kept ++ created)%list /\
    OrderFrame.identity_kept [Sample.order_with pending] kept.
Proof.
  intros w0 w1 w2.
  apply (proj2 work_order_identity_kept true w0 w2).
  apply OrderFrame.lives_next with (w2 := w1); [apply WorkOrders.life_create|].
  apply OrderFrame.lives_next with (w2 := w2); [|apply OrderFrame.lives_refl].
  apply WorkOrders.life_step. apply WorkOrders.step_complete. reflexivity.
Defined.

(** ** More on the authorization rules *)

Section MorePolicyFacts.

Import Policy.

Lemma permitted_profiles_select ps u row :
  permitted ps (Some u) profiles SELECT row = String.eqb u row || is_admin ps u.
Proof.
  cbn. destruct (String.eqb u row), (is_admin ps u); reflexivity.
Qed.

Lemma permitted_profiles_update ps u row :
  permitted ps (Some u) profiles UPDATE row = is_admin ps u.
Proof. cbn. destruct (is_admin ps u); reflexivity. Qed.

Lemma admin_permitted_whenever ps a t c row :
  is_admin ps a = true ->
  (exists u, permitted ps (Some u) t c row = true) ->
  permitted ps (Some a) t c row = true.
Proof.
  intros Ha (u & Hu).
  destruct t, c; cbn in *; rewrite ?Ha, ?orb_true_r; try reflexivity;
    destruct (is_admin ps u); try discriminate Hu; try reflexivity;
    destruct (String.eqb u row); discriminate Hu.
Qed.

End MorePolicyFacts.

(** X8.  Under the rules the status history is append-only and work orders
    are never deleted: no principal, admin or not, signed in or not, is
    permitted to update or delete a status-history row, or to delete a work
    order. *)
Theorem history_is_append_only :
  forall (ps : list Policy.ProfileRow) (principal : option string) (row : string),
    Policy.permitted ps principal Policy.vehicle_status_history Policy.UPDATE row
      = false /\
    Policy.permitted ps principal Policy.vehicle_status_history Policy.DELETE row
      = false /\
    Policy.permitted ps principal Policy.work_orders Policy.DELETE row = false.
Proof.
  intros ps [u|] row; repeat split; reflexivity.
Qed.

(** X9.  A principal may read a profile exactly when it is its own or the
    principal is an admin; and the rules never give a principal a
    permission that an admin lacks: whatever some signed-in principal may
    do to a row, every admin may do too. *)
Theorem admins_hold_every_permission :
  forall (ps : list Policy.ProfileRow) (row : string),
    (forall u,
        Policy.permitted ps (Some u) Policy.profiles Policy.SELECT row
        = String.eqb u row || Policy.is_admin ps u) /\
    (forall a t c,
        Policy.is_admin ps a = true ->
        (exists u, Policy.permitted ps (Some u) t c row = true) ->
        Policy.permitted ps (Some a) t c row = true).
Proof.
  intros ps row. split.
  - intros u. apply permitted_profiles_select.
  - intros a t c. apply admin_permitted_whenever.
Qed.

(** Bob may read his own profile, so Ada, an admin, may read it too. *)
Lemma admins_hold_every_permission_witness :
  Policy.permitted [Sample.ada; Sample.bob] (Some "a1")
    Policy.profiles Policy.SELECT "u2" = true.
Proof.
  apply (proj2 (admins_hold_every_permission [Sample.ada; Sample.bob] "u2")).
  - reflexivity.
  - exists "u2". reflexivity.
Defined.

(** ** Routes *)

Section RouteFacts.

Import App.

Ltac by_cases st l :=
  destruct st as [[s|] p [|]]; destruct l; simpl.

Lemma settle_no_redirect st l to : settle 2 st l <> Navigate to.
Proof. by_cases st l; discriminate. Qed.

Lemma settle_without_session st l :
  AuthStore.session st = None -> l <> Elsewhere -> settle 2 st l = Login.
Proof. by_cases st l; intros H1 H2; congruence. Qed.

Lemma settle_private st l :
  settle 2 st l = Dashboard \/ settle 2 st l = Vehicles \/
  settle 2 st l = WorkOrders \/ settle 2 st l = Settings ->
  AuthStore.session st <> None.
Proof.
  by_cases st l; intros [H|[H|[H|H]]]; discriminate.
Qed.

Lemma settle_settings st l :
  settle 2 st l = Settings <->
  l = AtSettings /\ AuthStore.session st <> None /\ AuthStore.isAdmin st = true.
Proof.
  by_cases st l; split.
  all: try (intros H; discriminate H).
  all: try (intros (H1 & H2 & H3); discriminate H1 || discriminate H3).
  all: try (intros (H1 & H2 & H3); exfalso; now apply H2).
  all: try (intros _; repeat split; discriminate).
  all: try (intros _; reflexivity).
Qed.

Lemma settle_settings_denied st l :
  AuthStore.session st <> None -> AuthStore.isAdmin st = false ->
  l = AtSettings -> settle 2 st l = Dashboard.
Proof. by_cases st l; intros H1 H2 H3; congruence. Qed.

Lemma navItems_render st path to :
  AuthStore.session st <> None -> In path (navItems st) ->
  render st (locate path) <> Navigate to.
Proof.
  destruct st as [[s|] p [|]]; simpl; intros Hs Hin; try congruence;
    repeat (destruct Hin as [<-|Hin]; [simpl; discriminate|]);
    now destruct Hin.
Qed.

End RouteFacts.

(** X10.  Following the redirects of the route table always ends, after at
    most two of them, on a page: without a session every known path ends
    on the login page; the dashboard, vehicle, work-order and settings
    pages are rendered only with a session; the settings page is rendered
    exactly at its own path with a session and the admin flag (a signed-in
    non-admin ends on the dashboard); and every path the side bar links to
    renders its page without a redirect. *)
Theorem routes_settle :
  forall (st : AuthStore.AuthState) (l : App.Location),
    let e := App.settle 2 st l in
    (forall to, e <> App.Navigate to) /\
    (AuthStore.session st = None -> l <> App.Elsewhere -> e = App.Login) /\
    (e = App.Dashboard \/ e = App.Vehicles \/ e = App.WorkOrders \/
     e = App.Settings -> AuthStore.session st <> None) /\
    (e = App.Settings <->
       l = App.AtSettings /\ AuthStore.session st <> None /\
       AuthStore.isAdmin st = true) /\
    (AuthStore.session st <> None -> AuthStore.isAdmin st = false ->
     l = App.AtSettings -> e = App.Dashboard) /\
    (forall path,
        AuthStore.session st <> None -> In path (App.navItems st) ->
        forall to, App.render st (App.locate path) <> App.Navigate to).
Proof.
  intros st l e. subst e.
  split; [intros to; apply settle_no_redirect|].
  split; [apply settle_without_session|].
  split; [apply settle_private|].
  split; [apply settle_settings|].
  split; [apply settle_settings_denied|].
  intros path Hs Hin to. now apply navItems_render.
Qed.

(** Bob, signed in and not an admin, opens /settings: he gets the
    dashboard. *)
Lemma routes_settle_witness :
  App.settle 2
    (AuthStore.setSession (Sample.session_of "u2") AuthStore.initial)
    App.AtSettings
  = App.Dashboard.
Proof.
  apply (proj1 (proj2 (proj2 (proj2 (proj2
           (routes_settle
              (AuthStore.setSession (Sample.session_of "u2") AuthStore.initial)
              App.AtSettings)))))).
  - discriminate.
  - reflexivity.
  - reflexivity.
Defined.

(** ** The profile fetch *)

Section FetchProfileFacts.

Import Backend.

Lemma existsb_filter {A : Type} (f g : A -> bool) (l : list A) :
  existsb (fun x => f x && g x) l = existsb g (filter f l).
Proof.
  induction l as [|x l IH]; simpl; [reflexivity|].
  destruct (f x); simpl; now rewrite IH.
Qed.

(** A principal reads every profile row that carries its own id. *)
Lemma own_profile_rows w uid :
  auth_uid w = Some uid ->
  filter (fun p =>
            String.eqb (Policy.id p) uid
            && allowed w Policy.profiles Policy.SELECT (Policy.id p))
         (profiles (db w))
  = filter (fun p => String.eqb (Policy.id p) uid) (profiles (db w)).
Proof.
  intros Ha. apply filter_ext. intros p.
  destruct (String.eqb (Policy.id p) uid) eqn:E; [|reflexivity].
  apply String.eqb_eq in E. unfold allowed.
  rewrite Ha, permitted_profiles_select, E, String.eqb_refl. reflexivity.
Qed.

Lemma is_admin_of_single ps uid p :
  filter (fun p => String.eqb (Policy.id p) uid) ps = [p] ->
  Policy.is_admin ps uid = Role_eqb (Policy.role p) admin.
Proof.
  intros H. unfold Policy.is_admin.
  rewrite (existsb_filter (fun p => String.eqb (Policy.id p) uid)
                          (fun p => Role_eqb (Policy.role p) admin)).
  rewrite H. simpl. apply orb_false_r.
Qed.

End FetchProfileFacts.

(** X11.  When the signed-in user's profile is fetched, the client's
    [isAdmin] flag becomes what the store's [is_admin] says of that user:
    if exactly one profile carries the user's id, it is stored and the two
    agree (and the store's invariant holds); if none or several do, the
    fetch fails and the authentication store is left as it was. *)
Theorem fetched_profile_agrees_with_store :
  forall (st : AuthStore.AuthState) (w : Backend.World)
         (s : AuthStore.Session) (uid : string),
    AuthStore.session st = Some s ->
    AuthStore.user_id s = Some uid ->
    Backend.auth_uid w = Some uid ->
    let st' := snd (App.fetchProfile st w) in
    (forall p,
        filter (fun p => String.eqb (Policy.id p) uid)
               (Backend.profiles (Backend.db w)) = [p] ->
        AuthStore.profile st' = Some (App.profile_of p) /\
        AuthStore.isAdmin st'
          = Policy.is_admin (Backend.profiles (Backend.db w)) uid /\
        AuthStore.admin_consistent st') /\
    ((forall p,
         filter (fun p => String.eqb (Policy.id p) uid)
                (Backend.profiles (Backend.db w)) <> [p]) ->
     st' = st).
Proof.
  intros st w s uid Hs Hu Ha st'. subst st'.
  unfold App.fetchProfile, App.select_profile. rewrite Hs, Hu.
  rewrite (own_profile_rows w uid Ha).
  split.
  - intros p Hp. rewrite Hp. simpl.
    split; [reflexivity|]. split.
    + symmetry. now apply is_admin_of_single.
    + apply setProfile_consistent.
  - intros Hnone.
    destruct (filter _ _) as [|p [|q l]]; try reflexivity.
    now destruct (Hnone p).
Qed.

(** Ada signs in: her client shows the admin controls. *)
Lemma fetched_profile_agrees_with_store_witness :
  AuthStore.isAdmin
    (snd (App.fetchProfile
            (AuthStore.setSession (Sample.session_of "a1") AuthStore.initial)
            (Sample.world "a1" [])))
  = true.
Proof.
  destruct (fetched_profile_agrees_with_store
              (AuthStore.setSession (Sample.session_of "a1") AuthStore.initial)
              (Sample.world "a1" [])
              {| AuthStore.user_id := Some "a1" |} "a1"
              eq_refl eq_refl eq_refl)
    as (H & _).
  destruct (H Sample.ada eq_refl) as (_ & E & _).
  rewrite E. reflexivity.
Defined.

(** ** Profile edits *)

Section ProfileFacts.

Import Backend.

Lemma is_admin_none d u :
  Profiles.no_admin d -> Policy.is_admin (profiles d) u = false.
Proof.
  intros H. destruct (Policy.is_admin (profiles d) u) eqn:E; [|reflexivity].
  apply is_admin_spec in E as (p & Hin & _ & Hr).
  now destruct (H p Hin).
Qed.

Lemma update_profile_denied w edited :
  (forall u, auth_uid w = Some u -> Policy.is_admin (profiles (db w)) u = false) ->
  db (fst (Profiles.handleUpdateProfile edited w)) = db w.
Proof.
  intros H. unfold Profiles.handleUpdateProfile. simpl.
  rewrite map_unchanged; [now destruct (db w)|].
  intros p _. unfold Profiles.hit_profile, allowed.
  destruct (auth_uid w) as [u|] eqn:E.
  - rewrite permitted_profiles_update, (H u eq_refl), andb_false_r. reflexivity.
  - simpl. rewrite andb_false_r. reflexivity.
Qed.

End ProfileFacts.

(** X12.  Nothing keeps the last admin from giving the role away.  When the
    signed-in admin is the only profile with role admin and saves its own
    profile with role user, no stored profile is an admin any more; from
    then on no principal can change any profile: the role cannot be given
    back through the application. *)
Theorem last_admin_can_lock_everyone_out :
  forall (w : Backend.World) (caller : string) (edited : Policy.ProfileRow),
    Backend.auth_uid w = Some caller ->
    Policy.is_admin (Backend.profiles (Backend.db w)) caller = true ->
    (forall p, In p (Backend.profiles (Backend.db w)) ->
               Policy.role p = admin -> Policy.id p = caller) ->
    Policy.id edited = caller ->
    Policy.role edited = user ->
    let w' := fst (Profiles.handleUpdateProfile edited w) in
    Profiles.no_admin (Backend.db w') /\
    (forall who again,
        Backend.db (fst (Profiles.handleUpdateProfile again
                           (WorkOrderModal.signed_in_as who w')))
        = Backend.db w').
Proof.
  intros w caller edited Ha Hadm Honly Hid Hrole w'.
  assert (Hno : Profiles.no_admin (Backend.db w')).
  { subst w'. unfold Profiles.no_admin, Profiles.handleUpdateProfile. simpl.
    intros p Hin. apply in_map_iff in Hin as (q & <- & Hq).
    unfold Profiles.hit_profile, Backend.allowed.
    rewrite Ha, permitted_profiles_update, Hadm, andb_true_r, Hid.
    destruct (String.eqb (Policy.id q) caller) eqn:E.
    - simpl. rewrite Hrole. discriminate.
    - intros Hr. apply String.eqb_neq in E. apply E. now apply Honly. }
  split; [exact Hno|].
  intros who again.
  transitivity (Backend.db (WorkOrderModal.signed_in_as who w'));
    [|reflexivity].
  apply update_profile_denied.
  intros u _. now apply is_admin_none.
Qed.

(** Ada, the only admin, makes herself a user; she cannot make Bob (or
    herself) an admin afterwards. *)
Lemma last_admin_can_lock_everyone_out_witness :
  let demoted :=
    {| Policy.id := "a1"; Policy.role := user; Policy.full_name := "Ada";
       Policy.badge_number := Some "100"; Policy.email := "ada@pd.example" |} in
  let promoted :=
    {| Policy.id := "u2"; Policy.role := admin; Policy.full_name := "Bob";
       Policy.badge_number := None; Policy.email := "bob@pd.example" |} in
  let w' := fst (Profiles.handleUpdateProfile demoted (Sample.world "a1" [])) in
  Backend.db (fst (Profiles.handleUpdateProfile promoted
                     (WorkOrderModal.signed_in_as (Some "a1") w')))
  = Backend.db w'.
Proof.
  intros demoted promoted w'.
  apply (last_admin_can_lock_everyone_out (Sample.world "a1" []) "a1" demoted);
    try reflexivity.
  intros p [<-|[<-|[]]] H; [reflexivity | discriminate H].
Defined.

(** ** The dashboard's statistics *)

Section BreakdownFacts.

Import Dashboard.

Variable K : Type.
Variable K_eqb : K -> K -> bool.
Hypothesis K_eqb_eq : forall a b, K_eqb a b = true <-> a = b.

Lemma K_eqb_refl a : K_eqb a a = true.
Proof. now apply K_eqb_eq. Qed.

Lemma entry_bump k k' acc :
  entry K_eqb k (bump K_eqb k' acc)
  = entry K_eqb k acc + (if K_eqb k' k then 1 else 0).
Proof.
  induction acc as [|[k0 n] acc IH]; simpl.
  - destruct (K_eqb k' k); reflexivity.
  - destruct (K_eqb k0 k') eqn:E0; simpl.
    + apply K_eqb_eq in E0. subst k0.
      destruct (K_eqb k' k); lia.
    + destruct (K_eqb k0 k) eqn:E1; [|exact IH].
      apply K_eqb_eq in E1. subst k0.
      destruct (K_eqb k' k) eqn:E2; [|lia].
      apply K_eqb_eq in E2. subst k'. rewrite K_eqb_refl in E0. discriminate E0.
Qed.

Lemma keys_bump k acc :
  NoDup (map fst acc) ->
  NoDup (map fst (bump K_eqb k acc)) /\
  (forall x, In x (map fst (bump K_eqb k acc)) <-> x = k \/ In x (map fst acc)).
Proof.
  induction acc as [|[k0 n] acc IH]; simpl; intros Hnd.
  - split; [constructor; [intros [] | constructor]|].
    intros x. split; [intros [<-|[]]; auto | intros [->|[]]; auto].
  - apply NoDup_cons_iff in Hnd as [Hk0 Hnd].
    destruct (K_eqb k0 k) eqn:E; simpl.
    + apply K_eqb_eq in E. subst k0. split.
      * now constructor.
      * intros x. split; [intros [<-|H]; auto | intros [->|[<-|H]]; auto].
    + destruct (IH Hnd) as [IH1 IH2]. split.
      * constructor; [|exact IH1].
        intros Hin. apply IH2 in Hin as [->|Hin]; [|contradiction].
        rewrite K_eqb_refl in E. discriminate E.
      * intros x. rewrite IH2. tauto.
Qed.

Lemma sum_bump k acc :
  list_sum (map snd (bump K_eqb k acc)) = S (list_sum (map snd acc)).
Proof.
  induction acc as [|[k0 n] acc IH]; simpl; [reflexivity|].
  destruct (K_eqb k0 k); simpl; rewrite ?IH; lia.
Qed.

Lemma positive_bump k acc :
  Forall (fun e => 1 <= snd e) acc ->
  Forall (fun e => 1 <= snd e) (bump K_eqb k acc).
Proof.
  induction 1 as [|[k0 n] acc Hn Hacc IH]; simpl.
  - repeat constructor.
  - destruct (K_eqb k0 k); constructor; simpl in *; auto; lia.
Qed.

(** The invariant of the [reduce]. *)
Lemma fold_bump keys : forall acc,
  NoDup (map fst acc) ->
  Forall (fun e => 1 <= snd e) acc ->
  let out := fold_left (fun a k => bump K_eqb k a) keys acc in
  NoDup (map fst out) /\
  Forall (fun e => 1 <= snd e) out /\
  list_sum (map snd out) = list_sum (map snd acc) + length keys /\
  (forall k, entry K_eqb k out = entry K_eqb k acc + tally K_eqb k keys) /\
  (forall k, In k (map fst out) <-> In k (map fst acc) \/ In k keys).
Proof.
  induction keys as [|k0 keys IH]; simpl; intros acc Hnd Hpos.
  - repeat split; auto; try lia; tauto.
  - destruct (keys_bump k0 acc Hnd) as [Hnd' Hkeys'].
    destruct (IH (bump K_eqb k0 acc) Hnd' (positive_bump k0 acc Hpos))
      as (H1 & H2 & H3 & H4 & H5).
    repeat split; auto.
    + rewrite H3, sum_bump. lia.
    + intros k. rewrite H4, entry_bump. unfold tally. simpl.
      destruct (K_eqb k0 k); simpl; lia.
    + rewrite H5, Hkeys'. intros [[->|H]|H]; auto.
    + rewrite H5, Hkeys'. intros [H|[<-|H]]; auto.
Qed.

Lemma breakdown_spec keys :
  NoDup (map fst (breakdown K_eqb keys)) /\
  Forall (fun e => 1 <= snd e) (breakdown K_eqb keys) /\
  list_sum (map snd (breakdown K_eqb keys)) = length keys /\
  (forall k, entry K_eqb k (breakdown K_eqb keys) = tally K_eqb k keys) /\
  (forall k, In k (map fst (breakdown K_eqb keys)) <-> In k keys).
Proof.
  destruct (fold_bump keys [] (NoDup_nil _) (Forall_nil _))
    as (H1 & H2 & H3 & H4 & H5).
  unfold breakdown. repeat split; auto.
  - intros H. apply H5 in H as [[]|H]. exact H.
  - intros H. apply H5. now right.
Qed.

End BreakdownFacts.

Section DashboardFacts.

Import Dashboard.

Lemma length_filter_map {A B : Type} (g : A -> B) (f : B -> bool) (l : list A) :
  length (filter f (map g l)) = length (filter (fun a => f (g a)) l).
Proof.
  induction l as [|a l IH]; simpl; [reflexivity|].
  destruct (f (g a)); simpl; now rewrite IH.
Qed.

Lemma vehicles_by_status (l : list VehicleStatus) :
  length (filter (fun _ => true) l)
  = length (filter (fun v => VehicleStatus_eqb v available) l)
    + length (filter (fun v => VehicleStatus_eqb v out_of_service) l)
    + length (filter (fun v => VehicleStatus_eqb v assigned) l).
Proof.
  induction l as [|v l IH]; simpl; [reflexivity|].
  destruct v; simpl; lia.
Qed.

Lemma pending_and_completed (l : list WorkOrder.t) :
  length (filter (fun o => WorkOrderStatus_eqb (WorkOrder.status o) pending) l)
  + length (filter (fun o => WorkOrderStatus_eqb (WorkOrder.status o) completed) l)
  <= length l.
Proof.
  induction l as [|o l IH]; simpl; [lia|].
  destruct (WorkOrder.status o); simpl; lia.
Qed.

End DashboardFacts.

(** X13.  The dashboard's breakdowns account for every work order once: the
    counts of the status breakdown add up to the total; a status is listed
    once, with a count of at least one, exactly when some order has it; and
    the Pending and Completed figures of the cards are the breakdown's
    entries for those keys (0 when the key is not listed).  When every
    order has one of the priorities the creation form offers, the counts of
    the priority breakdown add up to the total as well, and the Urgent
    figure is its entry for urgent. *)
Theorem dashboard_breakdowns_add_up :
  forall (vehicleStats : option (list VehicleStatus))
         (orders : list WorkOrder.t) (s : Dashboard.Stats),
    Dashboard.calculate vehicleStats (Some orders) = Some s ->
    list_sum (map snd (Dashboard.statusBreakdown s)) = Dashboard.totalWorkOrders s /\
    NoDup (map fst (Dashboard.statusBreakdown s)) /\
    Forall (fun e => 1 <= snd e) (Dashboard.statusBreakdown s) /\
    (forall k, In k (map fst (Dashboard.statusBreakdown s)) <->
               exists o, In o orders /\ WorkOrder.status o = k) /\
    Dashboard.pendingWorkOrders s
      = Dashboard.entry WorkOrderStatus_eqb pending (Dashboard.statusBreakdown s) /\
    Dashboard.completedWorkOrders s
      = Dashboard.entry WorkOrderStatus_eqb completed
                        (Dashboard.statusBreakdown s) /\
    (Forall (fun o => In (WorkOrder.priority o) WorkOrderModal.priorities) orders ->
     list_sum (map snd (Dashboard.priorityBreakdown s))
       = Dashboard.totalWorkOrders s /\
     Dashboard.urgentWorkOrders s
       = Dashboard.entry String.eqb "urgent" (Dashboard.priorityBreakdown s)).
Proof.
  intros vs orders s [= <-]. simpl.
  destruct (breakdown_spec WorkOrderStatus WorkOrderStatus_eqb
              WorkOrderStatus_eqb_eq (map WorkOrder.status orders))
    as (S1 & S2 & S3 & S4 & S5).
  destruct (breakdown_spec string String.eqb String.eqb_eq
              (map WorkOrder.priority orders))
    as (P1 & P2 & P3 & P4 & P5).
  rewrite S3, P3, !S4, P4, !length_map.
  unfold Dashboard.tally. rewrite !length_filter_map.
  repeat split; auto.
  - intros H. apply S5 in H. apply in_map_iff in H as (o & E & Hin). eauto.
  - intros (o & Hin & E). apply S5. apply in_map_iff. eauto.
Qed.

(** Two pending orders and a completed one, all of high priority. *)
Lemma dashboard_breakdowns_add_up_witness :
  exists s,
    Dashboard.calculate None
      (Some [Sample.order_with pending; Sample.order_with completed;
             Sample.order_with pending]) = Some s /\
    Dashboard.statusBreakdown s = [(pending, 2); (completed, 1)] /\
    Dashboard.priorityBreakdown s = [("high", 3)] /\
    list_sum (map snd (Dashboard.statusBreakdown s)) = Dashboard.totalWorkOrders s /\
    list_sum (map snd (Dashboard.priorityBreakdown s))
      = Dashboard.totalWorkOrders s.
Proof.
  eexists. split; [reflexivity|]. split; [reflexivity|]. split; [reflexivity|].
  destruct (dashboard_breakdowns_add_up None
              [Sample.order_with pending; Sample.order_with completed;
               Sample.order_with pending] _ eq_refl)
    as (H1 & _ & _ & _ & _ & _ & H2).
  split; [exact H1|].
  apply H2.
  repeat (apply Forall_cons; [right; right; left; reflexivity|]).
  apply Forall_nil.
Defined.

(** X14.  The dashboard's cards: every vehicle is counted as available, out
    of service or assigned, so the total exceeds the two figures shown by
    the number of assigned vehicles; Pending and Completed together never
    exceed the number of work orders; the recent list is the first five
    orders of the answer, or all of them when there are fewer.  When the
    work-order answer carries no rows at all, no statistics are set. *)
Theorem dashboard_cards :
  forall (vehicleStats : option (list VehicleStatus))
         (workOrders : option (list WorkOrder.t)),
    (workOrders = None -> Dashboard.calculate vehicleStats workOrders = None) /\
    (forall s,
        Dashboard.calculate vehicleStats workOrders = Some s ->
        Dashboard.totalVehicles s
          = Dashboard.availableVehicles s + Dashboard.outOfServiceVehicles s
            + Dashboard.count_or_zero (fun v => VehicleStatus_eqb v assigned)
                                      vehicleStats /\
        Dashboard.pendingWorkOrders s + Dashboard.completedWorkOrders s
          <= Dashboard.totalWorkOrders s /\
        length (Dashboard.recentWorkOrders s)
          = Nat.min 5 (Dashboard.totalWorkOrders s) /\
        exists rest, workOrders = Some (Dashboard.recentWorkOrders s ++ rest)%list).
Proof.
  intros vs wos. split; [intros ->; reflexivity|].
  intros s H. destruct wos as [orders|]; [|discriminate H].
  injection H as <-.
  split; [|split; [|split]].
  - destruct vs as [l|]; [exact (vehicles_by_status l) | reflexivity].
  - exact (pending_and_completed orders).
  - exact (length_firstn 5 orders).
  - exists (skipn 5 orders).
    exact (f_equal Some (eq_sym (firstn_skipn 5 orders))).
Qed.

(** A fleet of three, one of them assigned. *)
Lemma dashboard_cards_witness :
  exists s,
    Dashboard.calculate (Some [available; assigned; out_of_service]) (Some [])
    = Some s /\
    Dashboard.totalVehicles s = 3 /\
    Dashboard.availableVehicles s + Dashboard.outOfServiceVehicles s = 2.
Proof.
  eexists. split; [reflexivity|].
  destruct (proj2 (dashboard_cards (Some [available; assigned; out_of_service])
                     (Some [])) _ eq_refl) as (H & _).
  split; [reflexivity|]. simpl in H. simpl. reflexivity.
Defined.

(** ** Work-order settings *)

Lemma first_save new_id t p :
  WorkOrderSettings.id (WorkOrderSettings.workOrderSettings p) = None ->
  WorkOrderSettings.handleSaveWorkOrderSettings new_id t p
  = ((t ++ [WorkOrderSettings.with_id new_id
              (WorkOrderSettings.workOrderSettings p)])%list,
     {| WorkOrderSettings.workOrderSettings :=
          WorkOrderSettings.with_id new_id (WorkOrderSettings.workOrderSettings p);
        WorkOrderSettings.error := None |}).
Proof.
  intros H. unfold WorkOrderSettings.handleSaveWorkOrderSettings.
  now rewrite H.
Qed.

(** X15.  A page that saved the settings once knows the row's id and updates
    it from then on: saving, changing the values and saving again leaves
    the one new row in the table, holding the latest values, with no error.
    A page that does not hold an id inserts, whatever the table already
    holds: each such save adds a row. *)
Theorem settings_saved_again_update_the_row :
  forall (new_id other_id : string) (t : WorkOrderSettings.Table)
         (p : WorkOrderSettings.Page) (v : WorkOrderSettings.Settings),
    WorkOrderSettings.id (WorkOrderSettings.workOrderSettings p) = None ->
    (forall row, In row t -> WorkOrderSettings.has_id new_id row = false) ->
    let r1 := WorkOrderSettings.handleSaveWorkOrderSettings new_id t p in
    let r2 := WorkOrderSettings.handleSaveWorkOrderSettings other_id (fst r1)
                (WorkOrderSettings.set_values v (snd r1)) in
    WorkOrderSettings.id (WorkOrderSettings.workOrderSettings (snd r1))
      = Some new_id /\
    fst r2 = (t ++ [WorkOrderSettings.with_id new_id v])%list /\
    WorkOrderSettings.error (snd r2) = None /\
    (forall q,
        WorkOrderSettings.id (WorkOrderSettings.workOrderSettings q) = None ->
        length (fst (WorkOrderSettings.handleSaveWorkOrderSettings
                       other_id (fst r1) q))
        = S (length (fst r1))).
Proof.
  intros new_id other_id t p v Hid Hfresh r1 r2. subst r1 r2.
  rewrite (first_save new_id t p Hid). cbn [fst snd].
  split; [reflexivity|].
  split; [|split; [reflexivity|]].
  - unfold WorkOrderSettings.handleSaveWorkOrderSettings. simpl.
    rewrite map_app. simpl. unfold WorkOrderSettings.has_id at 2. simpl.
    rewrite String.eqb_refl. f_equal.
    apply map_unchanged. intros row Hin. now rewrite (Hfresh row Hin).
  - intros q Hq. rewrite (first_save other_id _ q Hq). cbn [fst].
    rewrite !length_app. simpl. lia.
Qed.

(** The first save on an empty table, then priority high. *)
Lemma settings_saved_again_update_the_row_witness :
  let high :=
    {| WorkOrderSettings.id := None;
       WorkOrderSettings.default_priority := "high";
       WorkOrderSettings.require_mileage := false;
       WorkOrderSettings.require_location := true;
       WorkOrderSettings.auto_assign_numbers := true;
       WorkOrderSettings.notification_enabled := false |} in
  let r1 := WorkOrderSettings.handleSaveWorkOrderSettings "s1" []
              WorkOrderSettings.initial in
  fst (WorkOrderSettings.handleSaveWorkOrderSettings "s2" (fst r1)
         (WorkOrderSettings.set_values high (snd r1)))
  = [WorkOrderSettings.with_id "s1" high].
Proof.
  intros high r1.
  apply (settings_saved_again_update_the_row "s1" "s2" []
           WorkOrderSettings.initial high eq_refl).
  intros row [].
Defined.

(** X16.  Saving and fetching round-trip on a table that was empty: a page
    that opens afterwards shows the values saved, now with the row's id
    instead of the built-in defaults.  On an empty table the fetch changes
    nothing and reports no error: a missing row is not a failure. *)
Theorem settings_round_trip :
  forall (new_id : string) (p : WorkOrderSettings.Page),
    WorkOrderSettings.id (WorkOrderSettings.workOrderSettings p) = None ->
    WorkOrderSettings.fetchWorkOrderSettings
      (fst (WorkOrderSettings.handleSaveWorkOrderSettings new_id [] p))
      WorkOrderSettings.initial
    = {| WorkOrderSettings.workOrderSettings :=
           WorkOrderSettings.with_id new_id (WorkOrderSettings.workOrderSettings p);
         WorkOrderSettings.error := None |} /\
    (forall q, WorkOrderSettings.fetchWorkOrderSettings [] q = q).
Proof.
  intros new_id p Hid.
  rewrite (first_save new_id [] p Hid).
  split; reflexivity.
Qed.

(** The defaults saved on an empty table come back with the id. *)
Lemma settings_round_trip_witness :
  WorkOrderSettings.workOrderSettings
    (WorkOrderSettings.fetchWorkOrderSettings
       (fst (WorkOrderSettings.handleSaveWorkOrderSettings "s1" []
               WorkOrderSettings.initial))
       WorkOrderSettings.initial)
  = WorkOrderSettings.with_id "s1" WorkOrderSettings.defaults.
Proof.
  rewrite (proj1 (settings_round_trip "s1" WorkOrderSettings.initial eq_refl)).
  reflexivity.
Defined.

(** ** The backup script *)

Section BackupNameFacts.

Import Backup.

Lemma has_char_app c a b :
  has_char c (a ++ b) = has_char c a || has_char c b.
Proof.
  induction a as [|x a IH]; simpl; [reflexivity|].
  now rewrite IH, orb_assoc.
Qed.

Lemma dashes_length s : String.length (dashes s) = String.length s.
Proof. induction s as [|c s IH]; simpl; congruence. Qed.

Lemma dashes_no_colon s : has_char ":"%char (dashes s) = false.
Proof.
  induction s as [|c s IH]; simpl; [reflexivity|]. rewrite IH, orb_false_r.
  destruct (Ascii.eqb c ":"%char) eqn:E1; [reflexivity|].
  destruct (Ascii.eqb c "."%char) eqn:E2; [reflexivity|]. exact E1.
Qed.

Lemma dashes_no_dot s : has_char "."%char (dashes s) = false.
Proof.
  induction s as [|c s IH]; simpl; [reflexivity|]. rewrite IH, orb_false_r.
  destruct (Ascii.eqb c ":"%char) eqn:E1; [reflexivity|].
  destruct (Ascii.eqb c "."%char) eqn:E2; [reflexivity|]. exact E2.
Qed.

Lemma dashes_slash s : has_char "/"%char (dashes s) = has_char "/"%char s.
Proof.
  induction s as [|c s IH]; simpl; [reflexivity|]. rewrite IH. f_equal.
  destruct (Ascii.eqb c ":"%char) eqn:E1.
  - apply Ascii.eqb_eq in E1. subst c. reflexivity.
  - destruct (Ascii.eqb c "."%char) eqn:E2; [|reflexivity].
    apply Ascii.eqb_eq in E2. subst c. reflexivity.
Qed.

Lemma last_segment_whole s :
  has_char "/"%char s = false -> last_segment s = s.
Proof.
  destruct s as [|c s]; simpl; [reflexivity|]. now intros ->.
Qed.

Lemma last_segment_no_slash s : has_char "/"%char (last_segment s) = false.
Proof.
  induction s as [|c s IH]; [reflexivity|].
  simpl last_segment.
  destruct (Ascii.eqb c "/"%char || has_char "/"%char s) eqn:E; [exact IH|].
  exact E.
Qed.

Lemma last_segment_suffix s :
  exists prefix,
    s = prefix ++ last_segment s /\
    (prefix = "" \/ exists q, prefix = q ++ "/").
Proof.
  induction s as [|c s (prefix & E & Hp)]; [exists ""; auto|].
  simpl last_segment.
  destruct (Ascii.eqb c "/"%char || has_char "/"%char s) eqn:Hs.
  - exists (String c prefix). split; [simpl; now rewrite <- E|].
    right. destruct Hp as [->|(q & ->)].
    + exists "". simpl. f_equal.
      simpl in E. rewrite E, last_segment_no_slash, orb_false_r in Hs.
      now apply Ascii.eqb_eq in Hs.
    + exists (String c q). reflexivity.
  - exists "". auto.
Qed.

End BackupNameFacts.

(** X17.  The names the backup uses are safe file names: the directory name
    is [db_backup_] followed by the timestamp with every colon and dot
    replaced by a dash (same length, no colon, no dot), so the only dot of
    the archive's name is the one of [.zip]; and as the timestamp has no
    slash, the name the archive is uploaded under is the archive's own
    name. *)
Theorem backup_names :
  forall now : string,
    String.length (Backup.dashes now) = String.length now /\
    Backup.has_char ":"%char (Backup.backupDir now) = false /\
    Backup.has_char "."%char (Backup.backupDir now) = false /\
    (Backup.has_char "/"%char now = false ->
     Backup.last_segment (Backup.zipFile now) = Backup.zipFile now).
Proof.
  intros now. unfold Backup.zipFile, Backup.backupDir.
  split; [apply dashes_length|].
  split; [now rewrite has_char_app, dashes_no_colon|].
  split; [now rewrite has_char_app, dashes_no_dot|].
  intros H. apply last_segment_whole.
  now rewrite !has_char_app, dashes_slash, H.
Qed.

(** A backup started on 2 January 2025 at noon. *)
Lemma backup_names_witness :
  Backup.last_segment (Backup.zipFile Sample.noon)
  = "db_backup_2025-01-02T12-00-00-000Z.zip".
Proof.
  rewrite (proj2 (proj2 (proj2 (backup_names Sample.noon))) eq_refl).
  reflexivity.
Defined.

(** X18.  The name taken from a path for the upload is the part after the
    last slash: it has no slash, and the path is that name preceded by
    nothing or by a prefix ending in a slash.  A path without a slash is
    its own name; a path ending in a slash gives the empty name. *)
Theorem upload_name_is_last_segment :
  forall path : string,
    Backup.has_char "/"%char (Backup.last_segment path) = false /\
    (exists prefix,
        path = prefix ++ Backup.last_segment path /\
        (prefix = "" \/ exists q, prefix = q ++ "/")) /\
    (Backup.has_char "/"%char path = false -> Backup.last_segment path = path) /\
    Backup.last_segment (path ++ "/") = "".
Proof.
  intros path.
  split; [apply last_segment_no_slash|].
  split; [apply last_segment_suffix|].
  split; [apply last_segment_whole|].
  induction path as [|c path IH]; [reflexivity|].
  simpl. rewrite IH, has_char_app. simpl.
  now rewrite !orb_true_r.
Qed.

(** The archive inside a folder. *)
Lemma upload_name_is_last_segment_witness :
  Backup.last_segment "backups/2025/fleet.zip" = "fleet.zip" /\
  Backup.last_segment "fleet.zip" = "fleet.zip".
Proof.
  split; [reflexivity|].
  apply (proj1 (proj2 (proj2 (upload_name_is_last_segment "fleet.zip")))).
  reflexivity.
Defined.

Section BackupRunFacts.

Import Backup.

Variable Row : Type.
Variable parse : list Row -> string.
Variable SITE LIB FOLDER : string.

Lemma backup_table_writes dir fetch table :
  filter is_write (backup_table parse dir fetch table)
  = backup_table parse dir fetch table /\
  filter is_upload (backup_table parse dir fetch table) = [] /\
  length (backup_table parse dir fetch table) <= 1.
Proof.
  unfold backup_table. destruct (fetch table) as [[|r rows]|e]; simpl; auto.
Qed.

Lemma loop_writes dir fetch tables :
  filter is_write (flat_map (backup_table parse dir fetch) tables)
  = flat_map (backup_table parse dir fetch) tables /\
  filter is_upload (flat_map (backup_table parse dir fetch) tables) = [] /\
  length (flat_map (backup_table parse dir fetch) tables) <= length tables.
Proof.
  induction tables as [|t tables (IH1 & IH2 & IH3)]; simpl; [auto|].
  destruct (backup_table_writes dir fetch t) as (H1 & H2 & H3).
  rewrite !filter_app, H1, H2, IH1, IH2, length_app. repeat split; auto. lia.
Qed.

Lemma loop_nothing dir fetch tables :
  (forall t, In t tables ->
             match fetch t with
             | Rows (_ :: _) => False
             | _ => True
             end) ->
  flat_map (backup_table parse dir fetch) tables = [].
Proof.
  induction tables as [|t tables IH]; simpl; intros H; [reflexivity|].
  rewrite IH by (intros t' Ht'; apply H; now right).
  specialize (H t (or_introl eq_refl)).
  unfold backup_table.
  destruct (fetch t) as [[|r rows]|e]; simpl; try reflexivity; contradiction.
Qed.

End BackupRunFacts.

(** X19.  A backup run: with no tables (or when the table list cannot be
    read) nothing is created and nothing uploaded.  Otherwise the directory
    is made first, one CSV file is written for each table whose rows could
    be read and are not none, in table order, and exactly one archive is
    uploaded at the end; tables that fail or are empty are skipped, so when
    all of them are, an archive without any table in it is still
    uploaded. *)
Theorem backup_run :
  forall (Row : Type) (parse : list Row -> string) (SITE LIB FOLDER : string)
         (answer : Backup.Reply (list string))
         (fetch : string -> Backup.Reply (list Row)) (now token : string),
    let tables := Backup.getAllTables answer in
    let acts := Backup.backupAllTables parse SITE LIB FOLDER answer fetch now token in
    (tables = [] -> acts = []) /\
    (tables <> [] ->
     hd_error acts = Some (Backup.Mkdir (Backup.backupDir now)) /\
     filter Backup.is_write acts
       = flat_map (Backup.backup_table parse (Backup.backupDir now) fetch) tables /\
     length (filter Backup.is_write acts) <= length tables /\
     filter Backup.is_upload acts
       = Backup.uploadToSharePoint SITE LIB FOLDER (Backup.zipFile now) token /\
     ((forall t, In t tables ->
                 match fetch t with
                 | Backup.Rows (_ :: _) => False
                 | _ => True
                 end) ->
      acts = [Backup.Mkdir (Backup.backupDir now);
              Backup.Zip (Backup.backupDir now) (Backup.zipFile now);
              Backup.GetAccessToken]
             ++ Backup.uploadToSharePoint SITE LIB FOLDER (Backup.zipFile now) token))%list.
Proof.
  intros Row parse SITE LIB FOLDER answer fetch now token tables acts.
  subst acts. unfold Backup.backupAllTables. fold tables.
  destruct tables as [|t0 ts] eqn:Et.
  - split; [reflexivity | congruence].
  - split; [discriminate|]. intros _.
    destruct (loop_writes Row parse (Backup.backupDir now) fetch (t0 :: ts))
      as (H1 & H2 & H3).
    split; [reflexivity|].
    assert (Hw : filter Backup.is_write
                   ([Backup.Mkdir (Backup.backupDir now)] ++
                    flat_map (Backup.backup_table parse (Backup.backupDir now) fetch)
                             (t0 :: ts) ++
                    [Backup.Zip (Backup.backupDir now) (Backup.zipFile now);
                     Backup.GetAccessToken] ++
                    Backup.uploadToSharePoint SITE LIB FOLDER (Backup.zipFile now) token)%list
                 = flat_map (Backup.backup_table parse (Backup.backupDir now) fetch)
                            (t0 :: ts)).
    { rewrite !filter_app, H1. simpl. now rewrite app_nil_r. }
    split; [exact Hw|].
    split; [rewrite Hw; exact H3|].
    split.
    + rewrite !filter_app, H2. reflexivity.
    + intros Hnone.
      rewrite (loop_nothing Row parse (Backup.backupDir now) fetch (t0 :: ts) Hnone).
      reflexivity.
Qed.

(** Two tables, of which one is empty: one CSV file. *)
Lemma backup_run_witness :
  let fetch := fun table : string =>
    if String.eqb table "vehicles" then Backup.Rows ["7,Ford"]
    else Backup.Rows [] in
  length (filter Backup.is_write
            (Backup.backupAllTables (String.concat ";") "site" "Documents"
               "FleetBackups" (Backup.Rows ["vehicles"; "profiles"]) fetch
               Sample.noon "token"))
  <= 2.
Proof.
  intros fetch.
  destruct (backup_run string (String.concat ";") "site" "Documents"
              "FleetBackups" (Backup.Rows ["vehicles"; "profiles"]) fetch
              Sample.noon "token") as (_ & H).
  destruct (H ltac:(discriminate)) as (_ & _ & Hle & _).
  exact Hle.
Defined.

(** ** Across components *)

(** X20.  Signing out ends the visit: once the sign-out has completed, every
    known path of the application ends on the login page and the side bar
    offers no settings link.  When only the session is dropped, the admin
    flag stays as it was but the private pages are out of reach all the
    same. *)
Theorem sign_out_leads_to_login :
  forall (st : AuthStore.AuthState) (l : App.Location),
    l <> App.Elsewhere ->
    App.settle 2 (AuthStore.signOut AuthStore.Resolved st) l = App.Login /\
    ~ In "/settings" (App.navItems (AuthStore.signOut AuthStore.Resolved st)) /\
    App.settle 2 (AuthStore.setSession None st) l = App.Login /\
    AuthStore.isAdmin (AuthStore.setSession None st) = AuthStore.isAdmin st.
Proof.
  intros st l Hl.
  split; [now apply settle_without_session|].
  split.
  - simpl. intros [H|[H|[H|[]]]]; discriminate H.
  - split; [now apply settle_without_session | reflexivity].
Qed.

(** Ada signs out and opens /settings again. *)
Lemma sign_out_leads_to_login_witness :
  App.settle 2
    (AuthStore.signOut AuthStore.Resolved
       (AuthStore.setProfile
          (Some (App.profile_of Sample.ada))
          (AuthStore.setSession (Sample.session_of "a1") AuthStore.initial)))
    App.AtSettings
  = App.Login.
Proof.
  apply sign_out_leads_to_login. discriminate.
Defined.

Section FetchFacts.

Import WorkOrders.

Lemma insert_newest_perm o l : Permutation (insert_newest o l) (o :: l).
Proof.
  induction l as [|p r IH]; simpl; [reflexivity|].
  destruct (String.leb (WorkOrder.created_at p) (WorkOrder.created_at o));
    [reflexivity|].
  rewrite IH. apply perm_swap.
Qed.

Lemma newest_first_perm l : Permutation (newest_first l) l.
Proof.
  induction l as [|o l IH]; simpl; [reflexivity|].
  rewrite insert_newest_perm. now constructor.
Qed.

Lemma insert_newest_HdRel p o r :
  not_older p o -> HdRel not_older p r -> HdRel not_older p (insert_newest o r).
Proof.
  intros Hpo Hpr. destruct r as [|q r]; simpl; [now constructor|].
  destruct (String.leb (WorkOrder.created_at q) (WorkOrder.created_at o));
    constructor; [exact Hpo | now inversion Hpr].
Qed.

Lemma insert_newest_sorted o l :
  Sorted not_older l -> Sorted not_older (insert_newest o l).
Proof.
  induction 1 as [|p r Hs IH Hhd]; simpl; [repeat constructor|].
  destruct (String.leb (WorkOrder.created_at p) (WorkOrder.created_at o)) eqn:E.
  - constructor; [now constructor | now constructor].
  - constructor; [exact IH|].
    apply insert_newest_HdRel; [|exact Hhd].
    unfold not_older.
    destruct (String.leb_total (WorkOrder.created_at p) (WorkOrder.created_at o))
      as [H|H]; [congruence | exact H].
Qed.

Lemma newest_first_sorted l : Sorted not_older (newest_first l).
Proof.
  induction l as [|o l IH]; simpl; [constructor|].
  now apply insert_newest_sorted.
Qed.

End FetchFacts.

(** X21.  After a status update or a completion by a signed-in user, the
    list the work-order page shows holds the work orders as they are stored
    after the write, every one of them once, the newest first. *)
Theorem page_list_is_fresh :
  forall (w : Backend.World) (u : string),
    Backend.auth_uid w = Some u ->
    (forall now n o notes,
        exists shown,
          snd (WorkOrders.handleUpdateStatus now n o notes w)
          = Backend.Data shown /\
          Permutation shown
            (Backend.work_orders
               (Backend.db (fst (WorkOrders.handleUpdateStatus now n o notes w))))
          /\ Sorted WorkOrders.not_older shown) /\
    (forall now session o,
        exists shown,
          snd (WorkOrders.handleCompleteWorkOrder now session o w)
          = Backend.Data shown /\
          Permutation shown
            (Backend.work_orders
               (Backend.db (fst (WorkOrders.handleCompleteWorkOrder
                                   now session o w))))
          /\ Sorted WorkOrders.not_older shown).
Proof.
  intros w u Ha. split.
  - intros now n o notes.
    unfold WorkOrders.handleUpdateStatus, Backend.bind.
    destruct (WorkOrders.is_completed n); cbn [fst snd Backend.getUser Backend.ret
      Backend.update_work_order WorkOrders.fetchWorkOrders];
      (eexists; split; [reflexivity|]);
      rewrite (visible_work_orders_all _ u) by exact Ha;
      (split; [apply newest_first_perm | apply newest_first_sorted]).
  - intros now session o.
    unfold WorkOrders.handleCompleteWorkOrder, Backend.bind.
    cbn [fst snd Backend.update_work_order Backend.update_vehicle
         WorkOrders.fetchWorkOrders].
    eexists. split; [reflexivity|].
    rewrite (visible_work_orders_all _ u) by exact Ha.
    split; [apply newest_first_perm | apply newest_first_sorted].
Qed.

(** The table holds the flat tyre of December and the brake issue of
    January; Ada completes the brake work order and sees it first in the
    list, completed. *)
Lemma page_list_is_fresh_witness :
  exists shown,
    snd (WorkOrders.handleCompleteWorkOrder Sample.noon (Sample.session_of "a1")
           (Sample.order_with pending)
           (Sample.world "a1" [Sample.fifth_order; Sample.order_with pending]))
    = Backend.Data shown /\
    map WorkOrder.id shown = ["w1"; "w5"] /\
    map WorkOrder.status shown = [completed; pending] /\
    Sorted WorkOrders.not_older shown.
Proof.
  destruct (proj2 (page_list_is_fresh
                     (Sample.world "a1" [Sample.fifth_order;
                                         Sample.order_with pending])
                     "a1" eq_refl)
              Sample.noon (Sample.session_of "a1") (Sample.order_with pending))
    as (shown & E & _ & Hs).
  exists shown. split; [exact E|].
  vm_compute in E. injection E as <-.
  split; [reflexivity|]. split; [reflexivity | exact Hs].
Defined.

(** X22.  A vehicle save by someone who is not an admin fails silently: when
    the status is left as it was, the form reports success (no error, the
    list refreshed) although no table of the store has changed. *)
Theorem non_admin_vehicle_save_is_silent :
  forall (new_id : string) (v : Vehicle.t) (f : VehicleModal.FormData)
         (w : Backend.World),
    (forall u, Backend.auth_uid w = Some u ->
               Policy.is_admin (Backend.profiles (Backend.db w)) u = false) ->
    VehicleModal.status f = Vehicle.status v ->
    let r := VehicleModal.handleSubmit new_id (Some v) f w in
    Backend.db (fst r) = Backend.db w /\
    VehicleModal.error (snd r) = None /\
    VehicleModal.refreshed (snd r) = true.
Proof.
  intros new_id v f w Hna Hs r. subst r.
  unfold VehicleModal.handleSubmit, VehicleModal.save, Backend.bind.
  cbn [Backend.update_vehicle]. rewrite Hs, VehicleStatus_eqb_refl.
  cbn [negb Backend.ret fst snd VehicleModal.error VehicleModal.refreshed].
  split; [|split; reflexivity].
  cbn [Backend.db Backend.with_db].
  rewrite (non_admin_update_rows w Hna). apply set_vehicles_same.
Qed.

(** Bob changes the notes of unit 7 and presses Update. *)
Lemma non_admin_vehicle_save_is_silent_witness :
  let f := {| VehicleModal.unit_number := "7"; VehicleModal.make := "Ford";
              VehicleModal.model := "Explorer"; VehicleModal.year := 2020%Z;
              VehicleModal.status := out_of_service;
              VehicleModal.assigned_to := "";
              VehicleModal.current_location := "Shop B";
              VehicleModal.notes := "Moved" |} in
  let r := VehicleModal.handleSubmit "unused" (Some Sample.unit7) f
             (Sample.world "u2" []) in
  Backend.db (fst r) = Backend.db (Sample.world "u2" []) /\
  VehicleModal.error (snd r) = None.
Proof.
  intros f r.
  destruct (non_admin_vehicle_save_is_silent "unused" Sample.unit7 f
              (Sample.world "u2" [])) as (H1 & H2 & _).
  - intros u [= <-]. reflexivity.
  - reflexivity.
  - split; assumption.
Defined.

Section FlowFacts.

Import Backend.



End FlowFacts.



Section NotesFacts.

Import Backend.

Lemma update_status_keeps_caller now n o notes w :
  auth_uid (fst (WorkOrders.handleUpdateStatus now n o notes w)) = auth_uid w.
Proof.
  unfold WorkOrders.handleUpdateStatus, bind.
  destruct (WorkOrders.is_completed n); reflexivity.
Qed.

End NotesFacts.

(** X24.  The Complete button never touches the resolution notes, so notes
    saved earlier survive completion: when an admin marks an order in
    progress with notes and then completes it, the order is completed,
    resolved at the time of the completion by the admin, and its
    resolution notes are the notes typed at the first step (null if none
    were typed). *)
Theorem notes_survive_completion :
  forall (now1 now2 : string) (o shown : WorkOrder.t) (notes : string)
         (session : option AuthStore.Session) (w : Backend.World)
         (caller : string) (r : WorkOrder.t),
    Backend.auth_uid w = Some caller ->
    Policy.is_admin (Backend.profiles (Backend.db w)) caller = true ->
    WorkOrderModal.session_user_id session = Some caller ->
    caller <> "" ->
    WorkOrder.id shown = WorkOrder.id o ->
    let w1 := fst (WorkOrders.handleUpdateStatus
                     now1 WorkOrders.to_in_progress o notes w) in
    let w2 := fst (WorkOrders.handleCompleteWorkOrder now2 session shown w1) in
    In r (Backend.work_orders (Backend.db w2)) ->
    WorkOrder.id r = WorkOrder.id o ->
    WorkOrder.status r = completed /\
    WorkOrder.resolved_at r = Some now2 /\
    WorkOrder.resolved_by r = Some caller /\
    WorkOrder.resolution_notes r = or_null notes.
Proof.
  intros now1 now2 o shown notes session w caller r
         Ha Hadm Hs Hne Hshown w1 w2 Hin Hid.
  assert (Ha1 : Backend.auth_uid w1 = Some caller).
  { subst w1. now rewrite update_status_keeps_caller. }
  assert (Hadm1 : Policy.is_admin (Backend.profiles (Backend.db w1)) caller = true).
  { subst w1.
    destruct (update_status_other_tables now1 WorkOrders.to_in_progress o notes w)
      as (E & _). now rewrite E. }
  subst w2. rewrite complete_order_rows in Hin.
  rewrite <- Hshown in Hid.
  destruct (admin_update_order_rows w1 caller Ha1 Hadm1 _ _ r Hin Hid)
    as (r1 & Hin1 & ->).
  subst w1. rewrite update_status_rows in Hin1.
  simpl in Hid. rewrite Hshown in Hid.
  destruct (admin_update_order_rows w caller Ha Hadm _ _ r1 Hin1 Hid)
    as (r0 & _ & ->).
  simpl. rewrite Hs. simpl.
  rewrite or_null_truthy by (destruct caller; [congruence | reflexivity]).
  repeat split. now destruct (or_null notes).
Qed.

(** Ada starts the brake job with a note and completes it later. *)
Lemma notes_survive_completion_witness :
  let w := Sample.world "a1" [Sample.order_with pending] in
  let w1 := fst (WorkOrders.handleUpdateStatus Sample.noon
                   WorkOrders.to_in_progress (Sample.order_with pending)
                   "Parts ordered" w) in
  let w2 := fst (WorkOrders.handleCompleteWorkOrder
                   "2025-01-03T09:00:00.000Z" (Sample.session_of "a1")
                   (Sample.order_with in_progress) w1) in
  exists r,
    Backend.work_orders (Backend.db w2) = [r] /\
    WorkOrder.status r = completed /\
    WorkOrder.resolution_notes r = Some "Parts ordered".
Proof.
  intros w w1 w2.
  assert (E : exists r, Backend.work_orders (Backend.db w2) = [r] /\
                        WorkOrder.id r = "w1").
  { eexists. split; reflexivity. }
  destruct E as (r & E & Hid).
  exists r. split; [exact E|].
  destruct (notes_survive_completion Sample.noon "2025-01-03T09:00:00.000Z"
              (Sample.order_with pending) (Sample.order_with in_progress)
              "Parts ordered" (Sample.session_of "a1") w "a1" r
              eq_refl eq_refl eq_refl ltac:(discriminate) eq_refl)
    as (H1 & _ & _ & H4).
  - fold w1. fold w2. rewrite E. now left.
  - exact Hid.
  - split; [exact H1 | exact H4].
Defined.
